(** * LM_LSTM_CRF: the sequence-labelling model of [model/lm_lstm_crf.py]

    The Python class [LM_LSTM_CRF] is embedded method by method.  The
    object [self] is a record of its attributes; a method is a computation
    in a small monad that threads [self], may raise a Python exception and
    records every sub-module it calls.

    Tensors are symbolic: a term of type [Tensor] records how a value is
    computed by the tensor runtime (which module or function produced it,
    from which operands) and determines its shape.  The contents of a
    tensor (its elements and their type) are not represented.  A runtime
    operation or module call raises ([TorchError]) when the shapes of its
    operands do not fit, which is computed, or when it refuses their
    contents (an index out of range in an embedding look-up or in
    [gather], an element type it does not support), which is a parameter
    of the model: [accepts t] says whether the step that computes the term
    [t] accepts the contents of its operands.

    The modules [model.crf], [model.highway], [model.submodel] and
    [model.utils] are imported by the file but their code is not part of
    it: their results are kept as uninterpreted terms, and the shapes of
    these results and the initialisers of [model.utils], of the highway
    block and of the CRF heads are parameters too (class [Absent]).

    A module or parameter held by an attribute is a value of the record:
    two attributes do not share storage, which is how [__init__] builds
    the object (one constructor call per attribute). *)

From Stdlib Require Import ZArith String List Bool Lia QArith.
Import ListNotations.
Open Scope string_scope.
Open Scope list_scope.
Open Scope Z_scope.

Set Implicit Arguments.
Set Warnings "-register-all".

(** ** Python values *)

(** The exceptions the code can raise.  [TorchError] stands for any
    exception raised inside the tensor runtime or inside a module whose
    code is absent, whatever its Python class. *)
Inductive exn : Type :=
| AssertionError
| IndexError
| AttributeError
| TorchError.

Inductive outcome (A : Type) : Type :=
| Ok (a : A)
| Raise (e : exn).

Arguments Ok {A} a.
Arguments Raise {A} e.

Definition outcome_bind {A B : Type} (o : outcome A) (f : A -> outcome B) : outcome B :=
  match o with
  | Ok a => f a
  | Raise e => Raise e
  end.

Definition of_option {A : Type} (e : exn) (o : option A) : outcome A :=
  match o with
  | Some a => Ok a
  | None => Raise e
  end.

(** [range(n)]: empty when [n <= 0]. *)
Definition range (n : Z) : list nat := seq 0 (Z.to_nat n).

(** Indexing a tuple or list with an int: negative indices count from the
    end, anything outside [-len, len) is an [IndexError]. *)
Definition abs_index (len : nat) (i : Z) : option nat :=
  if (0 <=? i) && (i <? Z.of_nat len) then Some (Z.to_nat i)
  else if (- Z.of_nat len <=? i) && (i <? 0) then Some (Z.to_nat (i + Z.of_nat len))
  else None.

Definition getitem {A : Type} (l : list A) (i : Z) : outcome (nat * A) :=
  match abs_index (length l) i with
  | Some k =>
      match nth_error l k with
      | Some a => Ok (k, a)
      | None => Raise IndexError
      end
  | None => Raise IndexError
  end.

(** A dropout ratio is a Python float; it is only ever handed on to the
    runtime, so a rational stands for it. *)
Definition ratio : Type := Q.

(** The word dictionary handed to the mask helpers of [model.utils]. *)
Definition Dict : Type := list (string * Z).

(** ** Modules and tensors *)

(** The attribute path under which a sub-module hangs off [self]:
    [self.fc] is [Attr "fc"], [self.crflist[2]] is [Item "crflist" 2]. *)
Inductive attr : Type :=
| Attr (name : string)
| Item (name : string) (index : nat).

(** The learned parameters of a module, symbolically: as drawn when the
    module was constructed for the attribute [owner], or drawn again
    since. *)
Inductive Weights : Type :=
| Fresh (owner : attr)
| Redrawn (old : Weights).

(** [torch.nn.LSTM] *)
Record LSTM : Type := {
  input_size : Z;
  hidden_size : Z;
  num_layers : Z;
  bidirectional : bool;
  lstm_dropout : ratio;
  lstm_weights : Weights
}.

(** [torch.nn.Linear] *)
Record Linear : Type := {
  in_features : Z;
  out_features : Z;
  linear_weights : Weights
}.

(** [torch.nn.Dropout] *)
Record Dropout : Type := { p : ratio }.

(** [model.highway.hw], by its constructor arguments. *)
Record hw : Type := {
  hw_size : Z;
  hw_num_layers : Z;
  hw_dropout_ratio : ratio;
  hw_weights : Weights
}.

(** [model.crf.CRF_L] and [model.crf.CRF_S], by their constructor
    arguments. *)
Inductive CRF : Type :=
| CRF_L (hidden_dim tagset_size : Z) (w : Weights)
| CRF_S (hidden_dim tagset_size : Z) (w : Weights).

(** [model.submodel.EncoderLayer], by its constructor arguments. *)
Record EncoderLayer : Type := {
  d_model : Z;
  d_inner : Z;
  n_head : Z;
  d_k : Z;
  d_v : Z;
  enc_dropout : ratio;
  enc_weights : Weights
}.

(** Tensor terms.  The first group are leaves, the second the tensors
    returned by [torch], the third the tensors returned by the modules and
    helpers of this repository whose code is absent. *)
Inductive Tensor : Type :=
| Input (name : string) (shape : list Z)
| Param (owner : attr) (shape : list Z)
| F_embedding (input weight : Tensor)
| F_dropout (p : ratio) (input : Tensor)
| LSTM_output (l : LSTM) (input : Tensor)
| LSTM_h_n (l : LSTM) (input : Tensor)
| LSTM_c_n (l : LSTM) (input : Tensor)
| F_linear (l : Linear) (input : Tensor)
| T_unsqueeze (t : Tensor) (dim : Z)
| T_expand (t : Tensor) (sizes : list Z)
| T_gather (t : Tensor) (dim : Z) (index : Tensor)
| T_cat (ts : list Tensor) (dim : Z)
| T_permute (t : Tensor) (dims : list Z)
| T_view (t : Tensor) (sizes : list Z)
| sinusoid_encoding_table (n_position d_hid padding_idx : Z)
| embedding_redrawn (weight : Tensor)
| hw_output (h : hw) (input : Tensor)
| attn_key_pad_mask (seq_k seq_q : Tensor) (word_dict : Dict)
| non_pad_mask (seq : Tensor) (word_dict : Dict)
| EncoderLayer_output (l : EncoderLayer) (enc_input non_pad slf_attn : Tensor)
| CRF_output (c : CRF) (feats : Tensor).

(** [torch.nn.Parameter] and [torch.nn.Embedding]. *)
Record nn_Parameter : Type := {
  data : Tensor;
  requires_grad : bool
}.

Record Embedding : Type := { weight : nn_Parameter }.

(** ** Shapes *)

Definition numel (s : list Z) : Z := fold_right Z.mul 1 s.

Fixpoint traverse {A B : Type} (f : A -> option B) (l : list A) : option (list B) :=
  match l with
  | [] => Some []
  | a :: l' =>
      match f a, traverse f l' with
      | Some b, Some bs => Some (b :: bs)
      | _, _ => None
      end
  end.

Fixpoint nodupb (l : list nat) : bool :=
  match l with
  | [] => true
  | a :: l' => negb (existsb (Nat.eqb a) l') && nodupb l'
  end.

(** [t.view(req)]: at most one requested size may be [-1], and is then
    inferred; the number of elements must be kept. *)
Definition view_shape (s req : list Z) : option (list Z) :=
  if forallb (fun d => -1 <=? d) req then
    match count_occ Z.eq_dec req (-1) with
    | O => if numel req =? numel s then Some req else None
    | 1%nat =>
        let known := numel (filter (fun d => negb (d =? -1)) req) in
        if (0 <? known) && (numel s mod known =? 0)
        then Some (map (fun d => if d =? -1 then numel s / known else d) req)
        else None
    | _ => None
    end
  else None.

(** [t.permute(dims)]: [dims] must name every axis once. *)
Definition permute_shape (s dims : list Z) : option (list Z) :=
  match traverse (abs_index (length s)) dims with
  | Some ds =>
      if (length ds =? length s)%nat && nodupb ds
      then Some (map (fun d => nth d s 0) ds)
      else None
  | None => None
  end.

(** [t.unsqueeze(dim)] *)
Definition unsqueeze_shape (s : list Z) (dim : Z) : option (list Z) :=
  match abs_index (S (length s)) dim with
  | Some d => Some (firstn d s ++ 1 :: skipn d s)
  | None => None
  end.

Fixpoint expand_dims (s req : list Z) : option (list Z) :=
  match s, req with
  | [], [] => Some []
  | e :: s', r :: req' =>
      match expand_dims s' req' with
      | Some rest =>
          if r =? -1 then Some (e :: rest)
          else if r =? e then Some (e :: rest)
          else if (e =? 1) && (0 <=? r) then Some (r :: rest)
          else None
      | None => None
      end
  | _, _ => None
  end.

(** [t.expand(req)]: axes of size one are stretched, [-1] keeps an axis,
    new axes may only be added in front. *)
Definition expand_shape (s req : list Z) : option (list Z) :=
  let k := (length req - length s)%nat in
  if (length s <=? length req)%nat && forallb (fun d => 0 <=? d) (firstn k req) then
    match expand_dims s (skipn k req) with
    | Some rest => Some (firstn k req ++ rest)
    | None => None
    end
  else None.

(** [torch.gather(t, dim, index)]: the result has the shape of [index],
    which may not exceed [t] on any axis other than [dim]. *)
Definition gather_shape (s : list Z) (dim : Z) (idx : list Z) : option (list Z) :=
  if (length s =? length idx)%nat then
    match abs_index (length s) dim with
    | Some d =>
        if forallb (fun i => (i =? d)%nat || (nth i idx 0 <=? nth i s 0))
             (seq 0 (length s))
        then Some idx else None
    | None => None
    end
  else None.

(** [torch.cat(ts, dim)]: all operands agree off the axis [dim]. *)
Definition cat_shape (ss : list (list Z)) (dim : Z) : option (list Z) :=
  match ss with
  | [] => None
  | s0 :: rest =>
      match abs_index (length s0) dim with
      | Some d =>
          if forallb (fun s => (length s =? length s0)%nat &&
                               forallb (fun i => (i =? d)%nat || (nth i s 0 =? nth i s0 0))
                                 (seq 0 (length s0))) rest
          then Some (firstn d s0 ++
                     fold_right Z.add 0 (map (fun s => nth d s 0) ss) :: skipn (S d) s0)
          else None
      | None => None
      end
  end.

(** [F.embedding(input, weight)]: one row of the table per index. *)
Definition embedding_shape (idx w : list Z) : option (list Z) :=
  match w with
  | [_; d] => Some (idx ++ [d])
  | _ => None
  end.

Definition num_directions (l : LSTM) : Z := if bidirectional l then 2 else 1.

(** An [nn.LSTM] (sequence first) on [(seq_len, batch, input_size)], or
    on [(seq_len, input_size)] for a single sequence; the sequence may not
    be empty. *)
Definition lstm_shape (l : LSTM) (s : list Z) : option (list Z) :=
  match s with
  | [len; batch; inp] =>
      if (inp =? input_size l) && (0 <? len)
      then Some [len; batch; hidden_size l * num_directions l]
      else None
  | [len; inp] =>
      if (inp =? input_size l) && (0 <? len)
      then Some [len; hidden_size l * num_directions l]
      else None
  | _ => None
  end.

Definition lstm_state_shape (l : LSTM) (s : list Z) : option (list Z) :=
  match s with
  | [len; batch; inp] =>
      if (inp =? input_size l) && (0 <? len)
      then Some [num_layers l * num_directions l; batch; hidden_size l]
      else None
  | [len; inp] =>
      if (inp =? input_size l) && (0 <? len)
      then Some [num_layers l * num_directions l; hidden_size l]
      else None
  | _ => None
  end.

(** An [nn.Linear] acts on the last axis. *)
Definition linear_shape (l : Linear) (s : list Z) : option (list Z) :=
  match rev s with
  | last :: front =>
      if last =? in_features l then Some (rev front ++ [out_features l]) else None
  | [] => None
  end.

(** What is taken as given.  From the code that is absent: the shapes of
    the tensors its modules and helpers return ([None] stands for a call
    that raises on operands of these shapes), and the initialisers, which
    are called for their effect on the module or parameter they are given.
    From the contents of the tensors, which the terms do not carry:
    whether the step computing [t] accepts the contents of its operands
    ([accepts t]), and whether [t] may become a parameter
    ([can_require_grad t]: [nn.Parameter] wants floating-point or complex
    elements). *)
Class Absent : Type := {
  accepts : Tensor -> bool;
  can_require_grad : Tensor -> bool;
  sinusoid_size : Z -> Z -> Z -> list Z;
  hw_shape : hw -> list Z -> option (list Z);
  CRF_shape : CRF -> list Z -> option (list Z);
  EncoderLayer_shape : EncoderLayer -> list Z -> list Z -> list Z -> option (list Z);
  attn_key_pad_mask_shape : list Z -> list Z -> Dict -> option (list Z);
  non_pad_mask_shape : list Z -> Dict -> option (list Z);
  init_embedding : nn_Parameter -> nn_Parameter;
  init_lstm : LSTM -> LSTM;
  init_linear : Linear -> Linear;
  hw_rand_init : hw -> hw;
  CRF_rand_init : CRF -> CRF
}.

Definition or_scalar (o : option (list Z)) : list Z :=
  match o with
  | Some s => s
  | None => []
  end.

Section Runtime.

Context {absent : Absent}.

(** [t.size()] *)
Fixpoint size (t : Tensor) : list Z :=
  match t with
  | Input _ shape => shape
  | Param _ shape => shape
  | F_embedding input w => or_scalar (embedding_shape (size input) (size w))
  | F_dropout _ input => size input
  | LSTM_output l input => or_scalar (lstm_shape l (size input))
  | LSTM_h_n l input => or_scalar (lstm_state_shape l (size input))
  | LSTM_c_n l input => or_scalar (lstm_state_shape l (size input))
  | F_linear l input => or_scalar (linear_shape l (size input))
  | T_unsqueeze t' dim => or_scalar (unsqueeze_shape (size t') dim)
  | T_expand t' sizes => or_scalar (expand_shape (size t') sizes)
  | T_gather t' dim index => or_scalar (gather_shape (size t') dim (size index))
  | T_cat ts dim => or_scalar (cat_shape (map size ts) dim)
  | T_permute t' dims => or_scalar (permute_shape (size t') dims)
  | T_view t' sizes => or_scalar (view_shape (size t') sizes)
  | sinusoid_encoding_table n d pad => sinusoid_size n d pad
  | embedding_redrawn w => size w
  | hw_output h input => or_scalar (hw_shape h (size input))
  | attn_key_pad_mask k q dict => or_scalar (attn_key_pad_mask_shape (size k) (size q) dict)
  | non_pad_mask s dict => or_scalar (non_pad_mask_shape (size s) dict)
  | EncoderLayer_output l x npm sam =>
      or_scalar (EncoderLayer_shape l (size x) (size npm) (size sam))
  | CRF_output c feats => or_scalar (CRF_shape c (size feats))
  end.

(** A runtime operation returns its term when the shapes fit and the
    contents are accepted. *)
Definition checked (shape : option (list Z)) (t : Tensor) : outcome Tensor :=
  match shape with
  | Some _ => if accepts t then Ok t else Raise TorchError
  | None => Raise TorchError
  end.

Definition unsqueeze (t : Tensor) (dim : Z) : outcome Tensor :=
  checked (unsqueeze_shape (size t) dim) (T_unsqueeze t dim).

Definition expand (t : Tensor) (sizes : list Z) : outcome Tensor :=
  checked (expand_shape (size t) sizes) (T_expand t sizes).

Definition gather (t : Tensor) (dim : Z) (index : Tensor) : outcome Tensor :=
  checked (gather_shape (size t) dim (size index)) (T_gather t dim index).

Definition cat (ts : list Tensor) (dim : Z) : outcome Tensor :=
  checked (cat_shape (map size ts) dim) (T_cat ts dim).

Definition permute (t : Tensor) (dims : list Z) : outcome Tensor :=
  checked (permute_shape (size t) dims) (T_permute t dims).

Definition view (t : Tensor) (sizes : list Z) : outcome Tensor :=
  checked (view_shape (size t) sizes) (T_view t sizes).

(** Where an element lies.  A tensor is stored row by row: the element at
    [idx] has offset [ravel shape idx].  [t.view(sizes)] shares the storage
    of [t], so its element at [idx] is the element of [t] at the same
    offset; [t.permute(dims)] renames the axes, axis [dims[k]] of [t]
    becoming axis [k]. *)
Fixpoint ravel (shape idx : list Z) : Z :=
  match shape, idx with
  | _ :: shape', i :: idx' => i * numel shape' + ravel shape' idx'
  | _, _ => 0
  end.

Fixpoint unravel (shape : list Z) (offset : Z) : list Z :=
  match shape with
  | [] => []
  | _ :: shape' => offset / numel shape' :: unravel shape' (offset mod numel shape')
  end.

Fixpoint position_of (rank axis : nat) (dims : list Z) : nat :=
  match dims with
  | [] => 0
  | d :: dims' =>
      match abs_index rank d with
      | Some k => if (k =? axis)%nat then 0%nat else S (position_of rank axis dims')
      | None => S (position_of rank axis dims')
      end
  end.

Definition unpermute (dims idx : list Z) : list Z :=
  map (fun axis => nth (position_of (length dims) axis dims) idx 0) (seq 0 (length dims)).

(** The tensor that holds the element at [idx] of [t], and the offset of
    the element there. *)
Fixpoint element_of (t : Tensor) (idx : list Z) : Tensor * Z :=
  match t with
  | T_permute t' dims => element_of t' (unpermute dims idx)
  | T_view t' _ => (t', ravel (size t) idx)
  | _ => (t, ravel (size t) idx)
  end.

End Runtime.

(** ** The model object

    One field per attribute that [__init__] assigns.  The five highway
    attributes exist only on some objects, hence the options: reading an
    absent one is an [AttributeError]. *)
Record LM_LSTM_CRF : Type := {
  char_dim : Z;
  char_hidden_dim : Z;
  char_size : Z;
  word_dim : Z;
  word_hidden_dim : Z;
  word_size : Z;
  if_highway : bool;
  word_level_attention : bool;
  char_embeds : Embedding;
  forw_char_lstm : LSTM;
  back_char_lstm : LSTM;
  char_rnn_layers : Z;
  word_embeds : Embedding;
  word_lstm : LSTM;
  word_rnn_layers : Z;
  dropout : Dropout;
  tagset_size : Z;
  crflist : list CRF;
  forw2char : option hw;
  back2char : option hw;
  forw2word : option hw;
  back2word : option hw;
  fb2char : option hw;
  char_pre_train_out : Linear;
  word_pre_train_out : Linear;
  batch_size : Z;
  word_seq_length : Z;
  position_enc : Embedding;
  layer_stack : list EncoderLayer;
  fc : Linear
}.

(** Assignment to one attribute; every other attribute keeps its value. *)

Definition with_batch_size (v : Z) (self : LM_LSTM_CRF) : LM_LSTM_CRF :=
  {| char_dim := char_dim self; char_hidden_dim := char_hidden_dim self;
     char_size := char_size self; word_dim := word_dim self;
     word_hidden_dim := word_hidden_dim self; word_size := word_size self;
     if_highway := if_highway self;
     word_level_attention := word_level_attention self;
     char_embeds := char_embeds self; forw_char_lstm := forw_char_lstm self;
     back_char_lstm := back_char_lstm self;
     char_rnn_layers := char_rnn_layers self; word_embeds := word_embeds self;
     word_lstm := word_lstm self; word_rnn_layers := word_rnn_layers self;
     dropout := dropout self; tagset_size := tagset_size self;
     crflist := crflist self; forw2char := forw2char self;
     back2char := back2char self; forw2word := forw2word self;
     back2word := back2word self; fb2char := fb2char self;
     char_pre_train_out := char_pre_train_out self;
     word_pre_train_out := word_pre_train_out self; batch_size := v;
     word_seq_length := word_seq_length self;
     position_enc := position_enc self; layer_stack := layer_stack self;
     fc := fc self |}.

Definition with_word_seq_length (v : Z) (self : LM_LSTM_CRF) : LM_LSTM_CRF :=
  {| char_dim := char_dim self; char_hidden_dim := char_hidden_dim self;
     char_size := char_size self; word_dim := word_dim self;
     word_hidden_dim := word_hidden_dim self; word_size := word_size self;
     if_highway := if_highway self;
     word_level_attention := word_level_attention self;
     char_embeds := char_embeds self; forw_char_lstm := forw_char_lstm self;
     back_char_lstm := back_char_lstm self;
     char_rnn_layers := char_rnn_layers self; word_embeds := word_embeds self;
     word_lstm := word_lstm self; word_rnn_layers := word_rnn_layers self;
     dropout := dropout self; tagset_size := tagset_size self;
     crflist := crflist self; forw2char := forw2char self;
     back2char := back2char self; forw2word := forw2word self;
     back2word := back2word self; fb2char := fb2char self;
     char_pre_train_out := char_pre_train_out self;
     word_pre_train_out := word_pre_train_out self;
     batch_size := batch_size self; word_seq_length := v;
     position_enc := position_enc self; layer_stack := layer_stack self;
     fc := fc self |}.

Definition with_char_embeds (v : Embedding) (self : LM_LSTM_CRF) : LM_LSTM_CRF :=
  {| char_dim := char_dim self; char_hidden_dim := char_hidden_dim self;
     char_size := char_size self; word_dim := word_dim self;
     word_hidden_dim := word_hidden_dim self; word_size := word_size self;
     if_highway := if_highway self;
     word_level_attention := word_level_attention self; char_embeds := v;
     forw_char_lstm := forw_char_lstm self;
     back_char_lstm := back_char_lstm self;
     char_rnn_layers := char_rnn_layers self; word_embeds := word_embeds self;
     word_lstm := word_lstm self; word_rnn_layers := word_rnn_layers self;
     dropout := dropout self; tagset_size := tagset_size self;
     crflist := crflist self; forw2char := forw2char self;
     back2char := back2char self; forw2word := forw2word self;
     back2word := back2word self; fb2char := fb2char self;
     char_pre_train_out := char_pre_train_out self;
     word_pre_train_out := word_pre_train_out self;
     batch_size := batch_size self; word_seq_length := word_seq_length self;
     position_enc := position_enc self; layer_stack := layer_stack self;
     fc := fc self |}.

Definition with_word_embeds (v : Embedding) (self : LM_LSTM_CRF) : LM_LSTM_CRF :=
  {| char_dim := char_dim self; char_hidden_dim := char_hidden_dim self;
     char_size := char_size self; word_dim := word_dim self;
     word_hidden_dim := word_hidden_dim self; word_size := word_size self;
     if_highway := if_highway self;
     word_level_attention := word_level_attention self;
     char_embeds := char_embeds self; forw_char_lstm := forw_char_lstm self;
     back_char_lstm := back_char_lstm self;
     char_rnn_layers := char_rnn_layers self; word_embeds := v;
     word_lstm := word_lstm self; word_rnn_layers := word_rnn_layers self;
     dropout := dropout self; tagset_size := tagset_size self;
     crflist := crflist self; forw2char := forw2char self;
     back2char := back2char self; forw2word := forw2word self;
     back2word := back2word self; fb2char := fb2char self;
     char_pre_train_out := char_pre_train_out self;
     word_pre_train_out := word_pre_train_out self;
     batch_size := batch_size self; word_seq_length := word_seq_length self;
     position_enc := position_enc self; layer_stack := layer_stack self;
     fc := fc self |}.

Definition with_forw2char (v : option hw) (self : LM_LSTM_CRF) : LM_LSTM_CRF :=
  {| char_dim := char_dim self; char_hidden_dim := char_hidden_dim self;
     char_size := char_size self; word_dim := word_dim self;
     word_hidden_dim := word_hidden_dim self; word_size := word_size self;
     if_highway := if_highway self;
     word_level_attention := word_level_attention self;
     char_embeds := char_embeds self; forw_char_lstm := forw_char_lstm self;
     back_char_lstm := back_char_lstm self;
     char_rnn_layers := char_rnn_layers self; word_embeds := word_embeds self;
     word_lstm := word_lstm self; word_rnn_layers := word_rnn_layers self;
     dropout := dropout self; tagset_size := tagset_size self;
     crflist := crflist self; forw2char := v; back2char := back2char self;
     forw2word := forw2word self; back2word := back2word self;
     fb2char := fb2char self; char_pre_train_out := char_pre_train_out self;
     word_pre_train_out := word_pre_train_out self;
     batch_size := batch_size self; word_seq_length := word_seq_length self;
     position_enc := position_enc self; layer_stack := layer_stack self;
     fc := fc self |}.

Definition with_back2char (v : option hw) (self : LM_LSTM_CRF) : LM_LSTM_CRF :=
  {| char_dim := char_dim self; char_hidden_dim := char_hidden_dim self;
     char_size := char_size self; word_dim := word_dim self;
     word_hidden_dim := word_hidden_dim self; word_size := word_size self;
     if_highway := if_highway self;
     word_level_attention := word_level_attention self;
     char_embeds := char_embeds self; forw_char_lstm := forw_char_lstm self;
     back_char_lstm := back_char_lstm self;
     char_rnn_layers := char_rnn_layers self; word_embeds := word_embeds self;
     word_lstm := word_lstm self; word_rnn_layers := word_rnn_layers self;
     dropout := dropout self; tagset_size := tagset_size self;
     crflist := crflist self; forw2char := forw2char self; back2char := v;
     forw2word := forw2word self; back2word := back2word self;
     fb2char := fb2char self; char_pre_train_out := char_pre_train_out self;
     word_pre_train_out := word_pre_train_out self;
     batch_size := batch_size self; word_seq_length := word_seq_length self;
     position_enc := position_enc self; layer_stack := layer_stack self;
     fc := fc self |}.

Definition with_forw2word (v : option hw) (self : LM_LSTM_CRF) : LM_LSTM_CRF :=
  {| char_dim := char_dim self; char_hidden_dim := char_hidden_dim self;
     char_size := char_size self; word_dim := word_dim self;
     word_hidden_dim := word_hidden_dim self; word_size := word_size self;
     if_highway := if_highway self;
     word_level_attention := word_level_attention self;
     char_embeds := char_embeds self; forw_char_lstm := forw_char_lstm self;
     back_char_lstm := back_char_lstm self;
     char_rnn_layers := char_rnn_layers self; word_embeds := word_embeds self;
     word_lstm := word_lstm self; word_rnn_layers := word_rnn_layers self;
     dropout := dropout self; tagset_size := tagset_size self;
     crflist := crflist self; forw2char := forw2char self;
     back2char := back2char self; forw2word := v; back2word := back2word self;
     fb2char := fb2char self; char_pre_train_out := char_pre_train_out self;
     word_pre_train_out := word_pre_train_out self;
     batch_size := batch_size self; word_seq_length := word_seq_length self;
     position_enc := position_enc self; layer_stack := layer_stack self;
     fc := fc self |}.

Definition with_back2word (v : option hw) (self : LM_LSTM_CRF) : LM_LSTM_CRF :=
  {| char_dim := char_dim self; char_hidden_dim := char_hidden_dim self;
     char_size := char_size self; word_dim := word_dim self;
     word_hidden_dim := word_hidden_dim self; word_size := word_size self;
     if_highway := if_highway self;
     word_level_attention := word_level_attention self;
     char_embeds := char_embeds self; forw_char_lstm := forw_char_lstm self;
     back_char_lstm := back_char_lstm self;
     char_rnn_layers := char_rnn_layers self; word_embeds := word_embeds self;
     word_lstm := word_lstm self; word_rnn_layers := word_rnn_layers self;
     dropout := dropout self; tagset_size := tagset_size self;
     crflist := crflist self; forw2char := forw2char self;
     back2char := back2char self; forw2word := forw2word self; back2word := v;
     fb2char := fb2char self; char_pre_train_out := char_pre_train_out self;
     word_pre_train_out := word_pre_train_out self;
     batch_size := batch_size self; word_seq_length := word_seq_length self;
     position_enc := position_enc self; layer_stack := layer_stack self;
     fc := fc self |}.

Definition with_fb2char (v : option hw) (self : LM_LSTM_CRF) : LM_LSTM_CRF :=
  {| char_dim := char_dim self; char_hidden_dim := char_hidden_dim self;
     char_size := char_size self; word_dim := word_dim self;
     word_hidden_dim := word_hidden_dim self; word_size := word_size self;
     if_highway := if_highway self;
     word_level_attention := word_level_attention self;
     char_embeds := char_embeds self; forw_char_lstm := forw_char_lstm self;
     back_char_lstm := back_char_lstm self;
     char_rnn_layers := char_rnn_layers self; word_embeds := word_embeds self;
     word_lstm := word_lstm self; word_rnn_layers := word_rnn_layers self;
     dropout := dropout self; tagset_size := tagset_size self;
     crflist := crflist self; forw2char := forw2char self;
     back2char := back2char self; forw2word := forw2word self;
     back2word := back2word self; fb2char := v;
     char_pre_train_out := char_pre_train_out self;
     word_pre_train_out := word_pre_train_out self;
     batch_size := batch_size self; word_seq_length := word_seq_length self;
     position_enc := position_enc self; layer_stack := layer_stack self;
     fc := fc self |}.

Definition with_forw_char_lstm (v : LSTM) (self : LM_LSTM_CRF) : LM_LSTM_CRF :=
  {| char_dim := char_dim self; char_hidden_dim := char_hidden_dim self;
     char_size := char_size self; word_dim := word_dim self;
     word_hidden_dim := word_hidden_dim self; word_size := word_size self;
     if_highway := if_highway self;
     word_level_attention := word_level_attention self;
     char_embeds := char_embeds self; forw_char_lstm := v;
     back_char_lstm := back_char_lstm self;
     char_rnn_layers := char_rnn_layers self; word_embeds := word_embeds self;
     word_lstm := word_lstm self; word_rnn_layers := word_rnn_layers self;
     dropout := dropout self; tagset_size := tagset_size self;
     crflist := crflist self; forw2char := forw2char self;
     back2char := back2char self; forw2word := forw2word self;
     back2word := back2word self; fb2char := fb2char self;
     char_pre_train_out := char_pre_train_out self;
     word_pre_train_out := word_pre_train_out self;
     batch_size := batch_size self; word_seq_length := word_seq_length self;
     position_enc := position_enc self; layer_stack := layer_stack self;
     fc := fc self |}.

Definition with_back_char_lstm (v : LSTM) (self : LM_LSTM_CRF) : LM_LSTM_CRF :=
  {| char_dim := char_dim self; char_hidden_dim := char_hidden_dim self;
     char_size := char_size self; word_dim := word_dim self;
     word_hidden_dim := word_hidden_dim self; word_size := word_size self;
     if_highway := if_highway self;
     word_level_attention := word_level_attention self;
     char_embeds := char_embeds self; forw_char_lstm := forw_char_lstm self;
     back_char_lstm := v; char_rnn_layers := char_rnn_layers self;
     word_embeds := word_embeds self; word_lstm := word_lstm self;
     word_rnn_layers := word_rnn_layers self; dropout := dropout self;
     tagset_size := tagset_size self; crflist := crflist self;
     forw2char := forw2char self; back2char := back2char self;
     forw2word := forw2word self; back2word := back2word self;
     fb2char := fb2char self; char_pre_train_out := char_pre_train_out self;
     word_pre_train_out := word_pre_train_out self;
     batch_size := batch_size self; word_seq_length := word_seq_length self;
     position_enc := position_enc self; layer_stack := layer_stack self;
     fc := fc self |}.

Definition with_word_lstm (v : LSTM) (self : LM_LSTM_CRF) : LM_LSTM_CRF :=
  {| char_dim := char_dim self; char_hidden_dim := char_hidden_dim self;
     char_size := char_size self; word_dim := word_dim self;
     word_hidden_dim := word_hidden_dim self; word_size := word_size self;
     if_highway := if_highway self;
     word_level_attention := word_level_attention self;
     char_embeds := char_embeds self; forw_char_lstm := forw_char_lstm self;
     back_char_lstm := back_char_lstm self;
     char_rnn_layers := char_rnn_layers self; word_embeds := word_embeds self;
     word_lstm := v; word_rnn_layers := word_rnn_layers self;
     dropout := dropout self; tagset_size := tagset_size self;
     crflist := crflist self; forw2char := forw2char self;
     back2char := back2char self; forw2word := forw2word self;
     back2word := back2word self; fb2char := fb2char self;
     char_pre_train_out := char_pre_train_out self;
     word_pre_train_out := word_pre_train_out self;
     batch_size := batch_size self; word_seq_length := word_seq_length self;
     position_enc := position_enc self; layer_stack := layer_stack self;
     fc := fc self |}.

Definition with_char_pre_train_out (v : Linear) (self : LM_LSTM_CRF) : LM_LSTM_CRF :=
  {| char_dim := char_dim self; char_hidden_dim := char_hidden_dim self;
     char_size := char_size self; word_dim := word_dim self;
     word_hidden_dim := word_hidden_dim self; word_size := word_size self;
     if_highway := if_highway self;
     word_level_attention := word_level_attention self;
     char_embeds := char_embeds self; forw_char_lstm := forw_char_lstm self;
     back_char_lstm := back_char_lstm self;
     char_rnn_layers := char_rnn_layers self; word_embeds := word_embeds self;
     word_lstm := word_lstm self; word_rnn_layers := word_rnn_layers self;
     dropout := dropout self; tagset_size := tagset_size self;
     crflist := crflist self; forw2char := forw2char self;
     back2char := back2char self; forw2word := forw2word self;
     back2word := back2word self; fb2char := fb2char self;
     char_pre_train_out := v; word_pre_train_out := word_pre_train_out self;
     batch_size := batch_size self; word_seq_length := word_seq_length self;
     position_enc := position_enc self; layer_stack := layer_stack self;
     fc := fc self |}.

Definition with_word_pre_train_out (v : Linear) (self : LM_LSTM_CRF) : LM_LSTM_CRF :=
  {| char_dim := char_dim self; char_hidden_dim := char_hidden_dim self;
     char_size := char_size self; word_dim := word_dim self;
     word_hidden_dim := word_hidden_dim self; word_size := word_size self;
     if_highway := if_highway self;
     word_level_attention := word_level_attention self;
     char_embeds := char_embeds self; forw_char_lstm := forw_char_lstm self;
     back_char_lstm := back_char_lstm self;
     char_rnn_layers := char_rnn_layers self; word_embeds := word_embeds self;
     word_lstm := word_lstm self; word_rnn_layers := word_rnn_layers self;
     dropout := dropout self; tagset_size := tagset_size self;
     crflist := crflist self; forw2char := forw2char self;
     back2char := back2char self; forw2word := forw2word self;
     back2word := back2word self; fb2char := fb2char self;
     char_pre_train_out := char_pre_train_out self; word_pre_train_out := v;
     batch_size := batch_size self; word_seq_length := word_seq_length self;
     position_enc := position_enc self; layer_stack := layer_stack self;
     fc := fc self |}.

Definition with_fc (v : Linear) (self : LM_LSTM_CRF) : LM_LSTM_CRF :=
  {| char_dim := char_dim self; char_hidden_dim := char_hidden_dim self;
     char_size := char_size self; word_dim := word_dim self;
     word_hidden_dim := word_hidden_dim self; word_size := word_size self;
     if_highway := if_highway self;
     word_level_attention := word_level_attention self;
     char_embeds := char_embeds self; forw_char_lstm := forw_char_lstm self;
     back_char_lstm := back_char_lstm self;
     char_rnn_layers := char_rnn_layers self; word_embeds := word_embeds self;
     word_lstm := word_lstm self; word_rnn_layers := word_rnn_layers self;
     dropout := dropout self; tagset_size := tagset_size self;
     crflist := crflist self; forw2char := forw2char self;
     back2char := back2char self; forw2word := forw2word self;
     back2word := back2word self; fb2char := fb2char self;
     char_pre_train_out := char_pre_train_out self;
     word_pre_train_out := word_pre_train_out self;
     batch_size := batch_size self; word_seq_length := word_seq_length self;
     position_enc := position_enc self; layer_stack := layer_stack self;
     fc := v |}.

Definition with_crflist (v : list CRF) (self : LM_LSTM_CRF) : LM_LSTM_CRF :=
  {| char_dim := char_dim self; char_hidden_dim := char_hidden_dim self;
     char_size := char_size self; word_dim := word_dim self;
     word_hidden_dim := word_hidden_dim self; word_size := word_size self;
     if_highway := if_highway self;
     word_level_attention := word_level_attention self;
     char_embeds := char_embeds self; forw_char_lstm := forw_char_lstm self;
     back_char_lstm := back_char_lstm self;
     char_rnn_layers := char_rnn_layers self; word_embeds := word_embeds self;
     word_lstm := word_lstm self; word_rnn_layers := word_rnn_layers self;
     dropout := dropout self; tagset_size := tagset_size self; crflist := v;
     forw2char := forw2char self; back2char := back2char self;
     forw2word := forw2word self; back2word := back2word self;
     fb2char := fb2char self; char_pre_train_out := char_pre_train_out self;
     word_pre_train_out := word_pre_train_out self;
     batch_size := batch_size self; word_seq_length := word_seq_length self;
     position_enc := position_enc self; layer_stack := layer_stack self;
     fc := fc self |}.

(** ** Method computations *)

(** A record of one sub-module call: which attribute was called, on which
    tensors. *)
Record Call : Type := {
  callee : attr;
  args : list Tensor
}.

(** What running a method yields: a result or an exception, the object as
    the method left it (attributes assigned before an exception stay
    assigned), and the sub-module calls it made, in order. *)
Definition run (A : Type) : Type := (outcome A * LM_LSTM_CRF * list Call)%type.

Definition result_of {A : Type} (r : run A) : outcome A := fst (fst r).

Definition self_after {A : Type} (r : run A) : LM_LSTM_CRF := snd (fst r).

Definition calls_of {A : Type} (r : run A) : list Call := snd r.

(** A run that comes after the calls [before]. *)
Definition after {A : Type} (before : list Call) (r : run A) : run A :=
  (result_of r, self_after r, before ++ calls_of r).

(** A method is a function of [self]. *)
Definition M (A : Type) : Type := LM_LSTM_CRF -> run A.

Definition ret {A : Type} (a : A) : M A :=
  fun self => (Ok a, self, []).

Definition bind {A B : Type} (m : M A) (f : A -> M B) : M B :=
  fun self =>
    match m self with
    | (Ok a, self', calls) => after calls (f a self')
    | (Raise e, self', calls) => (Raise e, self', calls)
    end.

Definition raise {A : Type} (e : exn) : M A :=
  fun self => (Raise e, self, []).

Definition lift {A : Type} (o : outcome A) : M A :=
  fun self => (o, self, []).

Definition get : M LM_LSTM_CRF :=
  fun self => (Ok self, self, []).

Definition assign (f : LM_LSTM_CRF -> LM_LSTM_CRF) : M unit :=
  fun self => (Ok tt, f self, []).

Definition call {A : Type} (a : attr) (xs : list Tensor) (r : outcome A) : M A :=
  fun self => (r, self, [{| callee := a; args := xs |}]).

Definition assert (b : bool) : M unit :=
  if b then ret tt else raise AssertionError.

Definition getattr {A : Type} (o : option A) : M A :=
  lift (of_option AttributeError o).

Declare Scope method_scope.
Delimit Scope method_scope with method.
Bind Scope method_scope with M.

Notation "x <- c1 ;; c2" := (bind c1 (fun x => c2))
  (at level 61, c1 at next level, right associativity) : method_scope.
Notation "' pat <- c1 ;; c2" := (bind c1 (fun x => match x with pat => c2 end))
  (at level 61, pat pattern, c1 at next level, right associativity) : method_scope.
Notation "c1 ;; c2" := (bind c1 (fun _ => c2))
  (at level 61, right associativity) : method_scope.

(** [for i, x in enumerate(xs): acc = body(i, x, acc)] *)
Fixpoint for_each {X A : Type} (xs : list (nat * X)) (body : nat -> X -> A -> M A)
  (acc : A) : M A :=
  match xs with
  | [] => ret acc
  | (i, x) :: rest => bind (body i x acc) (for_each rest body)
  end.

Definition enumerate {X : Type} (xs : list X) : list (nat * X) :=
  combine (seq 0 (length xs)) xs.

(** ** Constructors of the sub-modules

    The fresh parameters of a module are named after the attribute that
    receives it. *)

Definition nn_Embedding (owner : attr) (num_embeddings embedding_dim : Z) : Embedding :=
  {| weight := {| data := Param owner [num_embeddings; embedding_dim];
                  requires_grad := true |} |}.

Definition Embedding_from_pretrained (embeddings : Tensor) (freeze : bool) : Embedding :=
  {| weight := {| data := embeddings; requires_grad := negb freeze |} |}.

Definition nn_LSTM (owner : attr) (input_size hidden_size num_layers : Z)
  (bidirectional : bool) (dropout : ratio) : LSTM :=
  {| input_size := input_size; hidden_size := hidden_size;
     num_layers := num_layers; bidirectional := bidirectional;
     lstm_dropout := dropout; lstm_weights := Fresh owner |}.

Definition nn_Linear (owner : attr) (in_features out_features : Z) : Linear :=
  {| in_features := in_features; out_features := out_features;
     linear_weights := Fresh owner |}.

Definition nn_Dropout (p : ratio) : Dropout := {| p := p |}.

Definition highway_hw (owner : attr) (size num_layers : Z) (dropout_ratio : ratio) : hw :=
  {| hw_size := size; hw_num_layers := num_layers;
     hw_dropout_ratio := dropout_ratio; hw_weights := Fresh owner |}.

Definition crf_CRF_L (owner : attr) (hidden_dim tagset_size : Z) : CRF :=
  CRF_L hidden_dim tagset_size (Fresh owner).

Definition crf_CRF_S (owner : attr) (hidden_dim tagset_size : Z) : CRF :=
  CRF_S hidden_dim tagset_size (Fresh owner).

Definition submodel_EncoderLayer (owner : attr) (d_model d_inner n_head d_k d_v : Z)
  (dropout : ratio) : EncoderLayer :=
  {| d_model := d_model; d_inner := d_inner; n_head := n_head; d_k := d_k;
     d_v := d_v; enc_dropout := dropout; enc_weights := Fresh owner |}.

(** ** [LM_LSTM_CRF.__init__]

    The constructor builds the object; the arguments that have defaults in
    Python ([n_layers=1], [n_head=8], [d_k=64], [d_v=64], [large_CRF=True],
    [if_highway=False], [in_doc_words=2], [highway_layers=1],
    [word_level_attention=False]) are given explicitly here. *)

Definition get_sinusoid_encoding_table (n_position d_hid padding_idx : Z) : Tensor :=
  sinusoid_encoding_table n_position d_hid padding_idx.

(** [ModuleList.append] files a module under the current length. *)
Definition ModuleList_append {X : Type} (name : string) (l : list X)
  (new : attr -> X) : list X :=
  l ++ [new (Item name (length l))].

Definition __init__
  (tagset_size char_size char_dim char_hidden_dim char_rnn_layers embedding_dim
   word_hidden_dim word_rnn_layers vocab_size : Z) (dropout_ratio : ratio)
  (file_num len_max_seq n_layers n_head d_k d_v : Z) (large_CRF if_highway : bool)
  (in_doc_words highway_layers : Z) (word_level_attention : bool) : LM_LSTM_CRF :=
  let crflist :=
    fold_left
      (fun crflist (i : nat) =>
         if large_CRF
         then ModuleList_append "crflist" crflist
                (fun a => crf_CRF_L a word_hidden_dim tagset_size)
         else ModuleList_append "crflist" crflist
                (fun a => crf_CRF_S a word_hidden_dim tagset_size))
      (range file_num) [] in
  let highway (name : string) (size : Z) : option hw :=
    if if_highway
    then Some (highway_hw (Attr name) size highway_layers dropout_ratio)
    else None in
  let n_position := len_max_seq + 1 in
  {| char_dim := char_dim;
     char_hidden_dim := char_hidden_dim;
     char_size := char_size;
     word_dim := embedding_dim;
     word_hidden_dim := word_hidden_dim;
     word_size := vocab_size;
     if_highway := if_highway;
     word_level_attention := word_level_attention;
     char_embeds := nn_Embedding (Attr "char_embeds") char_size char_dim;
     forw_char_lstm :=
       nn_LSTM (Attr "forw_char_lstm") char_dim char_hidden_dim char_rnn_layers
         false dropout_ratio;
     back_char_lstm :=
       nn_LSTM (Attr "back_char_lstm") char_dim char_hidden_dim char_rnn_layers
         false dropout_ratio;
     char_rnn_layers := char_rnn_layers;
     word_embeds := nn_Embedding (Attr "word_embeds") vocab_size embedding_dim;
     word_lstm :=
       nn_LSTM (Attr "word_lstm") (embedding_dim + char_hidden_dim * 2)
         (word_hidden_dim / 2) word_rnn_layers true dropout_ratio;
     word_rnn_layers := word_rnn_layers;
     dropout := nn_Dropout dropout_ratio;
     tagset_size := tagset_size;
     crflist := crflist;
     forw2char := highway "forw2char" char_hidden_dim;
     back2char := highway "back2char" char_hidden_dim;
     forw2word := highway "forw2word" char_hidden_dim;
     back2word := highway "back2word" char_hidden_dim;
     fb2char := highway "fb2char" (2 * char_hidden_dim);
     char_pre_train_out := nn_Linear (Attr "char_pre_train_out") char_hidden_dim char_size;
     word_pre_train_out := nn_Linear (Attr "word_pre_train_out") char_hidden_dim in_doc_words;
     batch_size := 1;
     word_seq_length := 1;
     position_enc :=
       Embedding_from_pretrained
         (get_sinusoid_encoding_table n_position embedding_dim 0) true;
     layer_stack :=
       map (fun i =>
              submodel_EncoderLayer (Item "layer_stack" i)
                (embedding_dim * 2 + char_hidden_dim * 2) word_hidden_dim
                n_head d_k d_v dropout_ratio)
         (range n_layers);
     fc := nn_Linear (Attr "fc") (embedding_dim * 2 + char_hidden_dim * 2) word_hidden_dim |}.

(** The constructors of [torch.nn] validate their arguments: [nn.LSTM]
    raises unless [hidden_size] and [num_layers] are positive and [dropout]
    lies within [0, 1], [nn.Dropout] unless [p] does, and no size may be
    negative.  [__init__] above is the object that is built when they
    accept.  [well_sized] asks every size and count to be positive and the
    dropout ratio to be a probability, which is more than these
    constructors ask, and is asked of the arguments handed to the
    constructors of the absent modules too. *)
Definition well_sized
  (tagset_size char_size char_dim char_hidden_dim char_rnn_layers embedding_dim
   word_hidden_dim word_rnn_layers vocab_size : Z) (dropout_ratio : ratio)
  (file_num len_max_seq n_layers n_head d_k d_v in_doc_words highway_layers : Z) : Prop :=
  0 < tagset_size /\ 0 < char_size /\ 0 < char_dim /\ 0 < char_hidden_dim /\
  0 < char_rnn_layers /\ 0 < embedding_dim /\ 0 < word_hidden_dim / 2 /\
  0 < word_rnn_layers /\ 0 < vocab_size /\
  (0 <= dropout_ratio)%Q /\ (dropout_ratio <= 1)%Q /\
  0 <= file_num /\ 0 <= len_max_seq /\ 0 <= n_layers /\ 0 < n_head /\ 0 < d_k /\
  0 < d_v /\ 0 < in_doc_words /\ 0 < highway_layers.

Section Methods.

Context {absent : Absent}.

(** ** Calling a sub-module *)

Definition Embedding_forward (e : Embedding) (input : Tensor) : outcome Tensor :=
  checked (embedding_shape (size input) (size (data (weight e))))
    (F_embedding input (data (weight e))).

(** Dropout is elementwise and has no test to fail on the tensors it is
    given here, which are results of modules. *)
Definition Dropout_forward (d : Dropout) (input : Tensor) : outcome Tensor :=
  Ok (F_dropout (p d) input).

(** An [nn.LSTM] returns its output and the final state [(h_n, c_n)]. *)
Definition LSTM_forward (l : LSTM) (input : Tensor) : outcome (Tensor * (Tensor * Tensor)) :=
  match lstm_shape l (size input) with
  | Some _ =>
      if accepts (LSTM_output l input)
      then Ok (LSTM_output l input, (LSTM_h_n l input, LSTM_c_n l input))
      else Raise TorchError
  | None => Raise TorchError
  end.

(** [nn.Parameter(data)], which requires gradients by default. *)
Definition new_Parameter (data : Tensor) : outcome nn_Parameter :=
  if can_require_grad data
  then Ok {| data := data; requires_grad := true |}
  else Raise TorchError.

Definition Linear_forward (l : Linear) (input : Tensor) : outcome Tensor :=
  checked (linear_shape l (size input)) (F_linear l input).

Definition hw_forward (h : hw) (input : Tensor) : outcome Tensor :=
  checked (hw_shape h (size input)) (hw_output h input).

Definition CRF_forward (c : CRF) (feats : Tensor) : outcome Tensor :=
  checked (CRF_shape c (size feats)) (CRF_output c feats).

(** An encoder layer returns a pair; the caller keeps the first component
    only, which is what this returns. *)
Definition EncoderLayer_forward (l : EncoderLayer) (enc_input non_pad slf_attn : Tensor)
  : outcome Tensor :=
  checked (EncoderLayer_shape l (size enc_input) (size non_pad) (size slf_attn))
    (EncoderLayer_output l enc_input non_pad slf_attn).

Definition get_attn_key_pad_mask (seq_k seq_q : Tensor) (word_dict : Dict) : outcome Tensor :=
  checked (attn_key_pad_mask_shape (size seq_k) (size seq_q) word_dict)
    (attn_key_pad_mask seq_k seq_q word_dict).

Definition get_non_pad_mask (seq : Tensor) (word_dict : Dict) : outcome Tensor :=
  checked (non_pad_mask_shape (size seq) word_dict) (non_pad_mask seq word_dict).

Definition call_Embedding (a : attr) (e : Embedding) (input : Tensor) : M Tensor :=
  call a [input] (Embedding_forward e input).

Definition call_Dropout (a : attr) (d : Dropout) (input : Tensor) : M Tensor :=
  call a [input] (Dropout_forward d input).

Definition call_LSTM (a : attr) (l : LSTM) (input : Tensor) : M (Tensor * (Tensor * Tensor)) :=
  call a [input] (LSTM_forward l input).

Definition call_Linear (a : attr) (l : Linear) (input : Tensor) : M Tensor :=
  call a [input] (Linear_forward l input).

Definition call_hw (a : attr) (h : hw) (input : Tensor) : M Tensor :=
  call a [input] (hw_forward h input).

Definition call_CRF (a : attr) (c : CRF) (feats : Tensor) : M Tensor :=
  call a [feats] (CRF_forward c feats).

Definition call_EncoderLayer (a : attr) (l : EncoderLayer)
  (enc_input non_pad slf_attn : Tensor) : M Tensor :=
  call a [enc_input; non_pad; slf_attn] (EncoderLayer_forward l enc_input non_pad slf_attn).

(** [tmp[i]] on the tuple returned by [size()]. *)
Definition item (tmp : list Z) (i : Z) : outcome Z :=
  outcome_bind (getitem tmp i) (fun kv => Ok (snd kv)).

(** ** The methods *)

Local Open Scope method_scope.

Definition set_batch_size (bsize : Z) : M unit :=
  assign (with_batch_size bsize).

Definition set_batch_seq_size (sentence : Tensor) : M unit :=
  let tmp := size sentence in
  d0 <- lift (item tmp 0) ;;
  assign (with_word_seq_length d0) ;;
  d1 <- lift (item tmp 1) ;;
  assign (with_batch_size d1).

Definition rand_init_embedding : M unit :=
  self <- get ;;
  assign (with_char_embeds {| weight := init_embedding (weight (char_embeds self)) |}).

Definition load_pretrained_word_embedding (pre_word_embeddings : Tensor) : M unit :=
  d <- lift (item (size pre_word_embeddings) 1) ;;
  self <- get ;;
  assert (d =? word_dim self) ;;
  w <- lift (new_Parameter pre_word_embeddings) ;;
  assign (with_word_embeds {| weight := w |}).

(** [self.name.rand_init()] on a highway attribute. *)
Definition rand_init_hw (read : LM_LSTM_CRF -> option hw)
  (write : option hw -> LM_LSTM_CRF -> LM_LSTM_CRF) : M unit :=
  self <- get ;;
  h <- getattr (read self) ;;
  assign (write (Some (hw_rand_init h))).

Definition rand_init (init_char_embedding init_word_embedding : bool) : M unit :=
  (if init_char_embedding
   then self <- get ;;
        assign (with_char_embeds {| weight := init_embedding (weight (char_embeds self)) |})
   else ret tt) ;;
  (if init_word_embedding
   then self <- get ;;
        assign (with_word_embeds {| weight := init_embedding (weight (word_embeds self)) |})
   else ret tt) ;;
  self <- get ;;
  (if if_highway self
   then rand_init_hw forw2char with_forw2char ;;
        rand_init_hw back2char with_back2char ;;
        rand_init_hw forw2word with_forw2word ;;
        rand_init_hw back2word with_back2word ;;
        rand_init_hw fb2char with_fb2char
   else ret tt) ;;
  assign (fun self => with_forw_char_lstm (init_lstm (forw_char_lstm self)) self) ;;
  assign (fun self => with_back_char_lstm (init_lstm (back_char_lstm self)) self) ;;
  assign (fun self => with_word_lstm (init_lstm (word_lstm self)) self) ;;
  assign (fun self => with_char_pre_train_out (init_linear (char_pre_train_out self)) self) ;;
  assign (fun self => with_word_pre_train_out (init_linear (word_pre_train_out self)) self) ;;
  assign (fun self => with_fc (init_linear (fc self)) self) ;;
  assign (fun self => with_crflist (map CRF_rand_init (crflist self)) self).

Definition word_pre_train_forward (sentence position : Tensor)
  (hidden : option (Tensor * Tensor)) : M (Tensor * (Tensor * Tensor)) :=
  self <- get ;;
  embeds <- call_Embedding (Attr "char_embeds") (char_embeds self) sentence ;;
  d_embeds <- call_Dropout (Attr "dropout") (dropout self) embeds ;;
  '(lstm_out, hidden) <- call_LSTM (Attr "forw_char_lstm") (forw_char_lstm self) d_embeds ;;
  let tmpsize := size position in
  position <- lift (unsqueeze position 2) ;;
  t0 <- lift (item tmpsize 0) ;;
  t1 <- lift (item tmpsize 1) ;;
  position <- lift (expand position [t0; t1; char_hidden_dim self]) ;;
  select_lstm_out <- lift (gather lstm_out 0 position) ;;
  dropped <- call_Dropout (Attr "dropout") (dropout self) select_lstm_out ;;
  d_lstm_out <- lift (view dropped [-1; char_hidden_dim self]) ;;
  d_char_out <-
    (if if_highway self
     then h <- getattr (forw2word self) ;;
          char_out <- call_hw (Attr "forw2word") h d_lstm_out ;;
          call_Dropout (Attr "dropout") (dropout self) char_out
     else ret d_lstm_out) ;;
  pre_score <- call_Linear (Attr "word_pre_train_out") (word_pre_train_out self) d_char_out ;;
  ret (pre_score, hidden).

Definition word_pre_train_backward (sentence position : Tensor)
  (hidden : option (Tensor * Tensor)) : M (Tensor * (Tensor * Tensor)) :=
  self <- get ;;
  embeds <- call_Embedding (Attr "char_embeds") (char_embeds self) sentence ;;
  d_embeds <- call_Dropout (Attr "dropout") (dropout self) embeds ;;
  '(lstm_out, hidden) <- call_LSTM (Attr "back_char_lstm") (back_char_lstm self) d_embeds ;;
  let tmpsize := size position in
  position <- lift (unsqueeze position 2) ;;
  t0 <- lift (item tmpsize 0) ;;
  t1 <- lift (item tmpsize 1) ;;
  position <- lift (expand position [t0; t1; char_hidden_dim self]) ;;
  select_lstm_out <- lift (gather lstm_out 0 position) ;;
  dropped <- call_Dropout (Attr "dropout") (dropout self) select_lstm_out ;;
  d_lstm_out <- lift (view dropped [-1; char_hidden_dim self]) ;;
  d_char_out <-
    (if if_highway self
     then h <- getattr (back2word self) ;;
          char_out <- call_hw (Attr "back2word") h d_lstm_out ;;
          call_Dropout (Attr "dropout") (dropout self) char_out
     else ret d_lstm_out) ;;
  pre_score <- call_Linear (Attr "word_pre_train_out") (word_pre_train_out self) d_char_out ;;
  ret (pre_score, hidden).

Definition forward
  (forw_sentence forw_position back_sentence back_position word_seq word_pos : Tensor)
  (word_dict : Dict) (file_no : Z) (hidden : option (Tensor * Tensor)) : M Tensor :=
  set_batch_seq_size forw_position ;;
  self <- get ;;
  (* embedding layer *)
  forw_emb <- call_Embedding (Attr "char_embeds") (char_embeds self) forw_sentence ;;
  back_emb <- call_Embedding (Attr "char_embeds") (char_embeds self) back_sentence ;;
  (* dropout *)
  d_f_emb <- call_Dropout (Attr "dropout") (dropout self) forw_emb ;;
  d_b_emb <- call_Dropout (Attr "dropout") (dropout self) back_emb ;;
  (* forward the whole sequence *)
  '(forw_lstm_out, _) <- call_LSTM (Attr "forw_char_lstm") (forw_char_lstm self) d_f_emb ;;
  '(back_lstm_out, _) <- call_LSTM (Attr "back_char_lstm") (back_char_lstm self) d_b_emb ;;
  (* select predict point *)
  forw_position <- lift (unsqueeze forw_position 2) ;;
  forw_position <-
    lift (expand forw_position [word_seq_length self; batch_size self; char_hidden_dim self]) ;;
  select_forw_lstm_out <- lift (gather forw_lstm_out 0 forw_position) ;;
  back_position <- lift (unsqueeze back_position 2) ;;
  back_position <-
    lift (expand back_position [word_seq_length self; batch_size self; char_hidden_dim self]) ;;
  select_back_lstm_out <- lift (gather back_lstm_out 0 back_position) ;;
  joined <- lift (cat [select_forw_lstm_out; select_back_lstm_out] 2) ;;
  fb_lstm_out <- call_Dropout (Attr "dropout") (dropout self) joined ;;
  d_char_out <-
    (if if_highway self
     then h <- getattr (fb2char self) ;;
          char_out <- call_hw (Attr "fb2char") h fb_lstm_out ;;
          call_Dropout (Attr "dropout") (dropout self) char_out
     else ret fb_lstm_out) ;;
  (* word *)
  word_emb <- call_Embedding (Attr "word_embeds") (word_embeds self) word_seq ;;
  d_word_emb <- call_Dropout (Attr "dropout") (dropout self) word_emb ;;
  crf_out <-
    (if word_level_attention self
     then
       word_pos_enc <- call_Embedding (Attr "position_enc") (position_enc self) word_pos ;;
       (* combine *)
       combined <- lift (cat [d_word_emb; d_char_out; word_pos_enc] 2) ;;
       enc_output <- lift (permute combined [1; 0; 2]) ;;
       (* prepare masks *)
       seq_k <- lift (permute word_seq [1; 0]) ;;
       seq_q <- lift (permute word_seq [1; 0]) ;;
       slf_attn_mask <- lift (get_attn_key_pad_mask seq_k seq_q word_dict) ;;
       seq <- lift (permute word_seq [1; 0]) ;;
       non_pad_mask <- lift (get_non_pad_mask seq word_dict) ;;
       (* pass multi-head-attention layers *)
       enc_output <-
         for_each (enumerate (layer_stack self))
           (fun i enc_layer enc_output =>
              call_EncoderLayer (Item "layer_stack" i) enc_layer
                enc_output non_pad_mask slf_attn_mask)
           enc_output ;;
       fc_out <- call_Linear (Attr "fc") (fc self) enc_output ;;
       (* convert to crf *)
       '(i, crf) <- lift (getitem (crflist self) file_no) ;;
       call_CRF (Item "crflist" i) crf fc_out
     else
       (* combine *)
       word_input <- lift (cat [d_word_emb; d_char_out] 2) ;;
       (* word level lstm *)
       '(lstm_out, _) <- call_LSTM (Attr "word_lstm") (word_lstm self) word_input ;;
       d_lstm_out <- call_Dropout (Attr "dropout") (dropout self) lstm_out ;;
       (* convert to crf *)
       '(i, crf) <- lift (getitem (crflist self) file_no) ;;
       call_CRF (Item "crflist" i) crf d_lstm_out) ;;
  crf_out <-
    lift (view crf_out
            [batch_size self; word_seq_length self; tagset_size self; tagset_size self]) ;;
  crf_out <- lift (permute crf_out [1; 0; 2; 3]) ;;
  ret crf_out.

End Methods.

(** ** Vocabulary of the statements *)

(** Two objects that agree on every attribute except [word_embeds]. *)
Definition same_but_word_embeds (a b : LM_LSTM_CRF) : Prop :=
  char_dim a = char_dim b /\ char_hidden_dim a = char_hidden_dim b /\
  char_size a = char_size b /\ word_dim a = word_dim b /\
  word_hidden_dim a = word_hidden_dim b /\ word_size a = word_size b /\
  if_highway a = if_highway b /\
  word_level_attention a = word_level_attention b /\
  char_embeds a = char_embeds b /\ forw_char_lstm a = forw_char_lstm b /\
  back_char_lstm a = back_char_lstm b /\
  char_rnn_layers a = char_rnn_layers b /\ word_lstm a = word_lstm b /\
  word_rnn_layers a = word_rnn_layers b /\ dropout a = dropout b /\
  tagset_size a = tagset_size b /\ crflist a = crflist b /\
  forw2char a = forw2char b /\ back2char a = back2char b /\
  forw2word a = forw2word b /\ back2word a = back2word b /\
  fb2char a = fb2char b /\ char_pre_train_out a = char_pre_train_out b /\
  word_pre_train_out a = word_pre_train_out b /\
  batch_size a = batch_size b /\ word_seq_length a = word_seq_length b /\
  position_enc a = position_enc b /\ layer_stack a = layer_stack b /\
  fc a = fc b.

(** Two objects that agree on every attribute except the two bookkeeping
    ones, [batch_size] and [word_seq_length]. *)
Definition same_but_sizes (a b : LM_LSTM_CRF) : Prop :=
  char_dim a = char_dim b /\ char_hidden_dim a = char_hidden_dim b /\
  char_size a = char_size b /\ word_dim a = word_dim b /\
  word_hidden_dim a = word_hidden_dim b /\ word_size a = word_size b /\
  if_highway a = if_highway b /\
  word_level_attention a = word_level_attention b /\
  char_embeds a = char_embeds b /\ forw_char_lstm a = forw_char_lstm b /\
  back_char_lstm a = back_char_lstm b /\
  char_rnn_layers a = char_rnn_layers b /\ word_embeds a = word_embeds b /\
  word_lstm a = word_lstm b /\ word_rnn_layers a = word_rnn_layers b /\
  dropout a = dropout b /\ tagset_size a = tagset_size b /\
  crflist a = crflist b /\ forw2char a = forw2char b /\
  back2char a = back2char b /\ forw2word a = forw2word b /\
  back2word a = back2word b /\ fb2char a = fb2char b /\
  char_pre_train_out a = char_pre_train_out b /\
  word_pre_train_out a = word_pre_train_out b /\
  position_enc a = position_enc b /\ layer_stack a = layer_stack b /\
  fc a = fc b.

(** The five highway attributes exist when the flag says so. *)
Definition highway_attrs_present (self : LM_LSTM_CRF) : Prop :=
  if_highway self = true ->
  forw2char self <> None /\ back2char self <> None /\ forw2word self <> None /\
  back2word self <> None /\ fb2char self <> None.

(** The two masks of the attention branch. *)
Definition slf_attn_mask_of (word_seq : Tensor) (word_dict : Dict) : Tensor :=
  attn_key_pad_mask (T_permute word_seq [1; 0]) (T_permute word_seq [1; 0]) word_dict.

Definition non_pad_mask_of (word_seq : Tensor) (word_dict : Dict) : Tensor :=
  non_pad_mask (T_permute word_seq [1; 0]) word_dict.

(** The output of the encoder layers applied one after the other, and the
    calls that produce it, numbered from [k]. *)
Definition attention_stack (layers : list EncoderLayer) (x non_pad slf_attn : Tensor) : Tensor :=
  fold_left (fun e l => EncoderLayer_output l e non_pad slf_attn) layers x.

Fixpoint layer_calls (k : nat) (layers : list EncoderLayer) (x non_pad slf_attn : Tensor)
  : list Call :=
  match layers with
  | [] => []
  | l :: rest =>
      {| callee := Item "layer_stack" k; args := [x; non_pad; slf_attn] |}
      :: layer_calls (S k) rest (EncoderLayer_output l x non_pad slf_attn) non_pad slf_attn
  end.

(** The outputs of the encoder layers, one after the other. *)
Fixpoint layer_terms (layers : list EncoderLayer) (x non_pad slf_attn : Tensor)
  : list Tensor :=
  match layers with
  | [] => []
  | l :: rest =>
      EncoderLayer_output l x non_pad slf_attn
      :: layer_terms rest (EncoderLayer_output l x non_pad slf_attn) non_pad slf_attn
  end.

(** The position [crflist[file_no]] stands for. *)
Definition index_of {X : Type} (l : list X) (i : Z) : nat :=
  match abs_index (length l) i with
  | Some k => k
  | None => 0%nat
  end.

Definition is_item (name : string) (a : attr) : bool :=
  match a with
  | Item n _ => String.eqb n name
  | Attr _ => false
  end.

Definition is_attr (name : string) (a : attr) : bool :=
  match a with
  | Attr n => String.eqb n name
  | Item _ _ => false
  end.

Definition called (name : string) (calls : list Call) : bool :=
  existsb (fun c => is_attr name (callee c) || is_item name (callee c)) calls.

(** ** The dataflow of [forward], written out

    What [forward] computes when no step raises, as terms: [self] is the
    object as [forward] reads it (after [set_batch_seq_size]).  These
    definitions are not part of the code; [forward_returns] below proves
    that the code computes them. *)

Section Dataflow.

Variable self : LM_LSTM_CRF.
Variables forw_sentence forw_position back_sentence back_position word_seq word_pos : Tensor.
Variable word_dict : Dict.

Definition made (a : attr) (xs : list Tensor) : Call := {| callee := a; args := xs |}.

Definition dropped (x : Tensor) : Tensor := F_dropout (p (dropout self)) x.

Definition char_embedded (sentence : Tensor) : Tensor :=
  F_embedding sentence (data (weight (char_embeds self))).

(** The positions, repeated along the character features. *)
Definition expanded (position : Tensor) : Tensor :=
  T_expand (T_unsqueeze position 2)
    [word_seq_length self; batch_size self; char_hidden_dim self].

(** The states of a character LSTM at the word boundaries. *)
Definition selected (l : LSTM) (sentence position : Tensor) : Tensor :=
  T_gather (LSTM_output l (dropped (char_embedded sentence))) 0
    (T_expand (T_unsqueeze position 2)
       [word_seq_length self; batch_size self; char_hidden_dim self]).

Definition char_lstm_features : Tensor :=
  T_cat [selected (forw_char_lstm self) forw_sentence forw_position;
         selected (back_char_lstm self) back_sentence back_position] 2.

Definition fb_lstm_out_of : Tensor := dropped char_lstm_features.

Definition d_char_out_of : Tensor :=
  if if_highway self then
    match fb2char self with
    | Some h => dropped (hw_output h fb_lstm_out_of)
    | None => fb_lstm_out_of
    end
  else fb_lstm_out_of.

Definition word_embedded : Tensor :=
  F_embedding word_seq (data (weight (word_embeds self))).

Definition position_encoded : Tensor :=
  F_embedding word_pos (data (weight (position_enc self))).

Definition attention_input : Tensor :=
  T_permute (T_cat [dropped word_embedded; d_char_out_of; position_encoded] 2) [1; 0; 2].

Definition attention_output : Tensor :=
  attention_stack (layer_stack self) attention_input
    (non_pad_mask_of word_seq word_dict) (slf_attn_mask_of word_seq word_dict).

Definition word_lstm_input : Tensor :=
  T_cat [dropped word_embedded; d_char_out_of] 2.

(** The tensor handed to the CRF head. *)
Definition word_level_of : Tensor :=
  if word_level_attention self
  then F_linear (fc self) attention_output
  else dropped (LSTM_output (word_lstm self) word_lstm_input).

Definition crf_scores_of (head : CRF) : Tensor :=
  T_permute
    (T_view (CRF_output head word_level_of)
       [batch_size self; word_seq_length self; tagset_size self; tagset_size self])
    [1; 0; 2; 3].

(** The tensors computed by a step that tests the contents of its
    operands (every step but dropout): of the character level, of the
    highway block, of the word level, and after the CRF head. *)
Definition selection_terms (l : LSTM) (sentence position : Tensor) : list Tensor :=
  [char_embedded sentence;
   LSTM_output l (dropped (char_embedded sentence));
   T_unsqueeze position 2;
   expanded position;
   selected l sentence position].

Definition char_level_terms : list Tensor :=
  selection_terms (forw_char_lstm self) forw_sentence forw_position ++
  selection_terms (back_char_lstm self) back_sentence back_position ++
  [char_lstm_features].

Definition highway_terms : list Tensor :=
  if if_highway self then
    match fb2char self with
    | Some h => [hw_output h fb_lstm_out_of]
    | None => []
    end
  else [].

Definition word_level_terms : list Tensor :=
  word_embedded ::
  (if word_level_attention self
   then
     [position_encoded;
      T_cat [dropped word_embedded; d_char_out_of; position_encoded] 2;
      attention_input;
      T_permute word_seq [1; 0];
      slf_attn_mask_of word_seq word_dict;
      non_pad_mask_of word_seq word_dict] ++
     layer_terms (layer_stack self) attention_input
       (non_pad_mask_of word_seq word_dict) (slf_attn_mask_of word_seq word_dict) ++
     [F_linear (fc self) attention_output]
   else
     [word_lstm_input; LSTM_output (word_lstm self) word_lstm_input]).

Definition encoder_terms : list Tensor :=
  char_level_terms ++ highway_terms ++ word_level_terms.

Definition head_terms (head : CRF) : list Tensor :=
  [CRF_output head word_level_of;
   T_view (CRF_output head word_level_of)
     [batch_size self; word_seq_length self; tagset_size self; tagset_size self];
   crf_scores_of head].

(** The sub-module calls, in order: of the character level, of the highway
    block, of the word level, and of the CRF head [i]. *)
Definition char_level_calls : list Call :=
  [made (Attr "char_embeds") [forw_sentence];
   made (Attr "char_embeds") [back_sentence];
   made (Attr "dropout") [char_embedded forw_sentence];
   made (Attr "dropout") [char_embedded back_sentence];
   made (Attr "forw_char_lstm") [dropped (char_embedded forw_sentence)];
   made (Attr "back_char_lstm") [dropped (char_embedded back_sentence)];
   made (Attr "dropout") [char_lstm_features]].

Definition highway_calls : list Call :=
  if if_highway self then
    match fb2char self with
    | Some h =>
        [made (Attr "fb2char") [fb_lstm_out_of];
         made (Attr "dropout") [hw_output h fb_lstm_out_of]]
    | None => []
    end
  else [].

Definition word_level_calls : list Call :=
  [made (Attr "word_embeds") [word_seq];
   made (Attr "dropout") [word_embedded]] ++
  (if word_level_attention self
   then
     [made (Attr "position_enc") [word_pos]] ++
     layer_calls 0 (layer_stack self) attention_input
       (non_pad_mask_of word_seq word_dict) (slf_attn_mask_of word_seq word_dict) ++
     [made (Attr "fc") [attention_output]]
   else
     [made (Attr "word_lstm") [word_lstm_input];
      made (Attr "dropout") [LSTM_output (word_lstm self) word_lstm_input]]).

Definition encoder_calls : list Call :=
  char_level_calls ++ highway_calls ++ word_level_calls.

Definition forward_calls_of (i : nat) : list Call :=
  encoder_calls ++ [made (Item "crflist" i) [word_level_of]].

End Dataflow.

(** ** The dataflow of the language-model scorers

    The same for the two scorers, which differ in the character LSTM [l]
    (called under the attribute [lname]) and in the highway block [h]
    (under [hname]); [t0] and [t1] are the first two dimensions of
    [position]. *)

Section ScorerDataflow.

Variable self : LM_LSTM_CRF.
Variables (lname : string) (l : LSTM) (hname : string) (h : option hw).
Variables sentence position : Tensor.
Variables t0 t1 : Z.

(** The states of the character LSTM at the word boundaries. *)
Definition lm_states : Tensor :=
  T_gather (LSTM_output l (dropped self (char_embedded self sentence))) 0
    (T_expand (T_unsqueeze position 2) [t0; t1; char_hidden_dim self]).

Definition lm_d_lstm_out : Tensor :=
  T_view (dropped self lm_states) [-1; char_hidden_dim self].

Definition lm_d_char_out : Tensor :=
  if if_highway self then
    match h with
    | Some block => dropped self (hw_output block lm_d_lstm_out)
    | None => lm_d_lstm_out
    end
  else lm_d_lstm_out.

Definition lm_score : Tensor := F_linear (word_pre_train_out self) lm_d_char_out.

Definition lm_hidden : Tensor * Tensor :=
  (LSTM_h_n l (dropped self (char_embedded self sentence)),
   LSTM_c_n l (dropped self (char_embedded self sentence))).

(** The tensors computed by a step that tests the contents of its
    operands. *)
Definition lm_terms : list Tensor :=
  [char_embedded self sentence;
   LSTM_output l (dropped self (char_embedded self sentence));
   T_unsqueeze position 2;
   T_expand (T_unsqueeze position 2) [t0; t1; char_hidden_dim self];
   lm_states;
   lm_d_lstm_out] ++
  (if if_highway self then
     match h with
     | Some block => [hw_output block lm_d_lstm_out]
     | None => []
     end
   else []) ++
  [lm_score].

Definition lm_calls : list Call :=
  [made (Attr "char_embeds") [sentence];
   made (Attr "dropout") [char_embedded self sentence];
   made (Attr lname) [dropped self (char_embedded self sentence)];
   made (Attr "dropout") [lm_states]] ++
  (if if_highway self then
     match h with
     | Some block =>
         [made (Attr hname) [lm_d_lstm_out];
          made (Attr "dropout") [hw_output block lm_d_lstm_out]]
     | None => []
     end
   else []) ++
  [made (Attr "word_pre_train_out") [lm_d_char_out]].

End ScorerDataflow.

(** ** The tests of [forward], written out

    Every runtime operation and sub-module call of [forward] tests the
    shapes of its operands and may refuse their contents.  [encoders_fit]
    is the conjunction of the shape tests made before the CRF head is
    looked up, on the tensors of the dataflow, and [head_fits] of the two
    made after; [accepted] says of a list of tensors that the steps
    computing them accept the contents they are given.  [encoders_pass]
    and [head_passes] put the two together: [forward_fit_run] and
    [forward_returns_fit] below prove that [forward] returns exactly when
    they hold.  As the dataflow, these definitions are not part of the
    code. *)

Definition fits (shape : option (list Z)) : bool :=
  match shape with
  | Some _ => true
  | None => false
  end.

Section Fitting.

Context {absent : Absent}.

Variable self : LM_LSTM_CRF.
Variables forw_sentence forw_position back_sentence back_position word_seq word_pos : Tensor.
Variable word_dict : Dict.

Definition embedding_fits (e : Embedding) (input : Tensor) : bool :=
  fits (embedding_shape (size input) (size (data (weight e)))).

Definition accepted (ts : list Tensor) : bool := forallb accepts ts.

Definition selection_fits (l : LSTM) (sentence position : Tensor) : bool :=
  embedding_fits (char_embeds self) sentence &&
  fits (lstm_shape l (size (dropped self (char_embedded self sentence)))) &&
  fits (unsqueeze_shape (size position) 2) &&
  fits (expand_shape (size (T_unsqueeze position 2))
          [word_seq_length self; batch_size self; char_hidden_dim self]) &&
  fits (gather_shape (size (LSTM_output l (dropped self (char_embedded self sentence))))
          0 (size (expanded self position))).

Definition char_level_fits : bool :=
  selection_fits (forw_char_lstm self) forw_sentence forw_position &&
  selection_fits (back_char_lstm self) back_sentence back_position &&
  fits (cat_shape
          (map size [selected self (forw_char_lstm self) forw_sentence forw_position;
                     selected self (back_char_lstm self) back_sentence back_position]) 2).

Definition highway_fits : bool :=
  if if_highway self then
    match fb2char self with
    | Some h =>
        fits (hw_shape h
                (size (fb_lstm_out_of self forw_sentence forw_position back_sentence
                         back_position)))
    | None => false
    end
  else true.

Fixpoint layers_fit (layers : list EncoderLayer) (x non_pad slf_attn : Tensor) : bool :=
  match layers with
  | [] => true
  | l :: rest =>
      fits (EncoderLayer_shape l (size x) (size non_pad) (size slf_attn)) &&
      layers_fit rest (EncoderLayer_output l x non_pad slf_attn) non_pad slf_attn
  end.

Definition attention_fits : bool :=
  let d_char_out :=
    d_char_out_of self forw_sentence forw_position back_sentence back_position in
  let combined :=
    T_cat [dropped self (word_embedded self word_seq); d_char_out;
           position_encoded self word_pos] 2 in
  embedding_fits (position_enc self) word_pos &&
  fits (cat_shape (map size [dropped self (word_embedded self word_seq); d_char_out;
                             position_encoded self word_pos]) 2) &&
  fits (permute_shape (size combined) [1; 0; 2]) &&
  fits (permute_shape (size word_seq) [1; 0]) &&
  fits (attn_key_pad_mask_shape (size (T_permute word_seq [1; 0]))
          (size (T_permute word_seq [1; 0])) word_dict) &&
  fits (non_pad_mask_shape (size (T_permute word_seq [1; 0])) word_dict) &&
  layers_fit (layer_stack self)
    (attention_input self forw_sentence forw_position back_sentence back_position
       word_seq word_pos)
    (non_pad_mask_of word_seq word_dict) (slf_attn_mask_of word_seq word_dict) &&
  fits (linear_shape (fc self)
          (size (attention_output self forw_sentence forw_position back_sentence
                   back_position word_seq word_pos word_dict))).

Definition recurrent_fits : bool :=
  let d_char_out :=
    d_char_out_of self forw_sentence forw_position back_sentence back_position in
  fits (cat_shape (map size [dropped self (word_embedded self word_seq); d_char_out]) 2) &&
  fits (lstm_shape (word_lstm self)
          (size (word_lstm_input self forw_sentence forw_position back_sentence
                   back_position word_seq))).

Definition word_level_fits : bool :=
  embedding_fits (word_embeds self) word_seq &&
  (if word_level_attention self then attention_fits else recurrent_fits).

Definition encoders_fit : bool :=
  char_level_fits && highway_fits && word_level_fits.

Definition head_fits (head : CRF) : bool :=
  let encoded :=
    word_level_of self forw_sentence forw_position back_sentence back_position
      word_seq word_pos word_dict in
  fits (CRF_shape head (size encoded)) &&
  fits (view_shape (size (CRF_output head encoded))
          [batch_size self; word_seq_length self; tagset_size self; tagset_size self]).

Definition encoders_pass : bool :=
  encoders_fit &&
  accepted (encoder_terms self forw_sentence forw_position back_sentence back_position
              word_seq word_pos word_dict).

Definition head_passes (head : CRF) : bool :=
  head_fits head &&
  accepted (head_terms self forw_sentence forw_position back_sentence back_position
              word_seq word_pos word_dict head).

End Fitting.

(** The same for a language-model scorer with character LSTM [l] and
    highway block [h]. *)

Section ScorerFitting.

Context {absent : Absent}.

Variable self : LM_LSTM_CRF.
Variables (l : LSTM) (h : option hw).
Variables sentence position : Tensor.
Variables t0 t1 : Z.

Definition lm_highway_fits : bool :=
  if if_highway self then
    match h with
    | Some block =>
        fits (hw_shape block (size (lm_d_lstm_out self l sentence position t0 t1)))
    | None => false
    end
  else true.

Definition lm_fits : bool :=
  embedding_fits (char_embeds self) sentence &&
  fits (lstm_shape l (size (dropped self (char_embedded self sentence)))) &&
  fits (unsqueeze_shape (size position) 2) &&
  fits (expand_shape (size (T_unsqueeze position 2)) [t0; t1; char_hidden_dim self]) &&
  fits (gather_shape (size (LSTM_output l (dropped self (char_embedded self sentence))))
          0 (size (T_expand (T_unsqueeze position 2) [t0; t1; char_hidden_dim self]))) &&
  fits (view_shape (size (dropped self (lm_states self l sentence position t0 t1)))
          [-1; char_hidden_dim self]) &&
  lm_highway_fits &&
  fits (linear_shape (word_pre_train_out self)
          (size (lm_d_char_out self l h sentence position t0 t1))).

Definition lm_passes : bool :=
  lm_fits && accepted (lm_terms self l h sentence position t0 t1).

End ScorerFitting.

(** ** A concrete runtime for examples

    The shapes the absent modules are taken to return when the model is run
    on examples, as the call sites and the comments of [forward] suggest:
    the encoding table has one row per position, a highway block and an
    encoder layer keep the shape of their input, a CRF head returns one
    tagset-by-tagset matrix per input row, the masks are per batch row.
    An initialiser marks the parameters it is given as drawn again and
    leaves the rest of the module alone.  The contents of the example
    inputs are taken to be in order: every step accepts them, and every
    input may become a parameter but the one named [word_ids]. *)

Definition keeps_last (width : Z) (s : list Z) : option (list Z) :=
  match rev s with
  | last :: _ => if last =? width then Some s else None
  | [] => None
  end.

Definition CRF_hidden_dim (c : CRF) : Z :=
  match c with
  | CRF_L h _ _ => h
  | CRF_S h _ _ => h
  end.

Definition CRF_tagset_size (c : CRF) : Z :=
  match c with
  | CRF_L _ t _ => t
  | CRF_S _ t _ => t
  end.

#[local] Instance example_shapes : Absent := {|
  accepts := fun _ => true;
  can_require_grad := fun t =>
    match t with
    | Input name _ => negb (String.eqb name "word_ids")
    | _ => true
    end;
  sinusoid_size := fun n d _ => [n; d];
  hw_shape := fun h s => keeps_last (hw_size h) s;
  CRF_shape := fun c s =>
    match rev s with
    | last :: front =>
        if last =? CRF_hidden_dim c
        then Some [numel front; CRF_tagset_size c; CRF_tagset_size c]
        else None
    | [] => None
    end;
  EncoderLayer_shape := fun l s _ _ => keeps_last (d_model l) s;
  attn_key_pad_mask_shape := fun k q _ =>
    match k, q with
    | [b; len_k], [_; len_q] => Some [b; len_q; len_k]
    | _, _ => None
    end;
  non_pad_mask_shape := fun s _ =>
    match s with
    | [b; len] => Some [b; len; 1]
    | _ => None
    end;
  init_embedding := fun w =>
    {| data := embedding_redrawn (data w); requires_grad := requires_grad w |};
  init_lstm := fun l =>
    {| input_size := input_size l; hidden_size := hidden_size l;
       num_layers := num_layers l; bidirectional := bidirectional l;
       lstm_dropout := lstm_dropout l; lstm_weights := Redrawn (lstm_weights l) |};
  init_linear := fun l =>
    {| in_features := in_features l; out_features := out_features l;
       linear_weights := Redrawn (linear_weights l) |};
  hw_rand_init := fun h =>
    {| hw_size := hw_size h; hw_num_layers := hw_num_layers h;
       hw_dropout_ratio := hw_dropout_ratio h; hw_weights := Redrawn (hw_weights h) |};
  CRF_rand_init := fun c =>
    match c with
    | CRF_L h t w => CRF_L h t (Redrawn w)
    | CRF_S h t w => CRF_S h t (Redrawn w)
    end
|}.

(** A small model: three tags, two corpora, two attention layers. *)
Definition example_model (if_highway word_level_attention : bool) : LM_LSTM_CRF :=
  __init__ 3 20 4 5 1 6 8 1 30 (1 # 2) 2 10 2 2 4 4 true if_highway 7 1
    word_level_attention.

Definition forw_sentence0 : Tensor := Input "forw_sentence" [9; 2].
Definition forw_position0 : Tensor := Input "forw_position" [4; 2].
Definition back_sentence0 : Tensor := Input "back_sentence" [9; 2].
Definition back_position0 : Tensor := Input "back_position" [4; 2].
Definition word_seq0 : Tensor := Input "word_seq" [4; 2].
Definition word_pos0 : Tensor := Input "word_pos" [4; 2].

Definition pre_word_embeddings0 : Tensor := Input "pre_word_embeddings" [30; 6].

Definition example_forward (if_highway word_level_attention : bool) (file_no : Z) :=
  forward forw_sentence0 forw_position0 back_sentence0 back_position0
    word_seq0 word_pos0 [] file_no None (example_model if_highway word_level_attention).

(** * Properties *)

(** ** Running a method step by step *)

Lemma after_nil {A : Type} (r : run A) : after [] r = r.
Proof. destruct r as [[o s] c]. reflexivity. Qed.

Lemma bind_run {A B : Type} (m : M A) (f : A -> M B) self :
  bind m f self =
  match result_of (m self) with
  | Ok a => after (calls_of (m self)) (f a (self_after (m self)))
  | Raise e => (Raise e, self_after (m self), calls_of (m self))
  end.
Proof. unfold bind. destruct (m self) as [[[a|e] s] c]; reflexivity. Qed.

Lemma bind_ret {A B : Type} (a : A) (f : A -> M B) self :
  bind (ret a) f self = f a self.
Proof. unfold bind, ret. apply after_nil. Qed.

Lemma bind_lift {A B : Type} (o : outcome A) (f : A -> M B) self :
  bind (lift o) f self =
  match o with
  | Ok a => f a self
  | Raise e => (Raise e, self, [])
  end.
Proof. unfold bind, lift. destruct o; [apply after_nil | reflexivity]. Qed.

Lemma bind_raise {A B : Type} (e : exn) (f : A -> M B) self :
  bind (raise e) f self = (Raise e, self, []).
Proof. reflexivity. Qed.

Lemma bind_get {B : Type} (f : LM_LSTM_CRF -> M B) self :
  bind get f self = f self self.
Proof. unfold bind, get. apply after_nil. Qed.

Lemma bind_assign {B : Type} (g : LM_LSTM_CRF -> LM_LSTM_CRF) (f : unit -> M B) self :
  bind (assign g) f self = f tt (g self).
Proof. unfold bind, assign. apply after_nil. Qed.

Lemma bind_call {A B : Type} (a : attr) (xs : list Tensor) (o : outcome A)
  (f : A -> M B) self :
  bind (call a xs o) f self =
  match o with
  | Ok v => after [{| callee := a; args := xs |}] (f v self)
  | Raise e => (Raise e, self, [{| callee := a; args := xs |}])
  end.
Proof. unfold bind, call. destruct o; reflexivity. Qed.

Lemma bind_assoc {A B C : Type} (m : M A) (f : A -> M B) (g : B -> M C) self :
  bind (bind m f) g self = bind m (fun a => bind (f a) g) self.
Proof.
  unfold bind. destruct (m self) as [[[a|e] s] c]; [|reflexivity].
  destruct (f a s) as [[[b|e] s'] c']; unfold after, result_of, self_after, calls_of;
    simpl; [|reflexivity].
  destruct (g b s') as [[r s''] c'']. simpl. rewrite app_assoc. reflexivity.
Qed.

Lemma item_0 (a : Z) (l : list Z) : item (a :: l) 0 = Ok a.
Proof.
  unfold item, getitem, abs_index. cbn [length].
  replace (0 <? Z.of_nat (S (length l))) with true by (symmetry; apply Z.ltb_lt; lia).
  reflexivity.
Qed.

Lemma item_1 (a b : Z) (l : list Z) : item (a :: b :: l) 1 = Ok b.
Proof.
  unfold item, getitem, abs_index. cbn [length].
  replace (1 <? Z.of_nat (S (S (length l)))) with true by (symmetry; apply Z.ltb_lt; lia).
  reflexivity.
Qed.

Lemma item_inv (l : list Z) (a b : Z) :
  item l 0 = Ok a -> item l 1 = Ok b -> exists rest, l = a :: b :: rest.
Proof.
  destruct l as [|x [|y l]].
  - discriminate.
  - intros _. discriminate.
  - rewrite item_0, item_1. intros [= ->] [= ->]. eauto.
Qed.

Lemma item_1_nth (l : list Z) (d : Z) :
  item l 1 = Ok d <-> nth_error l 1 = Some d.
Proof.
  destruct l as [|x [|y l]].
  - split; discriminate.
  - split; discriminate.
  - rewrite item_1. simpl. split; intros [= ->]; reflexivity.
Qed.

Lemma getitem_Ok {X : Type} (l : list X) (i : Z) (k : nat) (x : X) :
  getitem l i = Ok (k, x) -> index_of l i = k /\ nth_error l k = Some x.
Proof.
  unfold getitem, index_of. destruct (abs_index (length l) i) as [n|]; [|discriminate].
  destruct (nth_error l n) as [y|] eqn:Hy; [|discriminate].
  intros [= <- <-]. split; [reflexivity | assumption].
Qed.

Lemma getitem_in_range {X : Type} (l : list X) (i : Z) :
  0 <= i < Z.of_nat (length l) ->
  index_of l i = Z.to_nat i /\
  exists x, nth_error l (Z.to_nat i) = Some x /\ getitem l i = Ok (Z.to_nat i, x).
Proof.
  intros Hi. unfold getitem, index_of, abs_index.
  replace (0 <=? i) with true by (symmetry; apply Z.leb_le; lia).
  replace (i <? Z.of_nat (length l)) with true by (symmetry; apply Z.ltb_lt; lia).
  cbn [andb]. split; [reflexivity|].
  destruct (nth_error l (Z.to_nat i)) as [x|] eqn:Hx.
  - exists x. split; reflexivity.
  - apply nth_error_None in Hx. lia.
Qed.

(** *** Python indexing *)

Lemma abs_index_Some (len : nat) (i : Z) (k : nat) :
  abs_index len i = Some k ->
  (k < len)%nat /\
  (0 <= i < Z.of_nat len /\ k = Z.to_nat i \/
   - Z.of_nat len <= i < 0 /\ k = Z.to_nat (i + Z.of_nat len)).
Proof.
  unfold abs_index.
  destruct (Z.leb_spec 0 i); destruct (Z.ltb_spec i (Z.of_nat len)); cbn [andb].
  1: intros [= <-]; split; [lia | left; lia].
  all: destruct (Z.leb_spec (- Z.of_nat len) i); destruct (Z.ltb_spec i 0); cbn [andb].
  all: try discriminate.
  all: intros [= <-]; split; [lia | right; lia].
Qed.

Lemma abs_index_None (len : nat) (i : Z) :
  abs_index len i = None <-> i < - Z.of_nat len \/ Z.of_nat len <= i.
Proof.
  unfold abs_index.
  destruct (Z.leb_spec 0 i); destruct (Z.ltb_spec i (Z.of_nat len)); cbn [andb].
  1: split; [discriminate | lia].
  all: destruct (Z.leb_spec (- Z.of_nat len) i); destruct (Z.ltb_spec i 0); cbn [andb].
  all: split; first [discriminate | lia | reflexivity | intros; lia].
Qed.

Lemma getitem_raises {X : Type} (l : list X) (i : Z) (e : exn) :
  getitem l i = Raise e <->
  e = IndexError /\ (i < - Z.of_nat (length l) \/ Z.of_nat (length l) <= i).
Proof.
  unfold getitem. destruct (abs_index (length l) i) as [k|] eqn:Hk.
  - destruct (abs_index_Some _ _ Hk) as [Hlt Hi].
    destruct (nth_error l k) eqn:Hn; [|apply nth_error_None in Hn; lia].
    split; [discriminate | lia].
  - apply abs_index_None in Hk. split.
    + intros [= <-]. split; [reflexivity | exact Hk].
    + intros [-> _]. reflexivity.
Qed.

Lemma getitem_from_the_end {X : Type} (l : list X) (i : Z) :
  - Z.of_nat (length l) <= i < 0 ->
  getitem l i = getitem l (i + Z.of_nat (length l)).
Proof.
  intros Hi. unfold getitem, abs_index.
  destruct (Z.leb_spec 0 i); [lia|].
  destruct (Z.leb_spec (- Z.of_nat (length l)) i); [|lia].
  destruct (Z.ltb_spec i 0); [|lia]. cbn [andb].
  destruct (Z.leb_spec 0 (i + Z.of_nat (length l))); [|lia].
  destruct (Z.ltb_spec (i + Z.of_nat (length l)) (Z.of_nat (length l))); [|lia].
  reflexivity.
Qed.

Lemma item_raises (l : list Z) (i : Z) (e : exn) :
  item l i = Raise e -> e = IndexError.
Proof.
  unfold item. destruct (getitem l i) as [[k x]|e'] eqn:Eg; [discriminate|].
  apply getitem_raises in Eg. destruct Eg as [-> _]. cbn. congruence.
Qed.

Lemma layer_calls_firstn (n : nat) (layers : list EncoderLayer) :
  forall k x npm sam,
    exists rest,
      layer_calls k (firstn n layers) x npm sam ++ rest = layer_calls k layers x npm sam.
Proof.
  revert layers. induction n as [|n IH]; intros layers k x npm sam.
  - eexists. reflexivity.
  - destruct layers as [|l layers]; [exists []; reflexivity|].
    cbn [firstn layer_calls].
    destruct (IH layers (S k) (EncoderLayer_output l x npm sam) npm sam) as [rest Hrest].
    exists rest. cbn [app]. rewrite Hrest. reflexivity.
Qed.

(** The steps of a computation held in the hypothesis [H]: the sub-module
    calls and runtime operations are opened up to the test of their shapes,
    each [bind] is replaced by the case analysis it stands for, and the
    tests are decided one after the other. *)
Ltac exec_unfold H :=
  unfold call_Embedding, call_Dropout, call_LSTM, call_Linear, call_hw, call_CRF,
    getattr, assert, of_option,
    Embedding_forward, Dropout_forward, LSTM_forward, Linear_forward, hw_forward,
    CRF_forward, get_attn_key_pad_mask, get_non_pad_mask,
    unsqueeze, expand, gather, cat, permute, view, checked in H.

Ltac exec_step H :=
  first [ rewrite item_0 in H | rewrite item_1 in H
        | rewrite bind_assoc in H | rewrite bind_ret in H | rewrite bind_get in H
        | rewrite bind_assign in H | rewrite bind_lift in H | rewrite bind_call in H
        | rewrite bind_raise in H ];
  cbv beta iota in H.

Ltac exec_split H :=
  match type of H with
  | context [match ?o with _ => _ end] =>
      lazymatch o with
      | context [match _ with _ => _ end] => fail
      | context [for_each] => fail
      | view_shape _ _ => destruct o eqn:?
      | linear_shape _ _ => destruct o eqn:?
      | _ =>
          lazymatch type of o with
          | option (list Z) => destruct o
          | _ => destruct o eqn:?
          end
      end
  end;
  cbv beta iota in H.

Ltac exec H := repeat (first [exec_step H | exec_split H]).

Lemma result_of_after {A : Type} (c : list Call) (r : run A) :
  result_of (after c r) = result_of r.
Proof. reflexivity. Qed.

Lemma self_after_after {A : Type} (c : list Call) (r : run A) :
  self_after (after c r) = self_after r.
Proof. reflexivity. Qed.

Lemma calls_of_after {A : Type} (c : list Call) (r : run A) :
  calls_of (after c r) = c ++ calls_of r.
Proof. reflexivity. Qed.

Lemma result_of_triple {A : Type} (o : outcome A) s c : result_of (o, s, c) = o.
Proof. reflexivity. Qed.

Lemma self_after_triple {A : Type} (o : outcome A) s c : self_after (o, s, c) = s.
Proof. reflexivity. Qed.

Lemma calls_of_triple {A : Type} (o : outcome A) s c : calls_of (o, s, c) = c.
Proof. reflexivity. Qed.

Ltac projections :=
  rewrite ?result_of_after, ?self_after_after, ?calls_of_after,
    ?result_of_triple, ?self_after_triple, ?calls_of_triple in *;
  cbn [app] in *.

Section Loops.

Context {absent : Absent}.

Lemma set_batch_seq_size_run (sentence : Tensor) self :
  set_batch_seq_size sentence self =
  match item (size sentence) 0 with
  | Ok d0 =>
      match item (size sentence) 1 with
      | Ok d1 => (Ok tt, with_batch_size d1 (with_word_seq_length d0 self), [])
      | Raise e => (Raise e, with_word_seq_length d0 self, [])
      end
  | Raise e => (Raise e, self, [])
  end.
Proof.
  unfold set_batch_seq_size. rewrite bind_lift.
  destruct (item (size sentence) 0); [|reflexivity].
  rewrite bind_assign, bind_lift. destruct (item (size sentence) 1); reflexivity.
Qed.

(** *** The loop over the encoder layers *)

Lemma layers_run (layers : list EncoderLayer) (npm sam : Tensor) :
  forall (k : nat) (x : Tensor) self,
    let r :=
      for_each (combine (seq k (length layers)) layers)
        (fun i enc_layer enc_output =>
           call_EncoderLayer (Item "layer_stack" i) enc_layer enc_output npm sam)
        x self in
    self_after r = self /\
    (exists n, calls_of r = layer_calls k (firstn n layers) x npm sam) /\
    (forall out, result_of r = Ok out ->
       out = attention_stack layers x npm sam /\
       calls_of r = layer_calls k layers x npm sam).
Proof.
  induction layers as [|l layers IH]; intros k x self.
  - cbn. split; [reflexivity|]. split.
    + exists 0%nat. reflexivity.
    + intros out [= <-]. split; reflexivity.
  - cbn [length seq combine for_each]. unfold call_EncoderLayer in *.
    rewrite bind_call.
    destruct (EncoderLayer_forward l x npm sam) as [y|e] eqn:Hy.
    + unfold EncoderLayer_forward, checked in Hy.
      destruct (EncoderLayer_shape l (size x) (size npm) (size sam)); [|discriminate].
      destruct (accepts _); [|discriminate].
      injection Hy as <-.
      destruct (IH (S k) (EncoderLayer_output l x npm sam) self) as (Hs & [n Hn] & Hok).
      cbv zeta. projections. split; [exact Hs|]. split.
      * exists (S n). cbn [firstn layer_calls]. rewrite Hn. reflexivity.
      * intros out Hout. destruct (Hok out Hout) as [-> Hc].
        split; [reflexivity|]. cbn [layer_calls]. rewrite Hc. reflexivity.
    + cbv zeta. projections. split; [reflexivity|]. split.
      * exists 1%nat. cbn. destruct layers; reflexivity.
      * discriminate.
Qed.

End Loops.

(** The loop met in the middle of a computation held in [H]: its run is
    named and described by [layers_run]. *)
Ltac exec_loop H :=
  unfold enumerate in H; rewrite bind_run in H;
  match type of H with
  | context [for_each (combine (seq 0 (length ?ls)) ?ls)
               (fun i l e => call_EncoderLayer (Item "layer_stack" i) l e ?npm ?sam) ?x ?s] =>
      let Hself := fresh "Hself" in
      let Hcalls := fresh "Hcalls" in
      let Hout := fresh "Hout" in
      destruct (layers_run ls npm sam 0 x s) as (Hself & Hcalls & Hout);
      let loop := fresh "loop" in
      let o := fresh "o" in
      let s' := fresh "s" in
      let cs := fresh "cs" in
      remember (for_each (combine (seq 0 (length ls)) ls)
                  (fun i l e => call_EncoderLayer (Item "layer_stack" i) l e npm sam) x s)
        as loop;
      destruct loop as [[o s'] cs];
      rewrite ?result_of_triple, ?self_after_triple, ?calls_of_triple in *;
      subst s'; destruct o
  end;
  cbv beta iota in H.

(** ** The constructor *)

Lemma crflist_loop (new : attr -> CRF) (n : nat) :
  forall (k : nat) (acc : list CRF),
    fold_left (fun crflist (_ : nat) => ModuleList_append "crflist" crflist new)
      (seq k n) acc =
    acc ++ map (fun i => new (Item "crflist" i)) (seq (length acc) n).
Proof.
  induction n as [|n IH]; intros k acc; cbn [seq fold_left map].
  - rewrite app_nil_r. reflexivity.
  - rewrite IH. unfold ModuleList_append. rewrite <- app_assoc, length_app.
    cbn [length app]. replace (length acc + 1)%nat with (S (length acc)) by lia.
    reflexivity.
Qed.

Lemma init_crflist
  tagset_size char_size char_dim char_hidden_dim char_rnn_layers embedding_dim
  word_hidden_dim word_rnn_layers vocab_size dropout_ratio file_num len_max_seq
  n_layers n_head d_k d_v large_CRF if_highway in_doc_words highway_layers
  word_level_attention :
  crflist
    (__init__ tagset_size char_size char_dim char_hidden_dim char_rnn_layers
       embedding_dim word_hidden_dim word_rnn_layers vocab_size dropout_ratio file_num
       len_max_seq n_layers n_head d_k d_v large_CRF if_highway in_doc_words
       highway_layers word_level_attention) =
  map (fun i =>
         if large_CRF
         then CRF_L word_hidden_dim tagset_size (Fresh (Item "crflist" i))
         else CRF_S word_hidden_dim tagset_size (Fresh (Item "crflist" i)))
    (range file_num).
Proof.
  unfold __init__. cbn [crflist]. unfold range.
  destruct large_CRF; rewrite crflist_loop; reflexivity.
Qed.

Lemma called_app (name : string) (a b : list Call) :
  called name (a ++ b) = called name a || called name b.
Proof. unfold called. apply existsb_app. Qed.

Lemma called_prefix (name : string) (a rest full : list Call) :
  a ++ rest = full -> called name full = false -> called name a = false.
Proof.
  intros <-. rewrite called_app. intros H. apply orb_false_iff in H. apply H.
Qed.

Lemma called_layer_calls (name : string) (layers : list EncoderLayer) :
  forall k x npm sam,
    called name (layer_calls k layers x npm sam) =
    match layers with
    | [] => false
    | _ => String.eqb "layer_stack" name
    end.
Proof.
  induction layers as [|l layers IH]; intros k x npm sam; [reflexivity|].
  cbn [layer_calls]. unfold called in *. cbn [existsb callee is_attr is_item orb].
  rewrite IH. destruct layers; [apply orb_false_r | apply orb_diag].
Qed.

Lemma view_four (s : list Z) (b len t : Z) :
  view_shape s [b; len; t; t] <> None -> 0 <= b -> 0 <= len ->
  0 <= t /\ view_shape s [b; len; t; t] = Some [b; len; t; t].
Proof.
  intros Hne Hb Hlen. unfold view_shape in *. cbn [forallb count_occ] in *.
  destruct (Z.eq_dec b (-1)) as [|_]; [lia|].
  destruct (Z.eq_dec len (-1)) as [|_]; [lia|].
  destruct (Z.eq_dec t (-1)) as [->|Ht].
  - exfalso. apply Hne. destruct (-1 <=? b), (-1 <=? len); reflexivity.
  - destruct (-1 <=? t) eqn:Hle.
    + apply Z.leb_le in Hle. split; [lia|].
      destruct (-1 <=? b), (-1 <=? len); cbn [andb] in *; try congruence.
      destruct (numel [b; len; t; t] =? numel s); congruence.
    + exfalso. apply Hne. rewrite !andb_false_r. reflexivity.
Qed.

Lemma layer_calls_masks (layers : list EncoderLayer) (npm sam : Tensor) :
  forall k x,
    Forall (fun c => exists e, args c = [e; npm; sam]) (layer_calls k layers x npm sam).
Proof.
  induction layers as [|l layers IH]; intros k x; cbn [layer_calls]; constructor.
  - exists x. reflexivity.
  - apply IH.
Qed.

Lemma layer_calls_filter (layers : list EncoderLayer) (npm sam : Tensor) :
  forall k x,
    filter (fun c => is_item "layer_stack" (callee c)) (layer_calls k layers x npm sam) =
    layer_calls k layers x npm sam.
Proof.
  induction layers as [|l layers IH]; intros k x; cbn [layer_calls filter]; [reflexivity|].
  cbn [callee is_item]. rewrite IH. reflexivity.
Qed.

Lemma Forall_prefix {A : Type} (P : A -> Prop) (a rest full : list A) :
  a ++ rest = full -> Forall P full -> Forall P a.
Proof. intros <- H. apply Forall_app in H. apply H. Qed.

Ltac unfold_dataflow :=
  unfold forward_calls_of, encoder_calls, char_level_calls, highway_calls,
    word_level_calls, crf_scores_of, word_level_of, word_lstm_input, attention_output,
    attention_input, position_encoded, word_embedded, d_char_out_of, fb_lstm_out_of,
    char_lstm_features, selected, char_embedded, dropped, made,
    non_pad_mask_of, slf_attn_mask_of.

Ltac use_flags :=
  repeat match goal with
         | E : if_highway _ = _ |- _ => rewrite E; clear E
         | E : word_level_attention _ = _ |- _ => rewrite E; clear E
         | E : fb2char _ = _ |- _ => rewrite E; clear E
         end.

Section MethodProperties.

Context {absent : Absent}.

(** *** What [forward] does to [self] *)

Lemma set_batch_seq_size_sizes (t : Tensor) self s c :
  set_batch_seq_size t self = (Ok tt, s, c) ->
  c = [] /\
  s = with_batch_size (batch_size s) (with_word_seq_length (word_seq_length s) self) /\
  exists rest, size t = word_seq_length s :: batch_size s :: rest.
Proof.
  rewrite set_batch_seq_size_run.
  destruct (item (size t) 0) as [d0|] eqn:H0; [|discriminate].
  destruct (item (size t) 1) as [d1|] eqn:H1; [|discriminate].
  intros [= <- <-]. split; [reflexivity|]. split; [reflexivity|].
  apply (item_inv _ H0 H1).
Qed.

Lemma set_batch_seq_size_calls (t : Tensor) self :
  calls_of (set_batch_seq_size t self) = [].
Proof.
  rewrite set_batch_seq_size_run.
  destruct (item (size t) 0); [|reflexivity]. destruct (item (size t) 1); reflexivity.
Qed.

(** [set_batch_seq_size] assigns the two bookkeeping attributes and nothing
    else: any attribute that these two assignments leave alone is left
    alone. *)
Lemma set_batch_seq_size_keeps {A : Type} (f : LM_LSTM_CRF -> A) (t : Tensor) self :
  (forall v s, f (with_batch_size v s) = f s) ->
  (forall v s, f (with_word_seq_length v s) = f s) ->
  f (self_after (set_batch_seq_size t self)) = f self.
Proof.
  intros Hb Hw. rewrite set_batch_seq_size_run.
  destruct (item (size t) 0); [|reflexivity].
  destruct (item (size t) 1); rewrite self_after_triple, ?Hb, ?Hw; reflexivity.
Qed.

Lemma forward_self_after fs fp bs bp ws wp dict file_no hid self :
  self_after (forward fs fp bs bp ws wp dict file_no hid self) =
  self_after (set_batch_seq_size fp self).
Proof.
  remember (forward fs fp bs bp ws wp dict file_no hid self) as r eqn:Hr.
  unfold forward in Hr. rewrite bind_run in Hr.
  destruct (set_batch_seq_size fp self) as [[[[]|e] self1] c];
    rewrite ?result_of_triple, ?self_after_triple, ?calls_of_triple in *;
    [|subst r; reflexivity].
  exec_unfold Hr. exec Hr.
  all: try (subst r; reflexivity).
  all: exec_loop Hr; exec Hr; subst r; reflexivity.
Qed.

Lemma forward_keeps {A : Type} (f : LM_LSTM_CRF -> A)
  fs fp bs bp ws wp dict file_no hid self :
  (forall v s, f (with_batch_size v s) = f s) ->
  (forall v s, f (with_word_seq_length v s) = f s) ->
  f (self_after (forward fs fp bs bp ws wp dict file_no hid self)) = f self.
Proof.
  intros Hb Hw. rewrite forward_self_after. apply set_batch_seq_size_keeps; assumption.
Qed.

(** *** [forward] against its dataflow *)

(** Whatever happens, the calls [forward] has made are an initial segment
    of the calls of the dataflow. *)
Lemma forward_calls_prefix fs fp bs bp ws wp dict file_no hid self :
  let r := forward fs fp bs bp ws wp dict file_no hid self in
  let s := self_after r in
  exists rest,
    calls_of r ++ rest =
    forward_calls_of s fs fp bs bp ws wp dict (index_of (crflist s) file_no).
Proof.
  intros r s. subst s. remember r as r' eqn:Hr. subst r.
  unfold forward in Hr. rewrite bind_run in Hr.
  pose proof (set_batch_seq_size_calls fp self) as Hc.
  destruct (set_batch_seq_size fp self) as [[[[]|e] self1] c] eqn:Hset;
    rewrite ?result_of_triple, ?self_after_triple, ?calls_of_triple in *; subst c;
    [|subst r'; eexists; reflexivity].
  clear Hset.
  exec_unfold Hr. exec Hr.
  all: try (exec_loop Hr; exec Hr).
  all: unfold ret in Hr; subst r';
    rewrite ?self_after_after, ?calls_of_after, ?self_after_triple, ?calls_of_triple;
    unfold_dataflow; use_flags;
    try match goal with
        | E : getitem _ _ = Ok _ |- _ => apply getitem_Ok in E; destruct E as [-> _]
        end.
  all: try (destruct (Hout _ eq_refl) as [-> ->]; clear Hout Hcalls).
  all: try match goal with
           | Hcalls : exists n, _ = layer_calls 0 (firstn n ?ls) ?x ?npm ?sam |- _ =>
               let n := fresh "n" in
               let tl := fresh "tl" in
               destruct Hcalls as [n ->];
               destruct (layer_calls_firstn n ls 0 x npm sam) as [tl <-]
           end.
  all: eexists; cbn [app]; rewrite <- ?app_assoc; cbn [app]; reflexivity.
Qed.

(** When [forward] returns, it returns the tensor of the dataflow and has
    made exactly its calls; the shapes were such that the final [view]
    went through. *)
Lemma forward_returns fs fp bs bp ws wp dict file_no hid self out :
  let r := forward fs fp bs bp ws wp dict file_no hid self in
  let s := self_after r in
  result_of r = Ok out ->
  exists head,
    getitem (crflist s) file_no = Ok (index_of (crflist s) file_no, head) /\
    out = crf_scores_of s fs fp bs bp ws wp dict head /\
    calls_of r =
      forward_calls_of s fs fp bs bp ws wp dict (index_of (crflist s) file_no) /\
    (exists rest, size fp = word_seq_length s :: batch_size s :: rest) /\
    view_shape (size (CRF_output head (word_level_of s fs fp bs bp ws wp dict)))
      [batch_size s; word_seq_length s; tagset_size s; tagset_size s] <> None /\
    (if_highway s = true -> fb2char s <> None).
Proof.
  intros r s. subst s. remember r as r' eqn:Hr. subst r. intros Hok.
  unfold forward in Hr. rewrite bind_run in Hr.
  destruct (set_batch_seq_size fp self) as [[[[]|e] self1] c] eqn:Hset;
    rewrite ?result_of_triple, ?self_after_triple, ?calls_of_triple in Hr;
    [|subst r'; discriminate].
  apply set_batch_seq_size_sizes in Hset. destruct Hset as (-> & _ & Hsize).
  exec_unfold Hr. exec Hr.
  all: try (exec_loop Hr; exec Hr).
  all: unfold ret in Hr;
    try (rewrite Hr in Hok; rewrite ?result_of_after, ?result_of_triple in Hok;
         discriminate Hok).
  all: subst r'; rewrite ?result_of_after, ?result_of_triple in Hok;
    injection Hok as <-;
    rewrite ?self_after_after, ?calls_of_after, ?self_after_triple, ?calls_of_triple;
    match goal with
    | E : getitem _ _ = Ok (?n, ?c) |- _ =>
        exists c; rewrite E; apply getitem_Ok in E; destruct E as [-> _]
    end;
    try (destruct (Hout _ eq_refl) as [-> ->]; clear Hout Hcalls);
    unfold_dataflow;
    repeat match goal with
           | E : if_highway _ = _ |- _ => rewrite E; clear E
           | E : word_level_attention _ = _ |- _ => rewrite E; clear E
           | E : fb2char _ = _ |- _ => rewrite E; clear E
           | E : view_shape _ _ = Some _ |- _ => rewrite E; clear E
           end;
    cbn [app]; rewrite <- ?app_assoc; cbn [app];
    repeat split; try reflexivity; try assumption; try discriminate.
Qed.

(** C9.  Whatever [self.word_seq_length] and [self.batch_size] held before,
    once [forward] has been called on a [forw_position] with at least two
    axes they hold its first and second dimension; this is so whether
    [forward] returns or raises further on, and in particular when
    [set_batch_size] or [set_batch_seq_size] was called just before. *)
Theorem forward_overwrites_batch_seq_size
  (forw_sentence forw_position back_sentence back_position word_seq word_pos : Tensor)
  (word_dict : Dict) (file_no : Z) (hidden : option (Tensor * Tensor))
  (self : LM_LSTM_CRF) (d0 d1 : Z) (rest : list Z) :
  size forw_position = d0 :: d1 :: rest ->
  let after_forward (s : LM_LSTM_CRF) :=
    self_after (forward forw_sentence forw_position back_sentence back_position
                  word_seq word_pos word_dict file_no hidden s) in
  (word_seq_length (after_forward self) = d0 /\ batch_size (after_forward self) = d1) /\
  (forall bsize,
     let s := after_forward (self_after (set_batch_size bsize self)) in
     word_seq_length s = d0 /\ batch_size s = d1) /\
  (forall sentence,
     let s := after_forward (self_after (set_batch_seq_size sentence self)) in
     word_seq_length s = d0 /\ batch_size s = d1).
Proof.
  intros Hsize after_forward.
  assert (forall s, word_seq_length (after_forward s) = d0 /\
                    batch_size (after_forward s) = d1) as H.
  { intros s. unfold after_forward. rewrite forward_self_after.
    rewrite set_batch_seq_size_run, Hsize, item_0, item_1. split; reflexivity. }
  split; [apply H|]. split; intros; apply H.
Qed.

(** *** Loading and initialising the parameters *)

(** The run of [load_pretrained_word_embedding], case by case. *)
Lemma load_pretrained_run (pre_word_embeddings : Tensor) self :
  load_pretrained_word_embedding pre_word_embeddings self =
  match nth_error (size pre_word_embeddings) 1 with
  | Some d =>
      if d =? word_dim self then
        if can_require_grad pre_word_embeddings
        then (Ok tt,
              with_word_embeds
                {| weight := {| data := pre_word_embeddings; requires_grad := true |} |}
                self, [])
        else (Raise TorchError, self, [])
      else (Raise AssertionError, self, [])
  | None => (Raise IndexError, self, [])
  end.
Proof.
  unfold load_pretrained_word_embedding, assert, new_Parameter. rewrite bind_lift.
  destruct (item (size pre_word_embeddings) 1) as [d|e] eqn:Hd.
  - apply item_1_nth in Hd. rewrite Hd, bind_get.
    destruct (d =? word_dim self); [|reflexivity].
    rewrite bind_ret, bind_lift.
    destruct (can_require_grad pre_word_embeddings); reflexivity.
  - assert (nth_error (size pre_word_embeddings) 1 = None) as Hnone.
    { destruct (nth_error (size pre_word_embeddings) 1) as [d|] eqn:Hn; [|reflexivity].
      apply item_1_nth in Hn. congruence. }
    rewrite Hnone. apply item_raises in Hd. subst e. reflexivity.
Qed.

(** C8.  [load_pretrained_word_embedding] raises [AssertionError] exactly
    when its argument has a second dimension and this differs from
    [self.word_dim] (which the constructor sets to [embedding_dim]).  It
    succeeds exactly when the second dimension is [self.word_dim] and
    [nn.Parameter] accepts the tensor, whatever the first dimension is;
    [word_embeds.weight] is then a parameter holding the given tensor, and
    every other attribute is as before.  When the call raises, [self] is as
    before. *)
Theorem load_pretrained_word_embedding_spec
  (pre_word_embeddings : Tensor) (self : LM_LSTM_CRF) :
  (forall tagset_size char_size char_dim char_hidden_dim char_rnn_layers embedding_dim
          word_hidden_dim word_rnn_layers vocab_size dropout_ratio file_num len_max_seq
          n_layers n_head d_k d_v large_CRF if_highway in_doc_words highway_layers
          word_level_attention,
     word_dim
       (__init__ tagset_size char_size char_dim char_hidden_dim char_rnn_layers
          embedding_dim word_hidden_dim word_rnn_layers vocab_size dropout_ratio
          file_num len_max_seq n_layers n_head d_k d_v large_CRF if_highway
          in_doc_words highway_layers word_level_attention) = embedding_dim) /\
  let r := load_pretrained_word_embedding pre_word_embeddings self in
  (result_of r = Raise AssertionError <->
     exists d, nth_error (size pre_word_embeddings) 1 = Some d /\ d <> word_dim self) /\
  (result_of r = Ok tt <->
     nth_error (size pre_word_embeddings) 1 = Some (word_dim self) /\
     can_require_grad pre_word_embeddings = true) /\
  (result_of r = Ok tt ->
     weight (word_embeds (self_after r)) =
       {| data := pre_word_embeddings; requires_grad := true |} /\
     same_but_word_embeds (self_after r) self) /\
  (result_of r <> Ok tt -> self_after r = self) /\
  calls_of r = [].
Proof.
  split; [intros; reflexivity|].
  intros r. rewrite (load_pretrained_run pre_word_embeddings self : r = _).
  destruct (nth_error (size pre_word_embeddings) 1) as [d|] eqn:Hd.
  - destruct (d =? word_dim self) eqn:Heq.
    + apply Z.eqb_eq in Heq. subst d.
      destruct (can_require_grad pre_word_embeddings) eqn:Hgrad;
        rewrite result_of_triple, self_after_triple, calls_of_triple.
      * split; [|split; [|split; [|split]]].
        -- split; [discriminate|]. intros (d & [= <-] & Hne). congruence.
        -- split; [intros _; split; reflexivity | reflexivity].
        -- intros _. unfold same_but_word_embeds. repeat split; reflexivity.
        -- intros H. contradiction H. reflexivity.
        -- reflexivity.
      * split; [|split; [|split; [|split]]].
        -- split; [discriminate|]. intros (d & [= <-] & Hne). congruence.
        -- split; [discriminate | intros [_ H]; discriminate H].
        -- discriminate.
        -- reflexivity.
        -- reflexivity.
    + apply Z.eqb_neq in Heq.
      rewrite result_of_triple, self_after_triple, calls_of_triple.
      split; [|split; [|split; [|split]]].
      * split; [intros _|reflexivity]. exists d. split; [reflexivity | assumption].
      * split; [discriminate | intros [[= H] _]; congruence].
      * discriminate.
      * reflexivity.
      * reflexivity.
  - rewrite result_of_triple, self_after_triple, calls_of_triple.
    split; [|split; [|split; [|split]]].
    + split; [discriminate|]. intros (d & [=] & _).
    + split; [discriminate | intros [[=] _]].
    + discriminate.
    + reflexivity.
    + reflexivity.
Qed.

(** C10.  [rand_init] never changes [position_enc], whatever its arguments
    and whether it returns or raises, and called with
    [init_word_embedding=False] it leaves [word_embeds] as it was.  On an
    object whose highway attributes exist when [if_highway] is set it
    returns, having handed to their initialisers: the character embedding
    (when [init_char_embedding] is set, and otherwise left it alone), the
    three LSTMs, the three linear layers, the five highway blocks (when
    [if_highway] is set) and every CRF head of [crflist]. *)
Theorem rand_init_frame (init_char_embedding init_word_embedding : bool)
  (self : LM_LSTM_CRF) :
  let r := rand_init init_char_embedding init_word_embedding self in
  let self' := self_after r in
  position_enc self' = position_enc self /\
  (init_word_embedding = false -> word_embeds self' = word_embeds self) /\
  (highway_attrs_present self ->
   result_of r = Ok tt /\
   char_embeds self' =
     (if init_char_embedding
      then {| weight := init_embedding (weight (char_embeds self)) |}
      else char_embeds self) /\
   forw_char_lstm self' = init_lstm (forw_char_lstm self) /\
   back_char_lstm self' = init_lstm (back_char_lstm self) /\
   word_lstm self' = init_lstm (word_lstm self) /\
   char_pre_train_out self' = init_linear (char_pre_train_out self) /\
   word_pre_train_out self' = init_linear (word_pre_train_out self) /\
   fc self' = init_linear (fc self) /\
   (if_highway self = true ->
    forw2char self' = option_map hw_rand_init (forw2char self) /\
    back2char self' = option_map hw_rand_init (back2char self) /\
    forw2word self' = option_map hw_rand_init (forw2word self) /\
    back2word self' = option_map hw_rand_init (back2word self) /\
    fb2char self' = option_map hw_rand_init (fb2char self)) /\
   crflist self' = map CRF_rand_init (crflist self)).
Proof.
  intros r self'. subst self' r. unfold highway_attrs_present.
  destruct self as [? ? ? ? ? ? hwy ? ? ? ? ? ? ? ? ? ? ? f2c b2c f2w b2w fb2c ? ? ? ? ? ? ?].
  cbn [if_highway forw2char back2char forw2word back2word fb2char].
  destruct hwy.
  - destruct f2c as [h1|]; [destruct b2c as [h2|]; [destruct f2w as [h3|];
      [destruct b2w as [h4|]; [destruct fb2c as [h5|]|]|]|]|];
      destruct init_char_embedding, init_word_embedding;
      (split; [reflexivity|]); (split; [intros Hw; try discriminate Hw; reflexivity|]);
      intros Hhw; destruct (Hhw eq_refl) as (H1 & H2 & H3 & H4 & H5); try congruence;
      repeat (split; [reflexivity|]);
      (split; [|reflexivity]); intros _; repeat (split; [reflexivity|]); reflexivity.
  - destruct init_char_embedding, init_word_embedding;
      (split; [reflexivity|]); (split; [intros Hw; try discriminate Hw; reflexivity|]);
      intros _; repeat (split; [reflexivity|]);
      (split; [|reflexivity]); intros Hf; discriminate Hf.
Qed.

End MethodProperties.

(** ** [forward] and its tests

    When every test is known to pass, a computation is run in the goal by
    rewriting, without case analysis. *)

Lemma fits_Some (shape : option (list Z)) :
  fits shape = true -> exists s, shape = Some s.
Proof. destruct shape as [s|]; [eauto | discriminate]. Qed.

Lemma permute_four (a b c d : Z) :
  permute_shape [a; b; c; d] [1; 0; 2; 3] = Some [b; a; c; d].
Proof. reflexivity. Qed.

Lemma view_fits_size (s req : list Z) (out : list Z) :
  view_shape s req = Some out -> length out = length req.
Proof.
  unfold view_shape. destruct (forallb _ req); [|discriminate].
  destruct (count_occ Z.eq_dec req (-1)) as [|[|n]]; [| |discriminate].
  - destruct (_ =? _); [|discriminate]. intros [= <-]. reflexivity.
  - destruct (_ && _); [|discriminate]. intros [= <-]. apply length_map.
Qed.

(** The steps of a computation in the goal, when every test is known to
    pass. *)
Ltac run_step :=
  first [ rewrite bind_assoc | rewrite bind_ret | rewrite bind_get
        | rewrite bind_assign | rewrite bind_lift | rewrite bind_call
        | rewrite bind_raise ];
  cbv beta iota.

Ltac run_known :=
  match goal with
  | E : ?x = Some _ |- context [match ?x with _ => _ end] => rewrite E
  | E : ?x = true |- context [if ?x then _ else _] => rewrite E
  | E : ?x = false |- context [if ?x then _ else _] => rewrite E
  end;
  cbv beta iota.

Ltac run_all := repeat (first [run_step | run_known]).

Ltac split_fits H :=
  repeat match type of H with
         | _ && _ = true =>
             let H1 := fresh "Hfit" in
             apply andb_prop in H; destruct H as [H1 H]; split_fits H1
         | fits _ = true =>
             let l := fresh "shape" in
             apply fits_Some in H; destruct H as [l H]
         end.

(** The same for the contents: one equation per tensor of the list. *)
Ltac split_accepted H :=
  unfold accepted in H;
  repeat first [rewrite forallb_app in H | progress cbn [forallb] in H];
  rewrite ?andb_true_r in H; split_fits H.

(** A test in the goal that is not known to pass is decided both ways; the
    goal is closed when it fails. *)
Ltac finish_run :=
  cbn [after result_of self_after calls_of fst snd app];
  rewrite <- ?app_assoc; reflexivity.

Section FitRun.

Context {absent : Absent}.

Lemma layers_fit_run (layers : list EncoderLayer) (npm sam : Tensor) :
  forall (k : nat) (x : Tensor) self,
    layers_fit layers x npm sam = true ->
    forallb accepts (layer_terms layers x npm sam) = true ->
    for_each (combine (seq k (length layers)) layers)
      (fun i enc_layer enc_output =>
         call_EncoderLayer (Item "layer_stack" i) enc_layer enc_output npm sam)
      x self =
    (Ok (attention_stack layers x npm sam), self, layer_calls k layers x npm sam).
Proof.
  induction layers as [|l layers IH]; intros k x self Hfit Hacc; [reflexivity|].
  cbn [layers_fit] in Hfit. apply andb_prop in Hfit. destruct Hfit as [Hl Hrest].
  cbn [layer_terms forallb] in Hacc. apply andb_prop in Hacc. destruct Hacc as [Ha Harest].
  apply fits_Some in Hl. destruct Hl as [shape Hl].
  cbn [length seq combine for_each]. unfold call_EncoderLayer at 1.
  rewrite bind_call. unfold EncoderLayer_forward, checked. rewrite Hl, Ha.
  rewrite (IH (S k) _ self Hrest Harest). reflexivity.
Qed.

Lemma forward_fit_run fs fp bs bp ws wp dict file_no hid self d0 d1 rest :
  size fp = d0 :: d1 :: rest ->
  let s := with_batch_size d1 (with_word_seq_length d0 self) in
  encoders_pass s fs fp bs bp ws wp dict = true ->
  forward fs fp bs bp ws wp dict file_no hid self =
  match getitem (crflist self) file_no with
  | Ok (i, head) =>
      (if head_passes s fs fp bs bp ws wp dict head
       then Ok (crf_scores_of s fs fp bs bp ws wp dict head)
       else Raise TorchError,
       s, forward_calls_of s fs fp bs bp ws wp dict i)
  | Raise e => (Raise e, s, encoder_calls s fs fp bs bp ws wp dict)
  end.
Proof.
  intros Hsize s Hpass.
  unfold encoders_pass in Hpass. apply andb_prop in Hpass. destruct Hpass as [Hfit Hacc].
  assert (crflist s = crflist self) as Hcrf by reflexivity.
  rewrite <- Hcrf. clear Hcrf.
  unfold forward. rewrite bind_run, set_batch_seq_size_run, Hsize, item_0, item_1.
  rewrite result_of_triple, self_after_triple, calls_of_triple, after_nil.
  fold s. clearbody s.
  unfold encoders_fit, char_level_fits, selection_fits, highway_fits, word_level_fits,
    attention_fits, recurrent_fits, embedding_fits in Hfit.
  unfold encoder_terms, char_level_terms, selection_terms, highway_terms,
    word_level_terms in Hacc.
  unfold head_passes, head_fits, head_terms, accepted.
  unfold forward_calls_of, encoder_calls, char_level_calls, highway_calls,
    word_level_calls, crf_scores_of, word_level_of, word_lstm_input, attention_output,
    attention_input, position_encoded, word_embedded, d_char_out_of, fb_lstm_out_of,
    char_lstm_features, selected, expanded, char_embedded, dropped, made,
    non_pad_mask_of, slf_attn_mask_of in *.
  unfold call_Embedding, call_Dropout, call_LSTM, call_Linear, call_hw, call_CRF,
    getattr, assert, of_option,
    Embedding_forward, Dropout_forward, LSTM_forward, Linear_forward, hw_forward,
    CRF_forward, get_attn_key_pad_mask, get_non_pad_mask,
    unsqueeze, expand, gather, cat, permute, view, checked.
  destruct (if_highway s) eqn:Ehw; [destruct (fb2char s) as [h|] eqn:Efb|];
    destruct (word_level_attention s) eqn:Eatt.
  all: split_fits Hfit.
  all: try discriminate.
  all: split_accepted Hacc.
  all: run_all.
  all: try (unfold enumerate; rewrite bind_run, layers_fit_run by assumption;
            rewrite result_of_triple, self_after_triple, calls_of_triple; run_all).
  all: destruct (getitem (crflist s) file_no) as [[i head]|e]; run_all.
  all: try finish_run.
  all: cbn [forallb]; rewrite ?andb_true_r.
  all: match goal with
       | |- context [CRF_shape ?c ?x] => destruct (CRF_shape c x) as [crf_shape|] eqn:Ecrf
       end; cbn [fits andb]; cbv beta iota; [|finish_run].
  all: match goal with
       | |- context [accepts (CRF_output ?c ?x)] =>
           destruct (accepts (CRF_output c x)) eqn:Eacc
       end; cbn [andb]; rewrite ?andb_false_r; cbv beta iota; [|finish_run].
  all: run_all.
  all: match goal with
       | |- context [view_shape ?a ?b] => destruct (view_shape a b) as [viewed|] eqn:Eview
       end; cbn [fits andb]; cbv beta iota; [|finish_run].
  all: match goal with
       | |- context [accepts (T_view ?x ?l)] => destruct (accepts (T_view x l)) eqn:Evacc
       end; cbn [andb]; cbv beta iota; [|finish_run].
  all: run_all.
  all: assert (forall x l, size (T_view x l) = or_scalar (view_shape (size x) l)) as Hv
         by reflexivity;
       rewrite Hv, Eview; cbn [or_scalar];
       apply view_fits_size in Eview;
       destruct viewed as [|a [|b [|c [|d [|? ?]]]]]; try discriminate Eview;
       rewrite permute_four; cbv beta iota;
       match goal with
       | |- context [accepts (T_permute ?x ?l)] => destruct (accepts (T_permute x l))
       end; run_all; finish_run.
Qed.

End FitRun.

(** The converse: the tests of a run that returned have passed. *)

Ltac exec_keep H :=
  repeat (first [ exec_step H
                | match type of H with
                  | context [match ?o with _ => _ end] =>
                      lazymatch o with
                      | context [match _ with _ => _ end] => fail
                      | context [for_each] => fail
                      | _ => destruct o eqn:?
                      end
                  end; cbv beta iota in H ]).

Section ReturnsFit.

Context {absent : Absent}.

Lemma layers_run_fit (layers : list EncoderLayer) (npm sam : Tensor) :
  forall (k : nat) (x : Tensor) self out,
    result_of
      (for_each (combine (seq k (length layers)) layers)
         (fun i enc_layer enc_output =>
            call_EncoderLayer (Item "layer_stack" i) enc_layer enc_output npm sam)
         x self) = Ok out ->
    layers_fit layers x npm sam = true /\
    forallb accepts (layer_terms layers x npm sam) = true.
Proof.
  induction layers as [|l layers IH]; intros k x self out; [split; reflexivity|].
  cbn [length seq combine for_each layers_fit layer_terms forallb].
  unfold call_EncoderLayer at 1.
  rewrite bind_call. unfold EncoderLayer_forward, checked.
  destruct (EncoderLayer_shape l (size x) (size npm) (size sam)); [|discriminate].
  destruct (accepts (EncoderLayer_output l x npm sam)); [|discriminate].
  rewrite result_of_after. intros H. destruct (IH _ _ _ _ H) as [-> ->].
  split; reflexivity.
Qed.

Lemma forward_returns_fit fs fp bs bp ws wp dict file_no hid self out :
  let r := forward fs fp bs bp ws wp dict file_no hid self in
  let s := self_after r in
  result_of r = Ok out ->
  encoders_pass s fs fp bs bp ws wp dict = true /\
  exists i head,
    getitem (crflist s) file_no = Ok (i, head) /\
    head_passes s fs fp bs bp ws wp dict head = true.
Proof.
  intros r s. subst s. remember r as r' eqn:Hr. subst r. intros Hok.
  unfold forward in Hr. rewrite bind_run in Hr.
  destruct (set_batch_seq_size fp self) as [[[[]|e] self1] c] eqn:Hset;
    rewrite ?result_of_triple, ?self_after_triple, ?calls_of_triple in Hr;
    [|subst r'; discriminate].
  apply set_batch_seq_size_sizes in Hset. destruct Hset as (-> & _ & Hsize).
  exec_unfold Hr. exec_keep Hr.
  all: try (exec_loop Hr; exec_keep Hr).
  all: unfold ret in Hr;
    try (rewrite Hr in Hok; rewrite ?result_of_after, ?result_of_triple in Hok;
         discriminate Hok).
  all: subst r'; rewrite ?self_after_after, ?self_after_triple.
  all: try match goal with
           | Heqloop : (Ok ?t, _, _) =
                       for_each (combine (seq 0 (length ?ls)) ?ls)
                         (fun i l e => call_EncoderLayer _ l e ?npm ?sam) ?x ?s |- _ =>
               assert (layers_fit ls x npm sam = true /\
                       forallb accepts (layer_terms ls x npm sam) = true) as [Hlayers Hlacc]
                 by (apply (@layers_run_fit ls npm sam 0%nat x s t);
                     rewrite <- Heqloop; reflexivity);
               destruct (Hout _ eq_refl) as [-> _]; clear Hout Hcalls Heqloop
           end.
  all: split;
    [ unfold encoders_pass, encoders_fit, char_level_fits, selection_fits, highway_fits,
        word_level_fits, attention_fits, recurrent_fits, embedding_fits, accepted,
        encoder_terms, char_level_terms, selection_terms, highway_terms, word_level_terms
    | match goal with
      | E : getitem _ _ = Ok (?n, ?c) |- _ =>
          exists n, c; split; [exact E|];
          unfold head_passes, head_fits, head_terms, accepted
      end ].
  all: unfold_dataflow; unfold expanded;
    repeat match goal with
           | E : if_highway _ = _ |- _ => rewrite E; clear E
           | E : word_level_attention _ = _ |- _ => rewrite E; clear E
           | E : fb2char _ = _ |- _ => rewrite E; clear E
           end;
    cbv zeta; repeat first [rewrite forallb_app | progress cbn [forallb]];
    repeat match goal with
           | E : ?x = Some _ |- context [fits ?x] => rewrite E; clear E
           | E : ?x = true |- context [?x] => rewrite E; clear E
           end;
    reflexivity.
Qed.

Lemma encoders_pass_fit s fs fp bs bp ws wp dict :
  encoders_pass s fs fp bs bp ws wp dict = true ->
  encoders_fit s fs fp bs bp ws wp dict = true /\
  accepted (encoder_terms s fs fp bs bp ws wp dict) = true.
Proof. unfold encoders_pass. apply andb_prop. Qed.

Lemma head_passes_fit s fs fp bs bp ws wp dict head :
  head_passes s fs fp bs bp ws wp dict head = true ->
  head_fits s fs fp bs bp ws wp dict head = true /\
  accepted (head_terms s fs fp bs bp ws wp dict head) = true.
Proof. unfold head_passes. apply andb_prop. Qed.

End ReturnsFit.

Section ForwardRuns.

Context {absent : Absent}.

Lemma forward_returns_iff
  (forw_sentence forw_position back_sentence back_position word_seq word_pos : Tensor)
  (word_dict : Dict) (file_no : Z) (hidden : option (Tensor * Tensor))
  (self : LM_LSTM_CRF) (out : Tensor) :
  result_of (forward forw_sentence forw_position back_sentence back_position word_seq
               word_pos word_dict file_no hidden self) = Ok out <->
  exists d0 d1 rest i head,
    size forw_position = d0 :: d1 :: rest /\
    let s := with_batch_size d1 (with_word_seq_length d0 self) in
    encoders_pass s forw_sentence forw_position back_sentence back_position word_seq
      word_pos word_dict = true /\
    getitem (crflist self) file_no = Ok (i, head) /\
    head_passes s forw_sentence forw_position back_sentence back_position word_seq
      word_pos word_dict head = true /\
    out = crf_scores_of s forw_sentence forw_position back_sentence back_position
            word_seq word_pos word_dict head.
Proof.
  split.
  - intros Hok.
    destruct (@forward_returns _ _ _ _ _ _ _ _ _ _ _ _ Hok)
      as (head & Hget & Hres & _ & [rest Hsize] & _).
    destruct (@forward_returns_fit _ _ _ _ _ _ _ _ _ _ _ _ Hok)
      as (Hfit & i & head' & Hget' & Hhead).
    rewrite Hget in Hget'. injection Hget' as <- <-.
    remember (self_after (forward forw_sentence forw_position back_sentence back_position
                            word_seq word_pos word_dict file_no hidden self)) as s eqn:Hs.
    rewrite forward_self_after, set_batch_seq_size_run, Hsize, item_0, item_1 in Hs.
    rewrite self_after_triple in Hs.
    assert (crflist s = crflist self) as Hcrf by (rewrite Hs; reflexivity).
    rewrite Hcrf in Hget.
    exists (word_seq_length s), (batch_size s), rest, (index_of (crflist self) file_no), head.
    cbv zeta. rewrite <- Hs. repeat split; assumption.
  - intros (d0 & d1 & rest & i & head & Hsize & Hfit & Hget & Hhead & ->).
    rewrite (@forward_fit_run _ _ _ _ _ _ _ _ file_no hidden self _ _ _ Hsize Hfit).
    rewrite Hget, Hhead. reflexivity.
Qed.


(** The run of [forward] when every test passes. *)
Lemma forward_passes_run fs fp bs bp ws wp dict file_no hid self d0 d1 rest i head :
  size fp = d0 :: d1 :: rest ->
  let s := with_batch_size d1 (with_word_seq_length d0 self) in
  encoders_pass s fs fp bs bp ws wp dict = true ->
  getitem (crflist self) file_no = Ok (i, head) ->
  head_passes s fs fp bs bp ws wp dict head = true ->
  forward fs fp bs bp ws wp dict file_no hid self =
  (Ok (crf_scores_of s fs fp bs bp ws wp dict head), s,
   forward_calls_of s fs fp bs bp ws wp dict i).
Proof.
  intros Hsize s Hpass Hget Hhead.
  rewrite (@forward_fit_run _ _ _ _ _ _ _ _ file_no hid self _ _ _ Hsize Hpass).
  rewrite Hget. fold s. rewrite Hhead. reflexivity.
Qed.

End ForwardRuns.

(** ** The language-model scorers *)

Ltac unfold_scorer :=
  unfold lm_calls, lm_score, lm_hidden, lm_d_char_out, lm_d_lstm_out, lm_states,
    char_embedded, dropped, made.

Ltac use_scorer_flags :=
  repeat match goal with
         | E : if_highway _ = _ |- _ => rewrite E; clear E
         | E : forw2word _ = _ |- _ => rewrite E; clear E
         | E : back2word _ = _ |- _ => rewrite E; clear E
         end.

Section Scorers.

Context {absent : Absent}.

Lemma item_nth_0 (l : list Z) (d : Z) : item l 0 = Ok d -> nth 0 l 0 = d.
Proof. destruct l; [discriminate|]. rewrite item_0. intros [= <-]. reflexivity. Qed.

Lemma item_nth_1 (l : list Z) (d : Z) : item l 1 = Ok d -> nth 1 l 0 = d.
Proof.
  destruct l as [|a [|b l]]; try discriminate. rewrite item_1. intros [= <-]. reflexivity.
Qed.

Lemma word_pre_train_forward_prefix sentence position hidden self :
  let r := word_pre_train_forward sentence position hidden self in
  self_after r = self /\
  exists rest,
    calls_of r ++ rest =
    lm_calls self "forw_char_lstm" (forw_char_lstm self) "forw2word" (forw2word self)
      sentence position (nth 0 (size position) 0) (nth 1 (size position) 0).
Proof.
  intros r. remember r as r' eqn:Hr. subst r. unfold word_pre_train_forward in Hr.
  exec_unfold Hr. exec Hr.
  all: unfold ret in Hr; subst r';
    rewrite ?self_after_after, ?calls_of_after, ?self_after_triple, ?calls_of_triple;
    unfold_scorer; use_scorer_flags;
    repeat match goal with
           | E : item _ 0 = Ok _ |- _ => apply item_nth_0 in E; rewrite E; clear E
           | E : item _ 1 = Ok _ |- _ => apply item_nth_1 in E; rewrite E; clear E
           end;
    (split; [reflexivity|]); eexists; cbn [app]; rewrite <- ?app_assoc; cbn [app];
    reflexivity.
Qed.

Ltac scorer_returns Hr Hok :=
  exec_unfold Hr; exec Hr;
  unfold ret in Hr;
  try (rewrite Hr in Hok; rewrite ?result_of_after, ?result_of_triple in Hok;
       discriminate Hok);
  match type of Hr with ?r = _ => subst r end;
  rewrite ?result_of_after, ?result_of_triple in Hok;
  injection Hok as <- <-;
  match goal with
  | E0 : item ?l 0 = Ok ?a, E1 : item ?l 1 = Ok ?b |- _ =>
      destruct (item_inv _ E0 E1) as [rest Hrest]; exists a, b, rest
  end;
  rewrite ?calls_of_after, ?calls_of_triple;
  unfold_scorer;
  repeat match goal with
         | E : if_highway _ = _ |- _ => rewrite E; clear E
         | E : forw2word _ = _ |- _ => rewrite E; clear E
         | E : back2word _ = _ |- _ => rewrite E; clear E
         | E : linear_shape _ _ = Some _ |- _ => rewrite E; clear E
         end;
  cbn [app]; rewrite <- ?app_assoc; cbn [app];
  repeat split; try reflexivity; try assumption; try discriminate.

Lemma word_pre_train_forward_returns sentence position hidden self score hid :
  let r := word_pre_train_forward sentence position hidden self in
  result_of r = Ok (score, hid) ->
  exists t0 t1 rest,
    size position = t0 :: t1 :: rest /\
    score = lm_score self (forw_char_lstm self) (forw2word self) sentence position t0 t1 /\
    hid = lm_hidden self (forw_char_lstm self) sentence /\
    calls_of r =
      lm_calls self "forw_char_lstm" (forw_char_lstm self) "forw2word" (forw2word self)
        sentence position t0 t1 /\
    linear_shape (word_pre_train_out self)
      (size (lm_d_char_out self (forw_char_lstm self) (forw2word self) sentence
               position t0 t1)) <> None /\
    (if_highway self = true -> forw2word self <> None).
Proof.
  intros r. remember r as r' eqn:Hr. subst r. intros Hok.
  unfold word_pre_train_forward in Hr. scorer_returns Hr Hok.
Qed.

Lemma word_pre_train_backward_prefix sentence position hidden self :
  let r := word_pre_train_backward sentence position hidden self in
  self_after r = self /\
  exists rest,
    calls_of r ++ rest =
    lm_calls self "back_char_lstm" (back_char_lstm self) "back2word" (back2word self)
      sentence position (nth 0 (size position) 0) (nth 1 (size position) 0).
Proof.
  intros r. remember r as r' eqn:Hr. subst r. unfold word_pre_train_backward in Hr.
  exec_unfold Hr. exec Hr.
  all: unfold ret in Hr; subst r';
    rewrite ?self_after_after, ?calls_of_after, ?self_after_triple, ?calls_of_triple;
    unfold_scorer; use_scorer_flags;
    repeat match goal with
           | E : item _ 0 = Ok _ |- _ => apply item_nth_0 in E; rewrite E; clear E
           | E : item _ 1 = Ok _ |- _ => apply item_nth_1 in E; rewrite E; clear E
           end;
    (split; [reflexivity|]); eexists; cbn [app]; rewrite <- ?app_assoc; cbn [app];
    reflexivity.
Qed.

Lemma word_pre_train_backward_returns sentence position hidden self score hid :
  let r := word_pre_train_backward sentence position hidden self in
  result_of r = Ok (score, hid) ->
  exists t0 t1 rest,
    size position = t0 :: t1 :: rest /\
    score = lm_score self (back_char_lstm self) (back2word self) sentence position t0 t1 /\
    hid = lm_hidden self (back_char_lstm self) sentence /\
    calls_of r =
      lm_calls self "back_char_lstm" (back_char_lstm self) "back2word" (back2word self)
        sentence position t0 t1 /\
    linear_shape (word_pre_train_out self)
      (size (lm_d_char_out self (back_char_lstm self) (back2word self) sentence
               position t0 t1)) <> None /\
    (if_highway self = true -> back2word self <> None).
Proof.
  intros r. remember r as r' eqn:Hr. subst r. intros Hok.
  unfold word_pre_train_backward in Hr. scorer_returns Hr Hok.
Qed.

End Scorers.

Lemma called_grows (name : string) (a rest full : list Call) :
  a ++ rest = full -> called name a = true -> called name full = true.
Proof. intros <- H. rewrite called_app, H. reflexivity. Qed.

Lemma linear_last (l : Linear) (s : list Z) :
  linear_shape l s <> None ->
  last (or_scalar (linear_shape l s)) 0 = out_features l.
Proof.
  unfold linear_shape. destruct (rev s) as [|d front]; [congruence|].
  destruct (d =? in_features l); [|congruence].
  intros _. cbn [or_scalar]. apply last_last.
Qed.

(** ** The language-model scorers and their tests *)

Ltac unfold_lm_fits H :=
  unfold lm_fits, lm_highway_fits, embedding_fits, lm_terms in H;
  unfold lm_calls, lm_score, lm_hidden, lm_d_char_out, lm_d_lstm_out, lm_states,
    char_embedded, dropped, made in *.

Ltac scorer_fit_run Hsize Hpass :=
  let Hfit := fresh "Hfit" in
  let Hacc := fresh "Hacc" in
  unfold lm_passes in Hpass; apply andb_prop in Hpass; destruct Hpass as [Hfit Hacc];
  rewrite bind_get;
  unfold call_Embedding, call_Dropout, call_LSTM, call_Linear, call_hw, call_CRF,
    getattr, assert, of_option,
    Embedding_forward, Dropout_forward, LSTM_forward, Linear_forward, hw_forward,
    unsqueeze, expand, gather, cat, permute, view, checked;
  unfold lm_terms in Hacc; unfold_lm_fits Hfit;
  match goal with
  | |- context [if if_highway ?s then _ else _] =>
      destruct (if_highway s) eqn:Ehw
  end;
  [ match type of Hfit with
    | context [match ?o with Some _ => _ | None => _ end] =>
        lazymatch o with
        | forw2word _ => destruct o eqn:Eblock
        | back2word _ => destruct o eqn:Eblock
        end
    end | ];
  split_fits Hfit; try discriminate;
  split_accepted Hacc;
  match type of Hsize with
  | size ?position = ?a :: ?b :: _ =>
      let Hitem0 := fresh "Hitem" in
      let Hitem1 := fresh "Hitem" in
      assert (item (size position) 0 = Ok a) as Hitem0 by (rewrite Hsize; apply item_0);
      assert (item (size position) 1 = Ok b) as Hitem1 by (rewrite Hsize; apply item_1);
      repeat (first [run_step | run_known | rewrite Hitem0 | rewrite Hitem1])
  end;
  cbn [after result_of self_after calls_of fst snd app];
  reflexivity.

Section ScorerRuns.

Context {absent : Absent}.

Lemma word_pre_train_forward_fit_run sentence position hidden self t0 t1 rest :
  size position = t0 :: t1 :: rest ->
  lm_passes self (forw_char_lstm self) (forw2word self) sentence position t0 t1 = true ->
  word_pre_train_forward sentence position hidden self =
  (Ok (lm_score self (forw_char_lstm self) (forw2word self) sentence position t0 t1,
       lm_hidden self (forw_char_lstm self) sentence),
   self,
   lm_calls self "forw_char_lstm" (forw_char_lstm self) "forw2word" (forw2word self)
     sentence position t0 t1).
Proof.
  intros Hsize Hfit. unfold word_pre_train_forward. scorer_fit_run Hsize Hfit.
Qed.

Lemma word_pre_train_backward_fit_run sentence position hidden self t0 t1 rest :
  size position = t0 :: t1 :: rest ->
  lm_passes self (back_char_lstm self) (back2word self) sentence position t0 t1 = true ->
  word_pre_train_backward sentence position hidden self =
  (Ok (lm_score self (back_char_lstm self) (back2word self) sentence position t0 t1,
       lm_hidden self (back_char_lstm self) sentence),
   self,
   lm_calls self "back_char_lstm" (back_char_lstm self) "back2word" (back2word self)
     sentence position t0 t1).
Proof.
  intros Hsize Hfit. unfold word_pre_train_backward. scorer_fit_run Hsize Hfit.
Qed.

End ScorerRuns.


Section ScorerReturns.

Context {absent : Absent}.



End ScorerReturns.

(** ** The CRF heads, the result and the word level of [forward] *)

Section ForwardClaims.

Context {absent : Absent}.

Lemma encoder_calls_no_crf self fs fp bs bp ws wp dict :
  called "crflist" (encoder_calls self fs fp bs bp ws wp dict) = false.
Proof.
  unfold encoder_calls, char_level_calls, highway_calls, word_level_calls.
  destruct (if_highway self), (fb2char self), (word_level_attention self);
    rewrite !called_app, ?called_layer_calls; destruct (layer_stack self); reflexivity.
Qed.

(** C1.  The constructor makes one CRF head per corpus: [crflist] has
    [file_num] entries (none when [file_num] is negative), the [i]-th being
    a fresh [CRF_L] or [CRF_S] of its own.  A call of [forward] with
    [file_no] in range makes the calls of the encoders, which are those of
    the dataflow of [self] and of the inputs and name no CRF head, and then
    calls [crflist[file_no]], and no other head, on the encoder output;
    when it returns, the result is built from the output of that head.
    Whenever the tests of the encoders pass, all these calls are made and
    [crflist[file_no]] is applied to the encoder output: the call returns
    what is built from its output when the tests on that output pass too,
    and raises otherwise. *)
Theorem crf_head_per_corpus :
  (forall tagset_size char_size char_dim char_hidden_dim char_rnn_layers embedding_dim
          word_hidden_dim word_rnn_layers vocab_size dropout_ratio file_num len_max_seq
          n_layers n_head d_k d_v large_CRF if_highway in_doc_words highway_layers
          word_level_attention,
     let self :=
       __init__ tagset_size char_size char_dim char_hidden_dim char_rnn_layers
         embedding_dim word_hidden_dim word_rnn_layers vocab_size dropout_ratio
         file_num len_max_seq n_layers n_head d_k d_v large_CRF if_highway
         in_doc_words highway_layers word_level_attention in
     length (crflist self) = Z.to_nat file_num /\
     forall i, (i < Z.to_nat file_num)%nat ->
       nth_error (crflist self) i =
       Some (if large_CRF
             then CRF_L word_hidden_dim tagset_size (Fresh (Item "crflist" i))
             else CRF_S word_hidden_dim tagset_size (Fresh (Item "crflist" i)))) /\
  (forall forw_sentence forw_position back_sentence back_position word_seq word_pos
          word_dict hidden self file_no,
     0 <= file_no < Z.of_nat (length (crflist self)) ->
     let r :=
       forward forw_sentence forw_position back_sentence back_position word_seq
         word_pos word_dict file_no hidden self in
     let s := self_after (set_batch_seq_size forw_position self) in
     let encoders :=
       encoder_calls s forw_sentence forw_position back_sentence back_position
         word_seq word_pos word_dict in
     let encoded :=
       word_level_of s forw_sentence forw_position back_sentence back_position
         word_seq word_pos word_dict in
     let applied := made (Item "crflist" (Z.to_nat file_no)) [encoded] in
     called "crflist" encoders = false /\
     exists head,
       nth_error (crflist self) (Z.to_nat file_no) = Some head /\
       (exists rest, calls_of r ++ rest = encoders ++ [applied]) /\
       (forall out, result_of r = Ok out ->
          calls_of r = encoders ++ [applied] /\
          out = crf_scores_of s forw_sentence forw_position back_sentence
                  back_position word_seq word_pos word_dict head)) /\
  (forall forw_sentence forw_position back_sentence back_position word_seq word_pos
          word_dict hidden self file_no d0 d1 rest,
     size forw_position = d0 :: d1 :: rest ->
     0 <= file_no < Z.of_nat (length (crflist self)) ->
     let r :=
       forward forw_sentence forw_position back_sentence back_position word_seq
         word_pos word_dict file_no hidden self in
     let s := with_batch_size d1 (with_word_seq_length d0 self) in
     encoders_pass s forw_sentence forw_position back_sentence back_position word_seq
       word_pos word_dict = true ->
     exists head,
       nth_error (crflist self) (Z.to_nat file_no) = Some head /\
       calls_of r =
         encoder_calls s forw_sentence forw_position back_sentence back_position
           word_seq word_pos word_dict ++
         [made (Item "crflist" (Z.to_nat file_no))
            [word_level_of s forw_sentence forw_position back_sentence back_position
               word_seq word_pos word_dict]] /\
       result_of r =
         if head_passes s forw_sentence forw_position back_sentence back_position
              word_seq word_pos word_dict head
         then Ok (crf_scores_of s forw_sentence forw_position back_sentence
                    back_position word_seq word_pos word_dict head)
         else Raise TorchError).
Proof.
  split; [|split].
  - intros. subst self. rewrite init_crflist. unfold range.
    rewrite length_map, length_seq. split; [reflexivity|].
    intros i Hi. rewrite nth_error_map, nth_error_seq.
    destruct (Nat.ltb_spec i (Z.to_nat file_num)); [reflexivity | lia].
  - intros fs fp bs bp ws wp dict hid self file_no Hrange r s encoders encoded applied.
    subst encoders encoded applied. split; [apply encoder_calls_no_crf|].
    assert (self_after r = s) as Hs by apply forward_self_after.
    assert (crflist s = crflist self) as Hcrf.
    { unfold s. apply (set_batch_seq_size_keeps crflist); reflexivity. }
    destruct (@getitem_in_range _ (crflist self) file_no Hrange) as (Hidx & head & Hnth & Hget).
    exists head. split; [exact Hnth|]. split.
    + destruct (forward_calls_prefix fs fp bs bp ws wp dict file_no hid self) as [rest Hrest].
      fold r in Hrest. rewrite Hs, Hcrf, Hidx in Hrest. exists rest. exact Hrest.
    + intros out Hout.
      destruct (@forward_returns _ fs fp bs bp ws wp dict file_no hid self out Hout)
        as (head' & Hget' & Hres & Hcalls & _).
      fold r in Hget', Hres, Hcalls. rewrite Hs, Hcrf in *. rewrite Hidx in *.
      rewrite Hget in Hget'. injection Hget' as <-.
      split; assumption.
  - intros fs fp bs bp ws wp dict hid self file_no d0 d1 rest Hsize Hrange r s Hpass.
    destruct (@getitem_in_range _ (crflist self) file_no Hrange) as (_ & head & Hnth & Hget).
    exists head. split; [exact Hnth|]. unfold r.
    rewrite (@forward_fit_run _ _ _ _ _ _ _ _ file_no hid self _ _ _ Hsize Hpass).
    rewrite Hget. fold s. split; reflexivity.
Qed.

(** What [forward] returns, element by element: the tensor of shape
    [(word_seq_length, batch_size, tagset_size, tagset_size)] whose element
    at [(s, b, i, j)] is the element of the output of the head at offset
    [((b * word_seq_length + s) * tagset_size + i) * tagset_size + j]. *)
Lemma forward_output_element
  (forw_sentence forw_position back_sentence back_position word_seq word_pos : Tensor)
  (word_dict : Dict) (file_no : Z) (hidden : option (Tensor * Tensor))
  (self : LM_LSTM_CRF) (out : Tensor) :
  Forall (fun d => 0 <= d) (size forw_position) ->
  let r :=
    forward forw_sentence forw_position back_sentence back_position word_seq
      word_pos word_dict file_no hidden self in
  result_of r = Ok out ->
  exists (word_seq_len batch : Z) (rest : list Z) (i : nat) (head : CRF) (feats : Tensor),
    size forw_position = word_seq_len :: batch :: rest /\
    getitem (crflist self) file_no = Ok (i, head) /\
    last (calls_of r) (made (Attr "none") []) = made (Item "crflist" i) [feats] /\
    out =
      T_permute
        (T_view (CRF_output head feats)
           [batch; word_seq_len; tagset_size self; tagset_size self])
        [1; 0; 2; 3] /\
    size out = [word_seq_len; batch; tagset_size self; tagset_size self] /\
    forall s b i j,
      element_of out [s; b; i; j] =
      (CRF_output head feats,
       ((b * word_seq_len + s) * tagset_size self + i) * tagset_size self + j).
Proof.
  intros Hpos r Hout. subst r.
  destruct (@forward_returns _ _ _ _ _ _ _ _ _ _ _ _ Hout)
    as (head & Hget & Hres & Hcalls & [rest Hsize] & Hview & _).
  set (s := self_after _) in *.
  assert (crflist s = crflist self) as Hcrf
    by (apply (forward_keeps crflist); reflexivity).
  assert (tagset_size s = tagset_size self) as Htag
    by (apply (forward_keeps tagset_size); reflexivity).
  rewrite Hcrf, Htag in *. rewrite Hsize in Hpos.
  apply Forall_cons_iff in Hpos. destruct Hpos as [Hlen Hpos].
  apply Forall_cons_iff in Hpos. destruct Hpos as [Hb _].
  destruct (@view_four _ _ _ _ Hview Hb Hlen) as [Ht Hshape].
  exists (word_seq_length s), (batch_size s), rest, (index_of (crflist self) file_no), head.
  exists (word_level_of s forw_sentence forw_position back_sentence back_position
            word_seq word_pos word_dict).
  split; [exact Hsize|]. split; [exact Hget|].
  split; [rewrite Hcalls; unfold forward_calls_of; apply last_last|].
  assert (forall x l, size (T_view x l) = or_scalar (view_shape (size x) l)) as Hv
    by reflexivity.
  assert (forall x l, size (T_permute x l) = or_scalar (permute_shape (size x) l)) as Hp
    by reflexivity.
  split; [|split].
  - rewrite Hres. unfold crf_scores_of. rewrite Htag. reflexivity.
  - rewrite Hres. unfold crf_scores_of. rewrite Hp, Hv, Htag, Hshape. reflexivity.
  - intros s0 b i j. rewrite Hres. unfold crf_scores_of. rewrite Htag.
    cbn [element_of]. rewrite Hv, Hshape.
    change (unpermute [1; 0; 2; 3] [s0; b; i; j]) with [b; s0; i; j].
    cbn [or_scalar ravel numel fold_right]. f_equal. ring.
Qed.

(** [forward] leaves every attribute but the two bookkeeping ones as it
    found it. *)
Lemma forward_frame fs fp bs bp ws wp dict file_no hid self :
  same_but_sizes (self_after (forward fs fp bs bp ws wp dict file_no hid self)) self.
Proof.
  unfold same_but_sizes.
  repeat split;
    match goal with
    | |- ?f (self_after _) = _ => apply (forward_keeps f); reflexivity
    end.
Qed.

Ltac reframe s Hframe :=
  unfold same_but_sizes in Hframe;
  repeat match type of Hframe with
         | _ /\ _ => let H := fresh "Hf" in destruct Hframe as [H Hframe]
         end.

Lemma calls_without_attention s fs fp bs bp ws wp dict i :
  word_level_attention s = false ->
  let calls := forward_calls_of s fs fp bs bp ws wp dict i in
  called "position_enc" calls = false /\ called "layer_stack" calls = false /\
  called "fc" calls = false /\ called "word_lstm" calls = true.
Proof.
  intros Hflag. unfold forward_calls_of, encoder_calls, char_level_calls, highway_calls,
    word_level_calls. rewrite Hflag.
  destruct (if_highway s), (fb2char s); repeat split; reflexivity.
Qed.

Lemma calls_with_attention s fs fp bs bp ws wp dict i :
  word_level_attention s = true ->
  let calls := forward_calls_of s fs fp bs bp ws wp dict i in
  called "word_lstm" calls = false /\ called "position_enc" calls = true /\
  called "fc" calls = true.
Proof.
  intros Hflag. unfold forward_calls_of, encoder_calls, char_level_calls, highway_calls,
    word_level_calls. rewrite Hflag. cbv zeta.
  rewrite !called_app, !called_layer_calls.
  destruct (if_highway s), (fb2char s), (layer_stack s); repeat split; reflexivity.
Qed.

(** C3.  With [word_level_attention] set, what [forward] hands to the CRF
    head is [fc] applied to the output of the encoder layers of
    [layer_stack], run in order on the concatenation of the word
    embeddings, the character features and the position encodings, and the
    word LSTM is not called.  Without it, the CRF head receives the
    (dropped-out) output of the word LSTM on the concatenation of the word
    embeddings and the character features, and neither [position_enc] nor
    any layer of [layer_stack] nor [fc] is called, whether [forward]
    returns or raises.  [forward] does return, with the scores of the head
    on this representation and having made the calls of the branch,
    whenever the tests of the encoders and on the output of the head pass
    and [file_no] indexes a head.  The constructor makes the word LSTM
    bidirectional, [n_layers] encoder layers, and [position_enc] a frozen
    embedding of the sinusoid table. *)
Theorem word_level_branches :
  (forall forw_sentence forw_position back_sentence back_position word_seq word_pos
          word_dict file_no hidden self,
     let r :=
       forward forw_sentence forw_position back_sentence back_position word_seq
         word_pos word_dict file_no hidden self in
     let s := self_after r in
     let d_word_emb :=
       F_dropout (p (dropout self))
         (F_embedding word_seq (data (weight (word_embeds self)))) in
     let d_char_out :=
       d_char_out_of s forw_sentence forw_position back_sentence back_position in
     let word_pos_enc := F_embedding word_pos (data (weight (position_enc self))) in
     let attended :=
       F_linear (fc self)
         (attention_stack (layer_stack self)
            (T_permute (T_cat [d_word_emb; d_char_out; word_pos_enc] 2) [1; 0; 2])
            (non_pad_mask_of word_seq word_dict) (slf_attn_mask_of word_seq word_dict)) in
     let recurrent :=
       F_dropout (p (dropout self))
         (LSTM_output (word_lstm self) (T_cat [d_word_emb; d_char_out] 2)) in
     let scored (head : CRF) (feats : Tensor) :=
       T_permute
         (T_view (CRF_output head feats)
            [batch_size s; word_seq_length s; tagset_size self; tagset_size self])
         [1; 0; 2; 3] in
     (word_level_attention self = true ->
      called "word_lstm" (calls_of r) = false /\
      forall out, result_of r = Ok out ->
        (exists head, out = scored head attended) /\
        called "position_enc" (calls_of r) = true /\
        called "fc" (calls_of r) = true /\
        exists before i, calls_of r = before ++ [made (Item "crflist" i) [attended]]) /\
     (word_level_attention self = false ->
      called "position_enc" (calls_of r) = false /\
      called "layer_stack" (calls_of r) = false /\
      called "fc" (calls_of r) = false /\
      forall out, result_of r = Ok out ->
        (exists head, out = scored head recurrent) /\
        called "word_lstm" (calls_of r) = true /\
        exists before i, calls_of r = before ++ [made (Item "crflist" i) [recurrent]]) /\
     (forall d0 d1 rest i head,
        size forw_position = d0 :: d1 :: rest ->
        encoders_pass s forw_sentence forw_position back_sentence back_position word_seq
          word_pos word_dict = true ->
        getitem (crflist self) file_no = Ok (i, head) ->
        head_passes s forw_sentence forw_position back_sentence back_position word_seq
          word_pos word_dict head = true ->
        let word_level := if word_level_attention self then attended else recurrent in
        result_of r = Ok (scored head word_level) /\
        calls_of r =
          encoder_calls s forw_sentence forw_position back_sentence back_position
            word_seq word_pos word_dict ++ [made (Item "crflist" i) [word_level]] /\
        called "word_lstm" (calls_of r) = negb (word_level_attention self) /\
        called "position_enc" (calls_of r) = word_level_attention self /\
        called "fc" (calls_of r) = word_level_attention self)) /\
  (forall tagset_size char_size char_dim char_hidden_dim char_rnn_layers embedding_dim
          word_hidden_dim word_rnn_layers vocab_size dropout_ratio file_num len_max_seq
          n_layers n_head d_k d_v large_CRF if_highway in_doc_words highway_layers
          word_level_attention,
     let self :=
       __init__ tagset_size char_size char_dim char_hidden_dim char_rnn_layers
         embedding_dim word_hidden_dim word_rnn_layers vocab_size dropout_ratio
         file_num len_max_seq n_layers n_head d_k d_v large_CRF if_highway
         in_doc_words highway_layers word_level_attention in
     bidirectional (word_lstm self) = true /\
     length (layer_stack self) = Z.to_nat n_layers /\
     weight (position_enc self) =
       {| data := sinusoid_encoding_table (len_max_seq + 1) embedding_dim 0;
          requires_grad := false |}).
Proof.
  split.
  - intros fs fp bs bp ws wp dict file_no hid self r s.
    pose proof (forward_frame fs fp bs bp ws wp dict file_no hid self) as Hframe.
    fold r in Hframe. fold s in Hframe. reframe s Hframe.
    destruct (forward_calls_prefix fs fp bs bp ws wp dict file_no hid self) as [rest Hrest].
    fold r in Hrest. fold s in Hrest. cbv zeta.
    split; [|split]; [intros Hflag|intros Hflag|].
    + assert (word_level_attention s = true) as Hflag' by congruence.
      destruct (calls_with_attention s fs fp bs bp ws wp dict
                  (index_of (crflist s) file_no) Hflag') as (Hn & Hp & Hfc).
      split; [exact (@called_prefix _ _ _ _ Hrest Hn)|].
      intros out Hout.
      destruct (@forward_returns _ fs fp bs bp ws wp dict file_no hid self out Hout)
        as (head & _ & Hres & Hcalls & _).
      fold r in Hres, Hcalls. fold s in Hres, Hcalls.
      assert (word_level_of s fs fp bs bp ws wp dict =
              F_linear (fc self)
                (attention_stack (layer_stack self)
                   (T_permute
                      (T_cat [F_dropout (p (dropout self))
                                (F_embedding ws (data (weight (word_embeds self))));
                              d_char_out_of s fs fp bs bp;
                              F_embedding wp (data (weight (position_enc self)))] 2)
                      [1; 0; 2])
                   (non_pad_mask_of ws dict) (slf_attn_mask_of ws dict))) as Hword.
      { unfold word_level_of, attention_output, attention_input, position_encoded,
          word_embedded, dropped. rewrite Hflag'. congruence. }
      split; [|split; [|split]].
      * exists head. rewrite Hres. unfold crf_scores_of. rewrite Hword. congruence.
      * rewrite Hcalls. exact Hp.
      * rewrite Hcalls. exact Hfc.
      * exists (encoder_calls s fs fp bs bp ws wp dict), (index_of (crflist s) file_no).
        rewrite Hcalls. unfold forward_calls_of. rewrite Hword. reflexivity.
    + assert (word_level_attention s = false) as Hflag' by congruence.
      destruct (calls_without_attention s fs fp bs bp ws wp dict
                  (index_of (crflist s) file_no) Hflag') as (Hp & Hl & Hfc & Hw).
      split; [exact (@called_prefix _ _ _ _ Hrest Hp)|].
      split; [exact (@called_prefix _ _ _ _ Hrest Hl)|].
      split; [exact (@called_prefix _ _ _ _ Hrest Hfc)|].
      intros out Hout.
      destruct (@forward_returns _ fs fp bs bp ws wp dict file_no hid self out Hout)
        as (head & _ & Hres & Hcalls & _).
      fold r in Hres, Hcalls. fold s in Hres, Hcalls.
      assert (word_level_of s fs fp bs bp ws wp dict =
              F_dropout (p (dropout self))
                (LSTM_output (word_lstm self)
                   (T_cat [F_dropout (p (dropout self))
                             (F_embedding ws (data (weight (word_embeds self))));
                           d_char_out_of s fs fp bs bp] 2))) as Hword.
      { unfold word_level_of, word_lstm_input, word_embedded, dropped.
        rewrite Hflag'. congruence. }
      split; [|split].
      * exists head. rewrite Hres. unfold crf_scores_of. rewrite Hword. congruence.
      * rewrite Hcalls. exact Hw.
      * exists (encoder_calls s fs fp bs bp ws wp dict), (index_of (crflist s) file_no).
        rewrite Hcalls. unfold forward_calls_of. rewrite Hword. reflexivity.
    + intros d0 d1 rest' i head Hsize Hpass Hget Hhead.
      assert (s = with_batch_size d1 (with_word_seq_length d0 self)) as Hs.
      { unfold s, r.
        rewrite forward_self_after, set_batch_seq_size_run, Hsize, item_0, item_1.
        reflexivity. }
      pose proof Hpass as Hpass'. pose proof Hhead as Hhead'.
      rewrite Hs in Hpass', Hhead'.
      pose proof (@forward_passes_run _ fs fp bs bp ws wp dict file_no hid self
                    d0 d1 rest' i head Hsize Hpass' Hget Hhead') as Hrun.
      fold r in Hrun. rewrite <- Hs in Hrun.
      assert (word_level_of s fs fp bs bp ws wp dict =
              if word_level_attention self
              then F_linear (fc self)
                     (attention_stack (layer_stack self)
                        (T_permute
                           (T_cat [F_dropout (p (dropout self))
                                     (F_embedding ws (data (weight (word_embeds self))));
                                   d_char_out_of s fs fp bs bp;
                                   F_embedding wp (data (weight (position_enc self)))] 2)
                           [1; 0; 2])
                        (non_pad_mask_of ws dict) (slf_attn_mask_of ws dict))
              else F_dropout (p (dropout self))
                     (LSTM_output (word_lstm self)
                        (T_cat [F_dropout (p (dropout self))
                                  (F_embedding ws (data (weight (word_embeds self))));
                                d_char_out_of s fs fp bs bp] 2))) as Hword.
      { unfold word_level_of, attention_output, attention_input, position_encoded,
          word_lstm_input, word_embedded, dropped.
        destruct (word_level_attention self) eqn:Hflag;
          [assert (word_level_attention s = true) as -> by congruence
          |assert (word_level_attention s = false) as -> by congruence];
          congruence. }
      rewrite Hrun, result_of_triple, calls_of_triple.
      unfold crf_scores_of, forward_calls_of. rewrite Hword.
      split; [congruence|]. split; [reflexivity|].
      rewrite !called_app.
      destruct (word_level_attention self) eqn:Hflag.
      * assert (word_level_attention s = true) as Hflag' by congruence.
        destruct (calls_with_attention s fs fp bs bp ws wp dict i Hflag') as (Hn & Hp & Hfc).
        unfold forward_calls_of in Hn, Hp, Hfc. cbv zeta in Hn, Hp, Hfc.
        rewrite called_app in Hn, Hp, Hfc.
        apply orb_false_iff in Hn. destruct Hn as [Hn _]. rewrite Hn.
        replace (called "position_enc" (encoder_calls s fs fp bs bp ws wp dict)) with true.
        2:{ symmetry. destruct (called "position_enc" (encoder_calls s fs fp bs bp ws wp dict));
              [reflexivity | exact Hp]. }
        replace (called "fc" (encoder_calls s fs fp bs bp ws wp dict)) with true.
        2:{ symmetry. destruct (called "fc" (encoder_calls s fs fp bs bp ws wp dict));
              [reflexivity | exact Hfc]. }
        repeat split; reflexivity.
      * assert (word_level_attention s = false) as Hflag' by congruence.
        destruct (calls_without_attention s fs fp bs bp ws wp dict i Hflag')
          as (Hp & Hl & Hfc & Hw).
        unfold forward_calls_of in Hp, Hfc, Hw. cbv zeta in Hp, Hfc, Hw.
        rewrite called_app in Hp, Hfc, Hw.
        apply orb_false_iff in Hp. destruct Hp as [Hp _]. rewrite Hp.
        apply orb_false_iff in Hfc. destruct Hfc as [Hfc _]. rewrite Hfc.
        replace (called "word_lstm" (encoder_calls s fs fp bs bp ws wp dict)) with true.
        2:{ symmetry. destruct (called "word_lstm" (encoder_calls s fs fp bs bp ws wp dict));
              [reflexivity | exact Hw]. }
        repeat split; reflexivity.
  - intros. subst self. unfold __init__. cbn [word_lstm layer_stack position_enc].
    split; [reflexivity|]. split; [|reflexivity].
    unfold range. rewrite length_map, length_seq. reflexivity.
Qed.

(** C5.  With [word_level_attention] set, every call [forward] makes to a
    layer of [layer_stack] passes the same two masks, the non-pad mask and
    the key-padding mask computed from [word_seq] (transposed) and
    [word_dict]; this holds of the calls made before an exception too.
    When [forward] returns, the layers have been called once each, in
    order, each on the output of the one before.  Whenever the tests of the
    encoders pass, the two masks have been computed and every layer has
    been called so, whatever the corpus index and the CRF head do
    afterwards. *)
Theorem masks_shared_by_layers
  (forw_sentence forw_position back_sentence back_position word_seq word_pos : Tensor)
  (word_dict : Dict) (file_no : Z) (hidden : option (Tensor * Tensor))
  (self : LM_LSTM_CRF) :
  word_level_attention self = true ->
  let r :=
    forward forw_sentence forw_position back_sentence back_position word_seq
      word_pos word_dict file_no hidden self in
  let non_pad := non_pad_mask (T_permute word_seq [1; 0]) word_dict in
  let slf_attn :=
    attn_key_pad_mask (T_permute word_seq [1; 0]) (T_permute word_seq [1; 0]) word_dict in
  Forall (fun c =>
            is_item "layer_stack" (callee c) = true ->
            exists enc_input, args c = [enc_input; non_pad; slf_attn])
    (calls_of r) /\
  (forall out, result_of r = Ok out ->
     exists enc_input,
       filter (fun c => is_item "layer_stack" (callee c)) (calls_of r) =
       layer_calls 0 (layer_stack self) enc_input non_pad slf_attn) /\
  (forall d0 d1 rest,
     size forw_position = d0 :: d1 :: rest ->
     encoders_pass (with_batch_size d1 (with_word_seq_length d0 self)) forw_sentence
       forw_position back_sentence back_position word_seq word_pos word_dict = true ->
     accepts non_pad = true /\ accepts slf_attn = true /\
     exists enc_input,
       filter (fun c => is_item "layer_stack" (callee c)) (calls_of r) =
       layer_calls 0 (layer_stack self) enc_input non_pad slf_attn).
Proof.
  intros Hflag r non_pad slf_attn.
  pose proof (forward_frame forw_sentence forw_position back_sentence back_position
                word_seq word_pos word_dict file_no hidden self) as Hframe.
  fold r in Hframe. set (s := self_after r) in *. reframe s Hframe.
  assert (word_level_attention s = true) as Hflag' by congruence.
  split; [|split].
  - destruct (forward_calls_prefix forw_sentence forw_position back_sentence
                back_position word_seq word_pos word_dict file_no hidden self)
      as [rest Hrest].
    fold r in Hrest. fold s in Hrest.
    apply (@Forall_prefix _ _ _ _ _ Hrest).
    unfold forward_calls_of, encoder_calls, char_level_calls, highway_calls,
      word_level_calls. rewrite Hflag'.
    repeat (apply Forall_app; split);
      try (apply (Forall_impl _ (fun c H _ => H)); apply layer_calls_masks);
      destruct (if_highway s), (fb2char s);
      repeat (constructor; [intros [=]|]); constructor.
  - intros out Hout.
    destruct (@forward_returns _ forw_sentence forw_position back_sentence back_position
                word_seq word_pos word_dict file_no hidden self out Hout)
      as (head & _ & _ & Hcalls & _).
    fold r in Hcalls. fold s in Hcalls.
    exists (attention_input s forw_sentence forw_position back_sentence back_position
              word_seq word_pos).
    rewrite Hcalls.
    unfold forward_calls_of, encoder_calls, char_level_calls, highway_calls,
      word_level_calls. rewrite Hflag'.
    rewrite !filter_app, layer_calls_filter.
    replace (layer_stack self) with (layer_stack s) by assumption.
    destruct (if_highway s), (fb2char s); cbn; rewrite ?app_nil_r; reflexivity.
  - intros d0 d1 rest Hsize Hpass.
    pose proof (@forward_fit_run _ forw_sentence forw_position back_sentence back_position
                  word_seq word_pos word_dict file_no hidden self d0 d1 rest Hsize Hpass)
      as Hrun.
    fold r in Hrun. cbv zeta in Hrun.
    set (s' := with_batch_size d1 (with_word_seq_length d0 self)) in *.
    assert (word_level_attention s' = true) as Hflag'' by exact Hflag.
    apply encoders_pass_fit in Hpass. destruct Hpass as [_ Hacc].
    unfold encoder_terms, word_level_terms in Hacc. rewrite Hflag'' in Hacc.
    unfold non_pad_mask_of, slf_attn_mask_of in Hacc.
    split_accepted Hacc.
    split; [assumption|]. split; [assumption|].
    exists (attention_input s' forw_sentence forw_position back_sentence back_position
              word_seq word_pos).
    rewrite Hrun.
    assert (filter (fun c => is_item "layer_stack" (callee c))
              (encoder_calls s' forw_sentence forw_position back_sentence back_position
                 word_seq word_pos word_dict) =
            layer_calls 0 (layer_stack self)
              (attention_input s' forw_sentence forw_position back_sentence back_position
                 word_seq word_pos) non_pad slf_attn) as Henc.
    { unfold encoder_calls, char_level_calls, highway_calls, word_level_calls.
      rewrite Hflag''. rewrite !filter_app, layer_calls_filter.
      change (layer_stack s') with (layer_stack self).
      destruct (if_highway s'), (fb2char s'); cbn; rewrite ?app_nil_r; reflexivity. }
    destruct (getitem (crflist self) file_no) as [[i head]|e]; rewrite calls_of_triple.
    + unfold forward_calls_of. rewrite filter_app, Henc. cbn. apply app_nil_r.
    + exact Henc.
Qed.

End ForwardClaims.

Lemma unravel_rows (d0 d1 r c : Z) :
  0 <= c < d1 -> unravel [d0; d1] (r * d1 + c) = [r; c].
Proof.
  intros Hc. cbn [unravel numel fold_right]. rewrite !Z.mul_1_r, Z.div_1_r.
  assert ((r * d1 + c) / d1 = r) as ->
    by (rewrite Z.div_add_l, Z.div_small by lia; lia).
  assert ((r * d1 + c) mod d1 = c) as ->
    by (rewrite Z.add_comm, Z.mod_add, Z.mod_small by lia; reflexivity).
  reflexivity.
Qed.

(** C2.  When [forward] returns, the result is the output of the head
    [crflist[file_no]] viewed as
    [(batch_size, word_seq_length, tagset_size, tagset_size)] with its
    first two axes exchanged, of shape
    [(word_seq_length, batch_size, tagset_size, tagset_size)]: the matrix
    at position [s] and batch element [b] is the block number
    [b * word_seq_length + s] of the output of the head, whatever the
    branch.  That is the block of position [s] and batch element [b] when
    the head was given its features batch first, as in the attention
    branch.  In the word-LSTM branch the head is given them sequence
    first: on the example with four positions and two batch elements, the
    matrix returned at position 1, batch element 0 is block 1 of the
    output of the head, which for a head that scores the feature vectors
    in the order they are stored belongs to position 0, batch element 1. *)
Theorem forward_output_rows :
  (forall (absent : Absent)
          (forw_sentence forw_position back_sentence back_position word_seq word_pos
             : Tensor)
          (word_dict : Dict) (file_no : Z) (hidden : option (Tensor * Tensor))
          (self : LM_LSTM_CRF) (out : Tensor),
     Forall (fun d => 0 <= d) (size forw_position) ->
     let r :=
       forward forw_sentence forw_position back_sentence back_position word_seq
         word_pos word_dict file_no hidden self in
     result_of r = Ok out ->
     exists (word_seq_len batch : Z) (rest : list Z) (i : nat) (head : CRF)
            (feats : Tensor),
       size forw_position = word_seq_len :: batch :: rest /\
       getitem (crflist self) file_no = Ok (i, head) /\
       last (calls_of r) (made (Attr "none") []) = made (Item "crflist" i) [feats] /\
       out =
         T_permute
           (T_view (CRF_output head feats)
              [batch; word_seq_len; tagset_size self; tagset_size self])
           [1; 0; 2; 3] /\
       size out = [word_seq_len; batch; tagset_size self; tagset_size self] /\
       forall s b i j,
         element_of out [s; b; i; j] =
         (CRF_output head feats,
          ((b * word_seq_len + s) * tagset_size self + i) * tagset_size self + j)) /\
  (forall word_seq_len batch s b,
     0 <= s < word_seq_len ->
     unravel [batch; word_seq_len] (b * word_seq_len + s) = [b; s]) /\
  (let r := example_forward false true 1 in
   exists out head feats,
     result_of r = Ok out /\
     last (calls_of r) (made (Attr "none") []) = made (Item "crflist" 1%nat) [feats] /\
     size (absent := example_shapes) feats = [2; 4; 8] /\
     element_of (absent := example_shapes) out [1; 0; 0; 0] = (CRF_output head feats, 1 * (3 * 3)) /\
     unravel [2; 4] 1 = [0; 1]) /\
  (let r := example_forward false false 1 in
   exists out head feats,
     result_of r = Ok out /\
     last (calls_of r) (made (Attr "none") []) = made (Item "crflist" 1%nat) [feats] /\
     size (absent := example_shapes) feats = [4; 2; 8] /\
     element_of (absent := example_shapes) out [1; 0; 0; 0] = (CRF_output head feats, 1 * (3 * 3)) /\
     unravel [4; 2] 1 = [0; 1] /\
     unravel [4; 2] 1 <> [1; 0]).
Proof.
  split; [|split; [|split]].
  - intros absent fs fp bs bp ws wp dict file_no hid self out Hpos r Hout.
    exact (@forward_output_element absent fs fp bs bp ws wp dict file_no hid self out
             Hpos Hout).
  - intros S B s b Hs. apply unravel_rows. exact Hs.
  - cbv zeta. eexists _, _, _.
    split; [vm_compute; reflexivity|].
    split; [vm_compute; reflexivity|].
    split; [vm_compute; reflexivity|].
    split; [vm_compute; reflexivity|]. vm_compute; reflexivity.
  - cbv zeta. eexists _, _, _.
    split; [vm_compute; reflexivity|].
    split; [vm_compute; reflexivity|].
    split; [vm_compute; reflexivity|].
    split; [vm_compute; reflexivity|].
    split; [vm_compute; reflexivity | vm_compute; discriminate].
Qed.

(** ** The scorers and the highway blocks *)

Section ScorerClaims.

Context {absent : Absent}.

Lemma lm_calls_named self lname l hname h sentence position t0 t1 :
  let calls := lm_calls self lname l hname h sentence position t0 t1 in
  called "char_embeds" calls = true /\
  called "word_pre_train_out" calls = true /\
  called lname calls = true.
Proof.
  unfold lm_calls. cbv zeta. rewrite !called_app. split; [reflexivity|]. split.
  - replace (called "word_pre_train_out"
               [made (Attr "word_pre_train_out")
                  [lm_d_char_out self l h sentence position t0 t1]]) with true
      by reflexivity.
    rewrite !orb_true_r. reflexivity.
  - unfold called at 1, made. cbn [existsb callee is_attr is_item].
    rewrite String.eqb_refl. cbn [orb]. rewrite !orb_true_r. reflexivity.
Qed.

(** C7.  The two language-model scorers look the characters up in the same
    table [char_embeds] and score with the same projection
    [word_pre_train_out]; the forward one runs [forw_char_lstm] and not
    [back_char_lstm], the backward one the reverse.  Each gathers the
    states of its LSTM at the positions given and, when it returns, returns
    a score tensor whose last dimension is the width of
    [word_pre_train_out], which the constructor sets to [in_doc_words],
    together with the final state of its LSTM; [self] is left as it was.
    Each of them does return, with this score and state and after the calls
    of the dataflow, whenever [position] has two axes and the tests of its
    steps pass. *)
Theorem language_model_scorers :
  (forall sentence position hidden self score hid,
     let r := word_pre_train_forward sentence position hidden self in
     result_of r = Ok (score, hid) ->
     let emb :=
       F_dropout (p (dropout self))
         (F_embedding sentence (data (weight (char_embeds self)))) in
     exists t0 t1 rest feats,
       size position = t0 :: t1 :: rest /\
       let states :=
         T_gather (LSTM_output (forw_char_lstm self) emb) 0
           (T_expand (T_unsqueeze position 2) [t0; t1; char_hidden_dim self]) in
       let gathered :=
         T_view (F_dropout (p (dropout self)) states) [-1; char_hidden_dim self] in
       (feats = gathered \/
        exists h, feats = F_dropout (p (dropout self)) (hw_output h gathered)) /\
       score = F_linear (word_pre_train_out self) feats /\
       last (size score) 0 = out_features (word_pre_train_out self) /\
       hid = (LSTM_h_n (forw_char_lstm self) emb, LSTM_c_n (forw_char_lstm self) emb) /\
       called "char_embeds" (calls_of r) = true /\
       called "word_pre_train_out" (calls_of r) = true /\
       called "forw_char_lstm" (calls_of r) = true /\
       called "back_char_lstm" (calls_of r) = false /\
       self_after r = self) /\
  (forall sentence position hidden self score hid,
     let r := word_pre_train_backward sentence position hidden self in
     result_of r = Ok (score, hid) ->
     let emb :=
       F_dropout (p (dropout self))
         (F_embedding sentence (data (weight (char_embeds self)))) in
     exists t0 t1 rest feats,
       size position = t0 :: t1 :: rest /\
       let states :=
         T_gather (LSTM_output (back_char_lstm self) emb) 0
           (T_expand (T_unsqueeze position 2) [t0; t1; char_hidden_dim self]) in
       let gathered :=
         T_view (F_dropout (p (dropout self)) states) [-1; char_hidden_dim self] in
       (feats = gathered \/
        exists h, feats = F_dropout (p (dropout self)) (hw_output h gathered)) /\
       score = F_linear (word_pre_train_out self) feats /\
       last (size score) 0 = out_features (word_pre_train_out self) /\
       hid = (LSTM_h_n (back_char_lstm self) emb, LSTM_c_n (back_char_lstm self) emb) /\
       called "char_embeds" (calls_of r) = true /\
       called "word_pre_train_out" (calls_of r) = true /\
       called "back_char_lstm" (calls_of r) = true /\
       called "forw_char_lstm" (calls_of r) = false /\
       self_after r = self) /\
  (forall tagset_size char_size char_dim char_hidden_dim char_rnn_layers embedding_dim
          word_hidden_dim word_rnn_layers vocab_size dropout_ratio file_num len_max_seq
          n_layers n_head d_k d_v large_CRF if_highway in_doc_words highway_layers
          word_level_attention,
     let self :=
       __init__ tagset_size char_size char_dim char_hidden_dim char_rnn_layers
         embedding_dim word_hidden_dim word_rnn_layers vocab_size dropout_ratio
         file_num len_max_seq n_layers n_head d_k d_v large_CRF if_highway
         in_doc_words highway_layers word_level_attention in
     out_features (word_pre_train_out self) = in_doc_words /\
     in_features (word_pre_train_out self) = char_hidden_dim) /\
  (forall sentence position hidden self t0 t1 rest,
     size position = t0 :: t1 :: rest ->
     lm_passes self (forw_char_lstm self) (forw2word self) sentence position t0 t1 = true ->
     let r := word_pre_train_forward sentence position hidden self in
     let score :=
       lm_score self (forw_char_lstm self) (forw2word self) sentence position t0 t1 in
     result_of r = Ok (score, lm_hidden self (forw_char_lstm self) sentence) /\
     last (size score) 0 = out_features (word_pre_train_out self) /\
     calls_of r =
       lm_calls self "forw_char_lstm" (forw_char_lstm self) "forw2word" (forw2word self)
         sentence position t0 t1 /\
     called "char_embeds" (calls_of r) = true /\
     called "forw_char_lstm" (calls_of r) = true /\
     called "back_char_lstm" (calls_of r) = false /\
     called "word_pre_train_out" (calls_of r) = true /\
     self_after r = self) /\
  (forall sentence position hidden self t0 t1 rest,
     size position = t0 :: t1 :: rest ->
     lm_passes self (back_char_lstm self) (back2word self) sentence position t0 t1 = true ->
     let r := word_pre_train_backward sentence position hidden self in
     let score :=
       lm_score self (back_char_lstm self) (back2word self) sentence position t0 t1 in
     result_of r = Ok (score, lm_hidden self (back_char_lstm self) sentence) /\
     last (size score) 0 = out_features (word_pre_train_out self) /\
     calls_of r =
       lm_calls self "back_char_lstm" (back_char_lstm self) "back2word" (back2word self)
         sentence position t0 t1 /\
     called "char_embeds" (calls_of r) = true /\
     called "back_char_lstm" (calls_of r) = true /\
     called "forw_char_lstm" (calls_of r) = false /\
     called "word_pre_train_out" (calls_of r) = true /\
     self_after r = self).
Proof.
  split; [|split; [|split; [|split]]].
  - intros sentence position hidden self score hid r Hok emb.
    destruct (@word_pre_train_forward_returns _ sentence position hidden self score hid Hok)
      as (t0 & t1 & rest & Hsize & Hscore & Hhid & Hcalls & Hshape & Hhw).
    fold r in Hcalls.
    destruct (word_pre_train_forward_prefix sentence position hidden self) as [Hself _].
    fold r in Hself.
    destruct (lm_calls_named self "forw_char_lstm" (forw_char_lstm self) "forw2word"
                (forw2word self) sentence position t0 t1) as (Hc1 & Hc2 & Hc3).
    exists t0, t1, rest,
      (lm_d_char_out self (forw_char_lstm self) (forw2word self) sentence position t0 t1).
    split; [exact Hsize|]. cbv zeta.
    split; [|split; [|split; [|split; [|split; [|split; [|split; [|split]]]]]]].
    + unfold lm_d_char_out. destruct (if_highway self); [|left; reflexivity].
      destruct (forw2word self) as [h|]; [right; exists h|left]; reflexivity.
    + rewrite Hscore. reflexivity.
    + rewrite Hscore. unfold lm_score. cbn [size]. apply linear_last. exact Hshape.
    + rewrite Hhid. reflexivity.
    + rewrite Hcalls. exact Hc1.
    + rewrite Hcalls. exact Hc2.
    + rewrite Hcalls. exact Hc3.
    + rewrite Hcalls. unfold lm_calls, made.
      destruct (if_highway self); [destruct (forw2word self)|]; reflexivity.
    + exact Hself.
  - intros sentence position hidden self score hid r Hok emb.
    destruct (@word_pre_train_backward_returns _ sentence position hidden self score hid Hok)
      as (t0 & t1 & rest & Hsize & Hscore & Hhid & Hcalls & Hshape & Hhw).
    fold r in Hcalls.
    destruct (word_pre_train_backward_prefix sentence position hidden self) as [Hself _].
    fold r in Hself.
    destruct (lm_calls_named self "back_char_lstm" (back_char_lstm self) "back2word"
                (back2word self) sentence position t0 t1) as (Hc1 & Hc2 & Hc3).
    exists t0, t1, rest,
      (lm_d_char_out self (back_char_lstm self) (back2word self) sentence position t0 t1).
    split; [exact Hsize|]. cbv zeta.
    split; [|split; [|split; [|split; [|split; [|split; [|split; [|split]]]]]]].
    + unfold lm_d_char_out. destruct (if_highway self); [|left; reflexivity].
      destruct (back2word self) as [h|]; [right; exists h|left]; reflexivity.
    + rewrite Hscore. reflexivity.
    + rewrite Hscore. unfold lm_score. cbn [size]. apply linear_last. exact Hshape.
    + rewrite Hhid. reflexivity.
    + rewrite Hcalls. exact Hc1.
    + rewrite Hcalls. exact Hc2.
    + rewrite Hcalls. exact Hc3.
    + rewrite Hcalls. unfold lm_calls, made.
      destruct (if_highway self); [destruct (back2word self)|]; reflexivity.
    + exact Hself.
  - intros. subst self. split; reflexivity.
  - intros sentence position hidden self t0 t1 rest Hsize Hpass r score.
    pose proof (@word_pre_train_forward_fit_run _ sentence position hidden self t0 t1 rest
                  Hsize Hpass) as Hrun.
    fold r in Hrun.
    assert (result_of r = Ok (score, lm_hidden self (forw_char_lstm self) sentence)) as Hok
      by (rewrite Hrun; reflexivity).
    destruct (@word_pre_train_forward_returns _ sentence position hidden self _ _ Hok)
      as (u0 & u1 & rest' & Hsize' & _ & _ & _ & Hshape & _).
    assert (u0 = t0 /\ u1 = t1) as [-> ->] by (split; congruence).
    destruct (lm_calls_named self "forw_char_lstm" (forw_char_lstm self) "forw2word"
                (forw2word self) sentence position t0 t1) as (Hc1 & Hc2 & Hc3).
    split; [exact Hok|].
    split; [unfold score, lm_score; cbn [size]; apply linear_last; exact Hshape|].
    rewrite Hrun. cbn [calls_of self_after fst snd].
    split; [reflexivity|]. split; [exact Hc1|]. split; [exact Hc3|].
    split; [|split; [exact Hc2 | reflexivity]].
    unfold lm_calls, made.
    destruct (if_highway self); [destruct (forw2word self)|]; reflexivity.
  - intros sentence position hidden self t0 t1 rest Hsize Hpass r score.
    pose proof (@word_pre_train_backward_fit_run _ sentence position hidden self t0 t1 rest
                  Hsize Hpass) as Hrun.
    fold r in Hrun.
    assert (result_of r = Ok (score, lm_hidden self (back_char_lstm self) sentence)) as Hok
      by (rewrite Hrun; reflexivity).
    destruct (@word_pre_train_backward_returns _ sentence position hidden self _ _ Hok)
      as (u0 & u1 & rest' & Hsize' & _ & _ & _ & Hshape & _).
    assert (u0 = t0 /\ u1 = t1) as [-> ->] by (split; congruence).
    destruct (lm_calls_named self "back_char_lstm" (back_char_lstm self) "back2word"
                (back2word self) sentence position t0 t1) as (Hc1 & Hc2 & Hc3).
    split; [exact Hok|].
    split; [unfold score, lm_score; cbn [size]; apply linear_last; exact Hshape|].
    rewrite Hrun. cbn [calls_of self_after fst snd].
    split; [reflexivity|]. split; [exact Hc1|]. split; [exact Hc3|].
    split; [|split; [exact Hc2 | reflexivity]].
    unfold lm_calls, made.
    destruct (if_highway self); [destruct (back2word self)|]; reflexivity.
Qed.

Lemma forward_calls_highway s fs fp bs bp ws wp dict i :
  let calls := forward_calls_of s fs fp bs bp ws wp dict i in
  (if_highway s = false -> called "fb2char" calls = false) /\
  (forall h, if_highway s = true -> fb2char s = Some h ->
     called "fb2char" calls = true /\
     In (made (Attr "fb2char") [fb_lstm_out_of s fs fp bs bp]) calls).
Proof.
  unfold forward_calls_of, encoder_calls, char_level_calls, highway_calls,
    word_level_calls. cbv zeta. split.
  - intros ->. destruct (word_level_attention s);
      rewrite !called_app, ?called_layer_calls; destruct (layer_stack s); reflexivity.
  - intros h -> ->. split.
    + rewrite !called_app. reflexivity.
    + apply in_or_app. left. apply in_or_app. right. apply in_or_app. left.
      left. reflexivity.
Qed.

Lemma forward_calls_word_stage s fs fp bs bp ws wp dict i :
  let calls := forward_calls_of s fs fp bs bp ws wp dict i in
  (word_level_attention s = false ->
   In (made (Attr "word_lstm") [word_lstm_input s fs fp bs bp ws]) calls) /\
  (word_level_attention s = true ->
   In (made (Attr "fc") [attention_output s fs fp bs bp ws wp dict]) calls).
Proof.
  unfold forward_calls_of, encoder_calls, word_level_calls. cbv zeta.
  split; intros ->; apply in_or_app; left; apply in_or_app; right;
    apply in_or_app; right; apply in_or_app; right.
  - left. reflexivity.
  - apply in_or_app. right. apply in_or_app. right. left. reflexivity.
Qed.

Lemma lm_calls_highway self lname l hname h sentence position t0 t1 :
  hname <> "char_embeds" -> hname <> "dropout" -> hname <> lname ->
  hname <> "word_pre_train_out" ->
  let calls := lm_calls self lname l hname h sentence position t0 t1 in
  (if_highway self = false -> called hname calls = false) /\
  (if_highway self = true -> h <> None -> called hname calls = true).
Proof.
  intros H1 H2 H3 H4. unfold lm_calls. cbv zeta.
  apply String.eqb_neq in H1, H2, H3, H4.
  assert (forall a b, String.eqb a b = String.eqb b a) as Hsym by apply String.eqb_sym.
  split.
  - intros ->. rewrite !called_app. unfold called, made.
    cbn [existsb callee is_attr is_item orb].
    rewrite (Hsym _ hname), H1, (Hsym _ hname), H2, (Hsym _ hname), H3,
      (Hsym _ hname), H4. reflexivity.
  - intros -> Hh. destruct h as [block|]; [|congruence].
    rewrite !called_app. unfold called at 2, made.
    cbn [existsb callee is_attr is_item orb]. rewrite String.eqb_refl.
    cbn [orb]. rewrite orb_true_r. reflexivity.
Qed.

Lemma encoder_calls_stages s fs fp bs bp ws wp dict :
  let calls := encoder_calls s fs fp bs bp ws wp dict in
  (if_highway s = false -> called "fb2char" calls = false) /\
  (forall h, if_highway s = true -> fb2char s = Some h ->
     called "fb2char" calls = true /\
     In (made (Attr "fb2char") [fb_lstm_out_of s fs fp bs bp]) calls) /\
  (word_level_attention s = false ->
   In (made (Attr "word_lstm") [word_lstm_input s fs fp bs bp ws]) calls) /\
  (word_level_attention s = true ->
   In (made (Attr "fc") [attention_output s fs fp bs bp ws wp dict]) calls).
Proof.
  cbv zeta.
  destruct (forward_calls_highway s fs fp bs bp ws wp dict 0) as [Hoff Hon].
  destruct (forward_calls_word_stage s fs fp bs bp ws wp dict 0) as [Hlstm Hattn].
  unfold forward_calls_of in Hoff, Hon, Hlstm, Hattn.
  rewrite called_app in Hoff, Hon.
  assert (forall c, In c (encoder_calls s fs fp bs bp ws wp dict ++
                          [made (Item "crflist" 0)
                             [word_level_of s fs fp bs bp ws wp dict]]) ->
                    (exists name, callee c = Attr name) ->
                    In c (encoder_calls s fs fp bs bp ws wp dict)) as Hin.
  { intros c Hc [name Hname]. apply in_app_or in Hc. destruct Hc as [Hc|[<-|[]]];
      [exact Hc | discriminate Hname]. }
  split; [|split; [|split]].
  - intros Hflag. specialize (Hoff Hflag). apply orb_false_iff in Hoff. apply Hoff.
  - intros h Hflag Hh. destruct (Hon h Hflag Hh) as [Hcalled Hmade]. split.
    + apply orb_true_iff in Hcalled. destruct Hcalled as [Hcalled|Hcalled];
        [exact Hcalled | discriminate Hcalled].
    + apply Hin; [exact Hmade | eexists; reflexivity].
  - intros Hflag. apply Hin; [exact (Hlstm Hflag) | eexists; reflexivity].
  - intros Hflag. apply Hin; [exact (Hattn Hflag) | eexists; reflexivity].
Qed.

(** C6.  The constructor creates the five highway blocks exactly when
    [if_highway] is set.  In [forward], [fb2char] is called only when
    [self.if_highway] is set, and a call that returns has called it exactly
    then: with the flag set the dropped-out concatenation of the gathered
    character-LSTM states goes through [fb2char] and dropout before it
    enters the word level, without it the very same tensor enters the word
    level as it is.  Likewise a language-model scorer calls its block
    ([forw2word], [back2word]) only when the flag is set, and one that
    returns has called it exactly then.  All of this does happen: when
    [forw_position] has two axes and the tests of the encoders pass,
    [forward] has called [fb2char] exactly when the flag is set and fed the
    word level as said, whatever the CRF head does afterwards; and a scorer
    whose tests pass returns, having called its block exactly when the flag
    is set. *)
Theorem highway_iff_if_highway :
  (forall tagset_size char_size char_dim char_hidden_dim char_rnn_layers embedding_dim
          word_hidden_dim word_rnn_layers vocab_size dropout_ratio file_num len_max_seq
          n_layers n_head d_k d_v large_CRF if_highway_arg in_doc_words highway_layers
          word_level_attention,
     let self :=
       __init__ tagset_size char_size char_dim char_hidden_dim char_rnn_layers
         embedding_dim word_hidden_dim word_rnn_layers vocab_size dropout_ratio
         file_num len_max_seq n_layers n_head d_k d_v large_CRF if_highway_arg
         in_doc_words highway_layers word_level_attention in
     if_highway self = if_highway_arg /\
     (forw2char self <> None <-> if_highway_arg = true) /\
     (back2char self <> None <-> if_highway_arg = true) /\
     (forw2word self <> None <-> if_highway_arg = true) /\
     (back2word self <> None <-> if_highway_arg = true) /\
     (fb2char self <> None <-> if_highway_arg = true)) /\
  (forall forw_sentence forw_position back_sentence back_position word_seq word_pos
          word_dict file_no hidden self,
     let r :=
       forward forw_sentence forw_position back_sentence back_position word_seq
         word_pos word_dict file_no hidden self in
     let s := self_after r in
     let dropout_ (x : Tensor) := F_dropout (p (dropout self)) x in
     let fb_lstm_out :=
       dropout_
         (T_cat [selected s (forw_char_lstm self) forw_sentence forw_position;
                 selected s (back_char_lstm self) back_sentence back_position] 2) in
     let d_word_emb :=
       dropout_ (F_embedding word_seq (data (weight (word_embeds self)))) in
     let word_pos_enc := F_embedding word_pos (data (weight (position_enc self))) in
     (called "fb2char" (calls_of r) = true -> if_highway self = true) /\
     forall out, result_of r = Ok out ->
       called "fb2char" (calls_of r) = if_highway self /\
       exists d_char_out,
         (if_highway self = true ->
          exists h, fb2char self = Some h /\
                    In (made (Attr "fb2char") [fb_lstm_out]) (calls_of r) /\
                    d_char_out = dropout_ (hw_output h fb_lstm_out)) /\
         (if_highway self = false -> d_char_out = fb_lstm_out) /\
         (word_level_attention self = false ->
          In (made (Attr "word_lstm") [T_cat [d_word_emb; d_char_out] 2]) (calls_of r)) /\
         (word_level_attention self = true ->
          In (made (Attr "fc")
                [attention_stack (layer_stack self)
                   (T_permute (T_cat [d_word_emb; d_char_out; word_pos_enc] 2) [1; 0; 2])
                   (non_pad_mask_of word_seq word_dict)
                   (slf_attn_mask_of word_seq word_dict)])
             (calls_of r))) /\
  (forall sentence position hidden self,
     let r := word_pre_train_forward sentence position hidden self in
     let dropout_ (x : Tensor) := F_dropout (p (dropout self)) x in
     (called "forw2word" (calls_of r) = true -> if_highway self = true) /\
     forall score hid, result_of r = Ok (score, hid) ->
       called "forw2word" (calls_of r) = if_highway self /\
       called "back2word" (calls_of r) = false /\
       exists d_lstm_out,
         (if_highway self = true ->
          exists h, forw2word self = Some h /\
            score = F_linear (word_pre_train_out self) (dropout_ (hw_output h d_lstm_out))) /\
         (if_highway self = false ->
          score = F_linear (word_pre_train_out self) d_lstm_out)) /\
  (forall sentence position hidden self,
     let r := word_pre_train_backward sentence position hidden self in
     let dropout_ (x : Tensor) := F_dropout (p (dropout self)) x in
     (called "back2word" (calls_of r) = true -> if_highway self = true) /\
     forall score hid, result_of r = Ok (score, hid) ->
       called "back2word" (calls_of r) = if_highway self /\
       called "forw2word" (calls_of r) = false /\
       exists d_lstm_out,
         (if_highway self = true ->
          exists h, back2word self = Some h /\
            score = F_linear (word_pre_train_out self) (dropout_ (hw_output h d_lstm_out))) /\
         (if_highway self = false ->
          score = F_linear (word_pre_train_out self) d_lstm_out)) /\
  (forall forw_sentence forw_position back_sentence back_position word_seq word_pos
          word_dict file_no hidden self d0 d1 rest,
     size forw_position = d0 :: d1 :: rest ->
     let r :=
       forward forw_sentence forw_position back_sentence back_position word_seq
         word_pos word_dict file_no hidden self in
     let s := with_batch_size d1 (with_word_seq_length d0 self) in
     encoders_pass s forw_sentence forw_position back_sentence back_position word_seq
       word_pos word_dict = true ->
     let dropout_ (x : Tensor) := F_dropout (p (dropout self)) x in
     let fb_lstm_out :=
       dropout_
         (T_cat [selected s (forw_char_lstm self) forw_sentence forw_position;
                 selected s (back_char_lstm self) back_sentence back_position] 2) in
     let d_word_emb :=
       dropout_ (F_embedding word_seq (data (weight (word_embeds self)))) in
     let word_pos_enc := F_embedding word_pos (data (weight (position_enc self))) in
     called "fb2char" (calls_of r) = if_highway self /\
     exists d_char_out,
       (if_highway self = true ->
        exists h, fb2char self = Some h /\
                  In (made (Attr "fb2char") [fb_lstm_out]) (calls_of r) /\
                  d_char_out = dropout_ (hw_output h fb_lstm_out)) /\
       (if_highway self = false -> d_char_out = fb_lstm_out) /\
       (word_level_attention self = false ->
        In (made (Attr "word_lstm") [T_cat [d_word_emb; d_char_out] 2]) (calls_of r)) /\
       (word_level_attention self = true ->
        In (made (Attr "fc")
              [attention_stack (layer_stack self)
                 (T_permute (T_cat [d_word_emb; d_char_out; word_pos_enc] 2) [1; 0; 2])
                 (non_pad_mask_of word_seq word_dict)
                 (slf_attn_mask_of word_seq word_dict)])
           (calls_of r))) /\
  (forall sentence position hidden self t0 t1 rest,
     size position = t0 :: t1 :: rest ->
     lm_passes self (forw_char_lstm self) (forw2word self) sentence position t0 t1 = true ->
     let r := word_pre_train_forward sentence position hidden self in
     let dropout_ (x : Tensor) := F_dropout (p (dropout self)) x in
     called "forw2word" (calls_of r) = if_highway self /\
     called "back2word" (calls_of r) = false /\
     exists score hid d_lstm_out,
       result_of r = Ok (score, hid) /\
       (if_highway self = true ->
        exists h, forw2word self = Some h /\
          score = F_linear (word_pre_train_out self) (dropout_ (hw_output h d_lstm_out))) /\
       (if_highway self = false ->
        score = F_linear (word_pre_train_out self) d_lstm_out)) /\
  (forall sentence position hidden self t0 t1 rest,
     size position = t0 :: t1 :: rest ->
     lm_passes self (back_char_lstm self) (back2word self) sentence position t0 t1 = true ->
     let r := word_pre_train_backward sentence position hidden self in
     let dropout_ (x : Tensor) := F_dropout (p (dropout self)) x in
     called "back2word" (calls_of r) = if_highway self /\
     called "forw2word" (calls_of r) = false /\
     exists score hid d_lstm_out,
       result_of r = Ok (score, hid) /\
       (if_highway self = true ->
        exists h, back2word self = Some h /\
          score = F_linear (word_pre_train_out self) (dropout_ (hw_output h d_lstm_out))) /\
       (if_highway self = false ->
        score = F_linear (word_pre_train_out self) d_lstm_out)).
Proof.
  split; [|split; [|split; [|split; [|split; [|split]]]]].
  - intros. subst self. unfold __init__.
    cbn [if_highway forw2char back2char forw2word back2word fb2char].
    split; [reflexivity|].
    destruct if_highway_arg; repeat split; intros; congruence.
  - intros fs fp bs bp ws wp dict file_no hid self r s.
    pose proof (forward_frame fs fp bs bp ws wp dict file_no hid self) as Hframe.
    fold r in Hframe. fold s in Hframe. unfold same_but_sizes in Hframe.
    assert (if_highway s = if_highway self) as Ehw by apply Hframe.
    assert (word_level_attention s = word_level_attention self) as Ewla by apply Hframe.
    assert (dropout s = dropout self) as Edrop by apply Hframe.
    assert (word_embeds s = word_embeds self) as Eword by apply Hframe.
    assert (position_enc s = position_enc self) as Epos by apply Hframe.
    assert (layer_stack s = layer_stack self) as Elayers by apply Hframe.
    assert (fb2char s = fb2char self) as Efb by apply Hframe.
    assert (forw_char_lstm s = forw_char_lstm self) as Eforw by apply Hframe.
    assert (back_char_lstm s = back_char_lstm self) as Eback by apply Hframe.
    clear Hframe.
    destruct (forward_calls_prefix fs fp bs bp ws wp dict file_no hid self) as [rest Hrest].
    fold r in Hrest. fold s in Hrest.
    destruct (forward_calls_highway s fs fp bs bp ws wp dict (index_of (crflist s) file_no))
      as [Hoff Hon].
    destruct (forward_calls_word_stage s fs fp bs bp ws wp dict
                (index_of (crflist s) file_no)) as [Hlstm Hattn].
    cbv zeta. split.
    + intros Hcalled. destruct (if_highway self) eqn:Hflag; [reflexivity|].
      assert (if_highway s = false) as Hflag' by congruence.
      rewrite (@called_grows "fb2char" _ _ _ Hrest Hcalled) in Hoff. specialize (Hoff Hflag'). discriminate.
    + intros out Hout.
      destruct (@forward_returns _ fs fp bs bp ws wp dict file_no hid self out Hout)
        as (head & _ & _ & Hcalls & _ & _ & Hpresent).
      fold r in Hcalls, Hpresent. fold s in Hcalls, Hpresent. rewrite Hcalls.
      assert (fb_lstm_out_of s fs fp bs bp =
              F_dropout (p (dropout self))
                (T_cat [selected s (forw_char_lstm self) fs fp;
                        selected s (back_char_lstm self) bs bp] 2)) as Hfb.
      { unfold fb_lstm_out_of, char_lstm_features, dropped. rewrite Edrop, Eforw, Eback. reflexivity. }
      assert (d_char_out_of s fs fp bs bp =
              if if_highway self then
                match fb2char self with
                | Some h => F_dropout (p (dropout self))
                              (hw_output h (fb_lstm_out_of s fs fp bs bp))
                | None => fb_lstm_out_of s fs fp bs bp
                end
              else fb_lstm_out_of s fs fp bs bp) as Hd.
      { unfold d_char_out_of, dropped. rewrite Ehw, Efb, Edrop. reflexivity. }
      split.
      * destruct (if_highway self) eqn:Hflag.
        -- assert (if_highway s = true) as Hflag' by congruence.
           destruct (fb2char s) as [h|] eqn:Hh; [|exfalso; apply (Hpresent Hflag'); reflexivity].
           apply (Hon h Hflag' eq_refl).
        -- apply Hoff. congruence.
      * exists (d_char_out_of s fs fp bs bp).
        split; [|split; [|split]].
        -- intros Hflag. assert (if_highway s = true) as Hflag' by congruence.
           destruct (fb2char s) as [h|] eqn:Hh; [|exfalso; apply (Hpresent Hflag'); reflexivity].
           exists h. split; [congruence|]. split.
           ++ rewrite <- Hfb. apply (Hon h Hflag' eq_refl).
           ++ rewrite Hd, Hflag, <- Efb, Hfb. reflexivity.
        -- intros Hflag. rewrite Hd, Hflag, Hfb. reflexivity.
        -- intros Hflag. assert (word_level_attention s = false) as Hflag' by congruence.
           specialize (Hlstm Hflag'). unfold word_lstm_input, word_embedded, dropped in Hlstm.
           rewrite Edrop, Eword in Hlstm. exact Hlstm.
        -- intros Hflag. assert (word_level_attention s = true) as Hflag' by congruence.
           specialize (Hattn Hflag').
           unfold attention_output, attention_input, position_encoded, word_embedded,
             dropped in Hattn.
           rewrite Edrop, Eword, Epos, Elayers in Hattn. exact Hattn.
  - intros sentence position hidden self r.
    destruct (word_pre_train_forward_prefix sentence position hidden self)
      as [_ [rest Hrest]]. fold r in Hrest.
    destruct (@lm_calls_highway self "forw_char_lstm" (forw_char_lstm self) "forw2word"
                (forw2word self) sentence position (nth 0 (size position) 0)
                (nth 1 (size position) 0)) as [Hoff _]; try discriminate.
    cbv zeta. split.
    + intros Hcalled. destruct (if_highway self) eqn:Hflag; [reflexivity|].
      rewrite (@called_grows "forw2word" _ _ _ Hrest Hcalled) in Hoff. specialize (Hoff eq_refl). discriminate.
    + intros score hid Hok.
      destruct (@word_pre_train_forward_returns _ sentence position hidden self score hid Hok)
        as (t0 & t1 & rest' & Hsize & Hscore & _ & Hcalls & _ & Hpresent).
      fold r in Hcalls. rewrite Hcalls.
      destruct (@lm_calls_highway self "forw_char_lstm" (forw_char_lstm self) "forw2word"
                  (forw2word self) sentence position t0 t1) as [Hoff' Hon']; try discriminate.
      split; [|split].
      * destruct (if_highway self) eqn:Hflag; [apply Hon'; auto | apply Hoff'; reflexivity].
      * unfold lm_calls, made. destruct (if_highway self); [destruct (forw2word self)|];
          reflexivity.
      * exists (lm_d_lstm_out self (forw_char_lstm self) sentence position t0 t1).
        rewrite Hscore. unfold lm_score, lm_d_char_out, dropped.
        split; intros Hflag; rewrite Hflag; [|reflexivity].
        destruct (forw2word self) as [h|]; [|exfalso; apply (Hpresent Hflag); reflexivity].
        exists h. split; reflexivity.
  - intros sentence position hidden self r.
    destruct (word_pre_train_backward_prefix sentence position hidden self)
      as [_ [rest Hrest]]. fold r in Hrest.
    destruct (@lm_calls_highway self "back_char_lstm" (back_char_lstm self) "back2word"
                (back2word self) sentence position (nth 0 (size position) 0)
                (nth 1 (size position) 0)) as [Hoff _]; try discriminate.
    cbv zeta. split.
    + intros Hcalled. destruct (if_highway self) eqn:Hflag; [reflexivity|].
      rewrite (@called_grows "back2word" _ _ _ Hrest Hcalled) in Hoff. specialize (Hoff eq_refl). discriminate.
    + intros score hid Hok.
      destruct (@word_pre_train_backward_returns _ sentence position hidden self score hid Hok)
        as (t0 & t1 & rest' & Hsize & Hscore & _ & Hcalls & _ & Hpresent).
      fold r in Hcalls. rewrite Hcalls.
      destruct (@lm_calls_highway self "back_char_lstm" (back_char_lstm self) "back2word"
                  (back2word self) sentence position t0 t1) as [Hoff' Hon']; try discriminate.
      split; [|split].
      * destruct (if_highway self) eqn:Hflag; [apply Hon'; auto | apply Hoff'; reflexivity].
      * unfold lm_calls, made. destruct (if_highway self); [destruct (back2word self)|];
          reflexivity.
      * exists (lm_d_lstm_out self (back_char_lstm self) sentence position t0 t1).
        rewrite Hscore. unfold lm_score, lm_d_char_out, dropped.
        split; intros Hflag; rewrite Hflag; [|reflexivity].
        destruct (back2word self) as [h|]; [|exfalso; apply (Hpresent Hflag); reflexivity].
        exists h. split; reflexivity.
  - intros fs fp bs bp ws wp dict file_no hid self d0 d1 rest Hsize r s Hpass.
    pose proof (@forward_fit_run _ fs fp bs bp ws wp dict file_no hid self d0 d1 rest
                  Hsize Hpass) as Hrun.
    fold r in Hrun. fold s in Hrun.
    assert (exists tail,
              calls_of r = encoder_calls s fs fp bs bp ws wp dict ++ tail /\
              called "fb2char" tail = false) as (tail & Hcalls & Htail).
    { rewrite Hrun. destruct (getitem (crflist self) file_no) as [[i head]|e].
      - eexists. split; [reflexivity|]. reflexivity.
      - exists []. split; [symmetry; apply app_nil_r | reflexivity]. }
    destruct (encoder_calls_stages s fs fp bs bp ws wp dict)
      as (Hoff & Hon & Hlstm & Hattn).
    apply encoders_pass_fit in Hpass. destruct Hpass as [Hfit _].
    unfold encoders_fit in Hfit. split_fits Hfit.
    assert (if_highway s = true -> exists h, fb2char s = Some h) as Hpresent.
    { intros Hflag.
      match goal with
      | H : highway_fits _ _ _ _ _ = true |- _ =>
          unfold highway_fits in H; rewrite Hflag in H;
          destruct (fb2char s) as [h|]; [exists h; reflexivity | discriminate H]
      end. }
    change (if_highway s) with (if_highway self) in *.
    change (fb2char s) with (fb2char self) in *.
    change (word_level_attention s) with (word_level_attention self) in *.
    cbv zeta. rewrite Hcalls, called_app, Htail, orb_false_r.
    split.
    + destruct (if_highway self) eqn:Hflag.
      * destruct (Hpresent eq_refl) as [h Hh]. apply (Hon h eq_refl Hh).
      * apply Hoff. reflexivity.
    + exists (d_char_out_of s fs fp bs bp).
      split; [|split; [|split]].
      * intros Hflag. destruct (Hpresent Hflag) as [h Hh]. exists h.
        split; [exact Hh|]. split.
        -- apply in_or_app. left. apply (Hon h Hflag Hh).
        -- unfold d_char_out_of. change (if_highway s) with (if_highway self).
           change (fb2char s) with (fb2char self). rewrite Hflag, Hh. reflexivity.
      * intros Hflag. unfold d_char_out_of. change (if_highway s) with (if_highway self).
        rewrite Hflag. reflexivity.
      * intros Hflag. apply in_or_app. left. apply (Hlstm Hflag).
      * intros Hflag. apply in_or_app. left. apply (Hattn Hflag).
  - intros sentence position hidden self t0 t1 rest Hsize Hpass r.
    pose proof (@word_pre_train_forward_fit_run _ sentence position hidden self t0 t1 rest
                  Hsize Hpass) as Hrun.
    fold r in Hrun.
    assert (result_of r =
            Ok (lm_score self (forw_char_lstm self) (forw2word self) sentence position t0 t1,
                lm_hidden self (forw_char_lstm self) sentence)) as Hok
      by (rewrite Hrun; reflexivity).
    destruct (@word_pre_train_forward_returns _ sentence position hidden self _ _ Hok)
      as (_ & _ & _ & _ & _ & _ & _ & _ & Hpresent).
    destruct (@lm_calls_highway self "forw_char_lstm" (forw_char_lstm self) "forw2word"
                (forw2word self) sentence position t0 t1) as [Hoff Hon]; try discriminate.
    cbv zeta. rewrite Hrun. cbn [calls_of result_of fst snd].
    split; [|split].
    + destruct (if_highway self) eqn:Hflag; [apply Hon; auto | apply Hoff; reflexivity].
    + unfold lm_calls, made. destruct (if_highway self); [destruct (forw2word self)|];
        reflexivity.
    + eexists _, _, (lm_d_lstm_out self (forw_char_lstm self) sentence position t0 t1).
      split; [reflexivity|].
      unfold lm_score, lm_d_char_out, dropped.
      split; intros Hflag; rewrite Hflag; [|reflexivity].
      destruct (forw2word self) as [h|]; [|exfalso; apply (Hpresent Hflag); reflexivity].
      exists h. split; reflexivity.
  - intros sentence position hidden self t0 t1 rest Hsize Hpass r.
    pose proof (@word_pre_train_backward_fit_run _ sentence position hidden self t0 t1 rest
                  Hsize Hpass) as Hrun.
    fold r in Hrun.
    assert (result_of r =
            Ok (lm_score self (back_char_lstm self) (back2word self) sentence position t0 t1,
                lm_hidden self (back_char_lstm self) sentence)) as Hok
      by (rewrite Hrun; reflexivity).
    destruct (@word_pre_train_backward_returns _ sentence position hidden self _ _ Hok)
      as (_ & _ & _ & _ & _ & _ & _ & _ & Hpresent).
    destruct (@lm_calls_highway self "back_char_lstm" (back_char_lstm self) "back2word"
                (back2word self) sentence position t0 t1) as [Hoff Hon]; try discriminate.
    cbv zeta. rewrite Hrun. cbn [calls_of result_of fst snd].
    split; [|split].
    + destruct (if_highway self) eqn:Hflag; [apply Hon; auto | apply Hoff; reflexivity].
    + unfold lm_calls, made. destruct (if_highway self); [destruct (back2word self)|];
        reflexivity.
    + eexists _, _, (lm_d_lstm_out self (back_char_lstm self) sentence position t0 t1).
      split; [reflexivity|].
      unfold lm_score, lm_d_char_out, dropped.
      split; intros Hflag; rewrite Hflag; [|reflexivity].
      destruct (back2word self) as [h|]; [|exfalso; apply (Hpresent Hflag); reflexivity].
      exists h. split; reflexivity.
Qed.

End ScorerClaims.

(** * Further properties of the methods *)

(** ** The bookkeeping attributes and the initialisers *)

Section Bookkeeping.

Context {absent : Absent}.

(** X1.  [set_batch_seq_size] makes no sub-module call and touches no
    attribute but the two bookkeeping ones.  On a tensor without axes it
    raises [IndexError] and leaves [self] as it was; on a tensor with one
    axis it raises [IndexError] after [word_seq_length] has been
    overwritten, [batch_size] keeping its old value; on a tensor with two
    axes or more it returns and both are overwritten. *)
Theorem set_batch_seq_size_partial (sentence : Tensor) (self : LM_LSTM_CRF) :
  let r := set_batch_seq_size sentence self in
  let s := self_after r in
  calls_of r = [] /\
  same_but_sizes s self /\
  (size sentence = [] ->
     result_of r = Raise IndexError /\ s = self) /\
  (forall d0, size sentence = [d0] ->
     result_of r = Raise IndexError /\
     word_seq_length s = d0 /\ batch_size s = batch_size self) /\
  (forall d0 d1 rest, size sentence = d0 :: d1 :: rest ->
     result_of r = Ok tt /\ word_seq_length s = d0 /\ batch_size s = d1).
Proof.
  intros r s. subst s r. split; [apply set_batch_seq_size_calls|].
  split.
  { unfold same_but_sizes.
    repeat split;
      match goal with
      | |- ?f (self_after _) = _ => apply (set_batch_seq_size_keeps f); reflexivity
      end. }
  rewrite set_batch_seq_size_run.
  split; [|split].
  - intros ->. split; reflexivity.
  - intros d0 ->. rewrite item_0. split; [reflexivity|]. split; reflexivity.
  - intros d0 d1 rest ->. rewrite item_0, item_1. split; [reflexivity|]. split; reflexivity.
Qed.

(** X3.  [rand_init_embedding] returns, hands the weight of [char_embeds] to
    [utils.init_embedding] and leaves [word_embeds] alone; calling it and
    then [rand_init(False, w)] is the same run as [rand_init(True, w)]. *)
Theorem rand_init_embedding_first (init_word_embedding : bool) (self : LM_LSTM_CRF) :
  let r0 := rand_init_embedding self in
  result_of r0 = Ok tt /\ calls_of r0 = [] /\
  word_embeds (self_after r0) = word_embeds self /\
  char_embeds (self_after r0) = {| weight := init_embedding (weight (char_embeds self)) |} /\
  rand_init false init_word_embedding (self_after r0) =
  rand_init true init_word_embedding self.
Proof.
  intros r0. subst r0. unfold rand_init_embedding. rewrite bind_get.
  unfold assign at 1 2 3 4 5. rewrite result_of_triple, calls_of_triple, self_after_triple.
  repeat (split; [reflexivity|]).
  unfold rand_init. rewrite bind_ret, bind_assoc, bind_get, bind_assign. reflexivity.
Qed.

End Bookkeeping.

Ltac open_self self :=
  destruct self as [? ? ? ? ? ? hwy ? ? ? ? ? ? ? ? ? ? ? f2c b2c f2w b2w fb2c ? ? ? ? ? ? ?];
  cbn [if_highway forw2char back2char forw2word back2word fb2char] in *.

Ltac highway_cases hwy f2c b2c f2w b2w fb2c :=
  destruct hwy;
  [ destruct f2c as [?|]; [destruct b2c as [?|]; [destruct f2w as [?|];
      [destruct b2w as [?|]; [destruct fb2c as [?|]|]|]|]|] | ].

Ltac present_or_not :=
  match goal with
  | |- context [highway_attrs_present ?s] =>
      first [ assert (highway_attrs_present s) as Hyes
                by (unfold highway_attrs_present; cbn; intros; repeat split; congruence)
            | assert (~ highway_attrs_present s) as Hno
                by (unfold highway_attrs_present; cbn; intros Hp;
                    destruct (Hp eq_refl) as (? & ? & ? & ? & ?); congruence) ]
  end.

Section RandInit.

Context {absent : Absent}.

(** X4.  [rand_init] returns exactly when the highway attributes exist
    whenever [if_highway] is set.  Otherwise it raises [AttributeError]
    half-way: the embeddings asked for have been initialised already, the
    three LSTMs, the three linear layers and the CRF heads have not been
    touched. *)
Theorem rand_init_returns_iff (init_char_embedding init_word_embedding : bool)
  (self : LM_LSTM_CRF) :
  let r := rand_init init_char_embedding init_word_embedding self in
  let self' := self_after r in
  (result_of r = Ok tt <-> highway_attrs_present self) /\
  (result_of r <> Ok tt ->
   result_of r = Raise AttributeError /\
   forw_char_lstm self' = forw_char_lstm self /\
   back_char_lstm self' = back_char_lstm self /\
   word_lstm self' = word_lstm self /\
   char_pre_train_out self' = char_pre_train_out self /\
   word_pre_train_out self' = word_pre_train_out self /\
   fc self' = fc self /\
   crflist self' = crflist self /\
   (init_char_embedding = true ->
    char_embeds self' = {| weight := init_embedding (weight (char_embeds self)) |}) /\
   (init_word_embedding = true ->
    word_embeds self' = {| weight := init_embedding (weight (word_embeds self)) |})).
Proof.
  intros r self'. subst self' r.
  open_self self.
  highway_cases hwy f2c b2c f2w b2w fb2c; present_or_not;
    destruct init_char_embedding, init_word_embedding.
  all: split; [split|].
  all: try (intros H; exact Hyes).
  all: try (intros H; reflexivity).
  all: try (intros H; discriminate H).
  all: try (intros H; contradiction).
  all: try (intros H; exfalso; apply H; reflexivity).
  all: intros H; repeat match goal with |- _ /\ _ => split end.
  all: first [reflexivity | intros E; first [discriminate E | reflexivity]].
Qed.

(** X5.  Whether it returns or raises, [rand_init] makes no sub-module call
    and leaves alone the encoder layers of [layer_stack], the dropout
    module, the bookkeeping attributes, the flags and the dimensions; it
    keeps the number of CRF heads and the presence of the highway
    attributes; with [init_word_embedding=True] the weight of [word_embeds]
    has been handed to [utils.init_embedding]. *)
Theorem rand_init_keeps (init_char_embedding init_word_embedding : bool)
  (self : LM_LSTM_CRF) :
  let r := rand_init init_char_embedding init_word_embedding self in
  let self' := self_after r in
  calls_of r = [] /\
  layer_stack self' = layer_stack self /\
  dropout self' = dropout self /\
  batch_size self' = batch_size self /\
  word_seq_length self' = word_seq_length self /\
  if_highway self' = if_highway self /\
  word_level_attention self' = word_level_attention self /\
  tagset_size self' = tagset_size self /\
  char_hidden_dim self' = char_hidden_dim self /\
  word_dim self' = word_dim self /\
  length (crflist self') = length (crflist self) /\
  (highway_attrs_present self -> highway_attrs_present self') /\
  (init_word_embedding = true ->
   word_embeds self' = {| weight := init_embedding (weight (word_embeds self)) |}).
Proof.
  intros r self'. subst self' r.
  open_self self.
  highway_cases hwy f2c b2c f2w b2w fb2c; destruct init_char_embedding, init_word_embedding.
  all: repeat match goal with |- _ /\ _ => split end.
  all: try reflexivity.
  all: try apply length_map.
  all: try (intros E; first [discriminate E | reflexivity]).
  all: unfold highway_attrs_present; cbn; intros H Hflag;
    first [ repeat split; discriminate
          | discriminate Hflag
          | destruct (H eq_refl) as (? & ? & ? & ? & ?); congruence ].
Qed.

End RandInit.

(** ** The corpus index *)

Lemma called_cons (name : string) (c : Call) (l : list Call) :
  called name (c :: l) =
  (is_attr name (callee c) || is_item name (callee c)) || called name l.
Proof. reflexivity. Qed.

Lemma called_nil (name : string) : called name [] = false.
Proof. reflexivity. Qed.

Section HeadCall.

Context {absent : Absent}.

Lemma forward_head_call fs fp bs bp ws wp dict file_no hid self :
  called "crflist" (calls_of (forward fs fp bs bp ws wp dict file_no hid self)) = true ->
  exists i head, getitem (crflist self) file_no = Ok (i, head).
Proof.
  remember (forward fs fp bs bp ws wp dict file_no hid self) as r eqn:Hr.
  unfold forward in Hr. rewrite bind_run in Hr.
  pose proof (set_batch_seq_size_calls fp self) as Hc.
  pose proof (@set_batch_seq_size_keeps _ _ crflist fp self
                (fun _ _ => eq_refl) (fun _ _ => eq_refl)) as Hcrf.
  destruct (set_batch_seq_size fp self) as [[[[]|e] self1] c];
    rewrite ?result_of_triple, ?self_after_triple, ?calls_of_triple in *; subst c;
    [|subst r; discriminate].
  rewrite <- Hcrf. clear Hcrf.
  exec_unfold Hr. exec Hr.
  all: try (exec_loop Hr; exec Hr).
  all: unfold ret in Hr; subst r;
    rewrite ?calls_of_after, ?calls_of_triple.
  all: try (intros _; eexists _, _; reflexivity).
  all: try match goal with
           | Hcalls : exists n, _ = layer_calls 0 (firstn n ?ls) ?x ?npm ?sam |- _ =>
               let n := fresh "n" in destruct Hcalls as [n ->]
           end.
  all: cbn [app]; rewrite ?called_cons, ?called_app, ?called_cons, ?called_nil,
         ?called_layer_calls;
    cbn [callee is_attr is_item];
    try match goal with
        | |- context [match ?l with [] => _ | _ :: _ => _ end] => destruct l
        end;
    intros H; vm_compute in H; discriminate H.
Qed.

End HeadCall.

Lemma bind_cong {A B : Type} (m1 m2 : M A) (f g : A -> M B) self :
  m1 self = m2 self -> (forall a s, f a s = g a s) ->
  bind m1 f self = bind m2 g self.
Proof.
  intros Hm Hf. unfold bind. rewrite Hm.
  destruct (m2 self) as [[[a|e] s] c]; [rewrite Hf|]; reflexivity.
Qed.

Ltac same_steps :=
  repeat (match goal with
          | |- bind ?m _ _ = bind ?m _ _ => apply bind_cong; [reflexivity|]
          end;
          intros; cbv beta;
          try match goal with
              | |- (match ?x with _ => _ end) _ = _ => destruct x
              end).

Section FileNo.

Context {absent : Absent}.

Lemma forward_index fs fp bs bp ws wp dict file_no file_no' hid self :
  getitem (crflist self) file_no = getitem (crflist self) file_no' ->
  forward fs fp bs bp ws wp dict file_no hid self =
  forward fs fp bs bp ws wp dict file_no' hid self.
Proof.
  intros Hget. unfold forward.
  rewrite (bind_run (set_batch_seq_size fp) _ self).
  rewrite (bind_run (set_batch_seq_size fp) _ self).
  pose proof (@set_batch_seq_size_keeps _ _ crflist fp self
                (fun _ _ => eq_refl) (fun _ _ => eq_refl)) as Hcrf.
  destruct (set_batch_seq_size fp self) as [[[[]|e] self1] c];
    rewrite ?result_of_triple, ?self_after_triple, ?calls_of_triple;
    rewrite ?self_after_triple in Hcrf;
    cbv beta iota; [|reflexivity].
  rewrite <- Hcrf in Hget. clear Hcrf.
  apply (f_equal (after c)).
  rewrite !bind_get.
  same_steps.
  (apply bind_cong; [|intros; reflexivity]).
  (destruct (word_level_attention self1); same_steps; rewrite Hget; reflexivity).
Qed.

(** X9.  A negative [file_no] counts from the end, as Python list indexing
    does: for [-len(crflist) <= file_no < 0] the call is the same run as with
    [file_no + len(crflist)]. *)
Theorem forward_file_no_from_the_end
  (forw_sentence forw_position back_sentence back_position word_seq word_pos : Tensor)
  (word_dict : Dict) (file_no : Z) (hidden : option (Tensor * Tensor))
  (self : LM_LSTM_CRF) :
  - Z.of_nat (length (crflist self)) <= file_no < 0 ->
  forward forw_sentence forw_position back_sentence back_position word_seq word_pos
    word_dict file_no hidden self =
  forward forw_sentence forw_position back_sentence back_position word_seq word_pos
    word_dict (file_no + Z.of_nat (length (crflist self))) hidden self.
Proof.
  intros Hrange. apply forward_index. apply getitem_from_the_end. exact Hrange.
Qed.

(** X8.  With [file_no] below [-len(crflist)] or at least [len(crflist)],
    [forward] never returns and applies no CRF head.  The index is only
    looked at after the encoders have run: when their tests pass (of the
    shapes and of the contents) the call raises [IndexError] having made
    every encoder call. *)
Theorem forward_file_no_out_of_range
  (forw_sentence forw_position back_sentence back_position word_seq word_pos : Tensor)
  (word_dict : Dict) (file_no : Z) (hidden : option (Tensor * Tensor))
  (self : LM_LSTM_CRF) :
  file_no < - Z.of_nat (length (crflist self)) \/
  Z.of_nat (length (crflist self)) <= file_no ->
  let r :=
    forward forw_sentence forw_position back_sentence back_position word_seq word_pos
      word_dict file_no hidden self in
  (forall out, result_of r <> Ok out) /\
  called "crflist" (calls_of r) = false /\
  (forall d0 d1 rest,
     size forw_position = d0 :: d1 :: rest ->
     let s := with_batch_size d1 (with_word_seq_length d0 self) in
     encoders_pass s forw_sentence forw_position back_sentence back_position word_seq
       word_pos word_dict = true ->
     result_of r = Raise IndexError /\
     calls_of r =
       encoder_calls s forw_sentence forw_position back_sentence back_position
         word_seq word_pos word_dict).
Proof.
  intros Hrange r.
  assert (getitem (crflist self) file_no = Raise IndexError) as Hget.
  { apply getitem_raises. split; [reflexivity | exact Hrange]. }
  split; [|split].
  - intros out Hout. apply forward_returns_iff in Hout.
    destruct Hout as (d0 & d1 & rest & i & head & _ & _ & Hget' & _).
    congruence.
  - destruct (called "crflist" (calls_of r)) eqn:Hcalled; [|reflexivity].
    apply forward_head_call in Hcalled. destruct Hcalled as (i & head & Hget').
    congruence.
  - intros d0 d1 rest Hsize s Hfit. unfold r.
    rewrite (@forward_fit_run _ _ _ _ _ _ _ _ file_no hidden self _ _ _ Hsize Hfit).
    rewrite Hget. split; reflexivity.
Qed.

Lemma same_but_sizes_set (a b : LM_LSTM_CRF) (d0 d1 : Z) :
  same_but_sizes a b ->
  with_batch_size d1 (with_word_seq_length d0 a) =
  with_batch_size d1 (with_word_seq_length d0 b).
Proof.
  unfold same_but_sizes. destruct a, b. cbn.
  intros H.
  repeat match type of H with
         | _ /\ _ => let E := fresh "E" in destruct H as [E H]; try rewrite E
         end.
  rewrite H. reflexivity.
Qed.

(** X2.  [forward] does not depend on what [batch_size] and
    [word_seq_length] hold on entry: on two objects that differ in these two
    attributes only it gives the same result and makes the same calls, and,
    when [forw_position] has two axes or more, leaves the same object. *)
Theorem forward_ignores_bookkeeping
  (forw_sentence forw_position back_sentence back_position word_seq word_pos : Tensor)
  (word_dict : Dict) (file_no : Z) (hidden : option (Tensor * Tensor))
  (self self' : LM_LSTM_CRF) :
  same_but_sizes self' self ->
  let run (s : LM_LSTM_CRF) :=
    forward forw_sentence forw_position back_sentence back_position word_seq word_pos
      word_dict file_no hidden s in
  result_of (run self') = result_of (run self) /\
  calls_of (run self') = calls_of (run self) /\
  ((2 <= length (size forw_position))%nat -> run self' = run self).
Proof.
  intros Hsame run. subst run. cbv beta. unfold forward.
  rewrite (bind_run (set_batch_seq_size forw_position) _ self).
  rewrite (bind_run (set_batch_seq_size forw_position) _ self').
  rewrite !set_batch_seq_size_run.
  destruct (size forw_position) as [|d0 [|d1 rest]].
  - repeat split; try reflexivity. cbn [length]. lia.
  - rewrite !item_0. repeat split; try reflexivity. cbn [length]. lia.
  - rewrite !item_0, !item_1.
    rewrite ?result_of_triple, ?self_after_triple, ?calls_of_triple. cbv beta iota.
    rewrite (same_but_sizes_set d0 d1 Hsame). repeat split; reflexivity.
Qed.

End FileNo.

(** ** The shapes of the docstring *)

Section Shapes.

Context {absent : Absent}.

Lemma expand_position (S B H : Z) :
  0 <= S -> 0 <= B -> 0 <= H ->
  expand_shape [S; B; 1] [S; B; H] = Some [S; B; H].
Proof.
  intros HS HB HH. unfold expand_shape. cbn.
  destruct (Z.eqb_spec H (-1)); [lia|].
  destruct (Z.eqb_spec H 1) as [->|_].
  - destruct (Z.eqb_spec B (-1)); [lia|]. rewrite Z.eqb_refl.
    destruct (Z.eqb_spec S (-1)); [lia|]. rewrite Z.eqb_refl. reflexivity.
  - destruct (Z.leb_spec 0 H); [|lia].
    destruct (Z.eqb_spec B (-1)); [lia|]. rewrite Z.eqb_refl.
    destruct (Z.eqb_spec S (-1)); [lia|]. rewrite Z.eqb_refl. reflexivity.
Qed.

Lemma gather_positions (C S B H : Z) :
  gather_shape [C; B; H] 0 [S; B; H] = Some [S; B; H].
Proof.
  unfold gather_shape. cbn. rewrite !Z.leb_refl. reflexivity.
Qed.

Lemma cat_two (S B a b : Z) :
  cat_shape [[S; B; a]; [S; B; b]] 2 = Some [S; B; a + b].
Proof.
  unfold cat_shape. cbn. rewrite !Z.eqb_refl. cbn. rewrite Z.add_0_r. reflexivity.
Qed.

Lemma cat_three (S B a b c : Z) :
  cat_shape [[S; B; a]; [S; B; b]; [S; B; c]] 2 = Some [S; B; a + (b + c)].
Proof.
  unfold cat_shape. cbn. rewrite !Z.eqb_refl. cbn. rewrite Z.add_0_r. reflexivity.
Qed.

Lemma lstm_fits (l : LSTM) (len batch inp : Z) :
  inp = input_size l -> 0 < len ->
  lstm_shape l [len; batch; inp] = Some [len; batch; hidden_size l * num_directions l].
Proof.
  intros -> Hlen. unfold lstm_shape. rewrite Z.eqb_refl.
  destruct (Z.ltb_spec 0 len); [reflexivity | lia].
Qed.

Lemma view_scores (S B T : Z) :
  0 <= S -> 0 <= B -> 0 <= T ->
  view_shape [S * B; T; T] [B; S; T; T] = Some [B; S; T; T].
Proof.
  intros HS HB HT. unfold view_shape. cbn [forallb count_occ].
  destruct (Z.leb_spec (-1) B); [|lia]. destruct (Z.leb_spec (-1) S); [|lia].
  destruct (Z.leb_spec (-1) T); [|lia]. cbn [andb].
  destruct (Z.eq_dec B (-1)); [lia|]. destruct (Z.eq_dec S (-1)); [lia|].
  destruct (Z.eq_dec T (-1)); [lia|].
  replace (numel [B; S; T; T] =? numel [S * B; T; T]) with true; [reflexivity|].
  symmetry. apply Z.eqb_eq. cbn [numel fold_right]. ring.
Qed.

End Shapes.

Ltac constructed s self :=
  cbn [s self __init__ with_batch_size with_word_seq_length
       if_highway word_level_attention char_embeds word_embeds dropout
       forw_char_lstm back_char_lstm word_lstm char_hidden_dim
       batch_size word_seq_length fb2char position_enc
       layer_stack fc tagset_size
       nn_Embedding nn_LSTM nn_Dropout nn_Linear Embedding_from_pretrained
       get_sinusoid_encoding_table weight data p].

Section Documented.

Context {absent : Absent}.

Lemma size_dropout (q : ratio) (x : Tensor) : size (F_dropout q x) = size x.
Proof. reflexivity. Qed.

Lemma size_hw_output (h : hw) (x : Tensor) :
  size (hw_output h x) = or_scalar (hw_shape h (size x)).
Proof. reflexivity. Qed.

Lemma size_CRF_output (c : CRF) (x : Tensor) :
  size (CRF_output c x) = or_scalar (CRF_shape c (size x)).
Proof. reflexivity. Qed.

Lemma size_view (x : Tensor) (l : list Z) :
  size (T_view x l) = or_scalar (view_shape (size x) l).
Proof. reflexivity. Qed.

Lemma size_permute (x : Tensor) (l : list Z) :
  size (T_permute x l) = or_scalar (permute_shape (size x) l).
Proof. reflexivity. Qed.

Lemma char_level_on_documented_shapes
  (tagset_size char_size char_dim char_hidden_dim char_rnn_layers embedding_dim
   word_hidden_dim word_rnn_layers vocab_size : Z) (dropout_ratio : ratio)
  (file_num len_max_seq n_layers n_head d_k d_v : Z) (large_CRF if_highway : bool)
  (in_doc_words highway_layers : Z) (word_level_attention : bool)
  (forw_sentence forw_position back_sentence back_position : Tensor)
  (forw_len back_len seq_len batch : Z) :
  let self :=
    __init__ tagset_size char_size char_dim char_hidden_dim char_rnn_layers
      embedding_dim word_hidden_dim word_rnn_layers vocab_size dropout_ratio
      file_num len_max_seq n_layers n_head d_k d_v large_CRF if_highway
      in_doc_words highway_layers word_level_attention in
  let s := with_batch_size batch (with_word_seq_length seq_len self) in
  size forw_sentence = [forw_len; batch] ->
  size back_sentence = [back_len; batch] ->
  size forw_position = [seq_len; batch] ->
  size back_position = [seq_len; batch] ->
  0 < forw_len -> 0 < back_len ->
  0 <= seq_len -> 0 <= batch -> 0 <= char_hidden_dim ->
  (forall h, fb2char self = Some h ->
     hw_shape h [seq_len; batch; 2 * char_hidden_dim] =
     Some [seq_len; batch; 2 * char_hidden_dim]) ->
  char_level_fits s forw_sentence forw_position back_sentence back_position = true /\
  highway_fits s forw_sentence forw_position back_sentence back_position = true /\
  size (d_char_out_of s forw_sentence forw_position back_sentence back_position) =
    [seq_len; batch; 2 * char_hidden_dim].
Proof.
  intros self s Hfs Hbs Hfp Hbp Hflen Hblen Hseq Hbatch Hhid Hhw.
  rename if_highway into highway.
  assert (size (fb_lstm_out_of s forw_sentence forw_position back_sentence back_position)
          = [seq_len; batch; 2 * char_hidden_dim]) as Hfb.
  { unfold_dataflow. constructed s self.
    cbn [size map]. rewrite Hfs, Hbs, Hfp, Hbp.
    cbn [embedding_shape or_scalar app].
    rewrite !lstm_fits by first [reflexivity | assumption].
    cbn [or_scalar hidden_size nn_LSTM num_directions bidirectional].
    rewrite !Z.mul_1_r.
    change (unsqueeze_shape [seq_len; batch] 2) with (Some [seq_len; batch; 1]).
    cbn [or_scalar]. rewrite !expand_position by assumption.
    cbn [or_scalar]. rewrite !gather_positions. cbn [or_scalar].
    rewrite cat_two. cbn [or_scalar].
    replace (char_hidden_dim + char_hidden_dim) with (2 * char_hidden_dim) by lia.
    reflexivity. }
  split; [|split].
  - unfold char_level_fits, selection_fits, embedding_fits, expanded.
    unfold_dataflow. constructed s self.
    cbn [size map]. rewrite Hfs, Hbs, Hfp, Hbp.
    cbn [embedding_shape or_scalar app fits andb].
    rewrite !lstm_fits by first [reflexivity | assumption].
    cbn [or_scalar fits andb hidden_size nn_LSTM num_directions bidirectional].
    rewrite !Z.mul_1_r.
    change (unsqueeze_shape [seq_len; batch] 2) with (Some [seq_len; batch; 1]).
    cbn [or_scalar fits andb]. rewrite !expand_position by assumption.
    cbn [or_scalar fits andb]. rewrite !gather_positions. cbn [or_scalar fits andb].
    rewrite cat_two. reflexivity.
  - unfold highway_fits. rewrite Hfb. unfold s, self in Hhw |- *. clear Hfb.
    destruct highway; [|reflexivity].
    cbn [if_highway fb2char __init__ with_batch_size with_word_seq_length]
      in Hhw |- *.
    rewrite (Hhw _ eq_refl). reflexivity.
  - unfold d_char_out_of. fold (fb_lstm_out_of s forw_sentence forw_position back_sentence
                                  back_position).
    destruct (if_highway s); [|exact Hfb].
    change (fb2char s) with (fb2char self).
    destruct (fb2char self) as [h|] eqn:Eh; [|exact Hfb].
    unfold dropped. rewrite size_dropout, size_hw_output, Hfb, (Hhw h eq_refl). reflexivity.
Qed.

Lemma length_crflist
  tagset_size char_size char_dim char_hidden_dim char_rnn_layers embedding_dim
  word_hidden_dim word_rnn_layers vocab_size dropout_ratio file_num len_max_seq
  n_layers n_head d_k d_v large_CRF if_highway in_doc_words highway_layers
  word_level_attention :
  length
    (crflist
       (__init__ tagset_size char_size char_dim char_hidden_dim char_rnn_layers
          embedding_dim word_hidden_dim word_rnn_layers vocab_size dropout_ratio file_num
          len_max_seq n_layers n_head d_k d_v large_CRF if_highway in_doc_words
          highway_layers word_level_attention)) = Z.to_nat file_num.
Proof.
  rewrite init_crflist. unfold range. rewrite length_map, length_seq. reflexivity.
Qed.

(** X10.  The word-LSTM branch on the shapes of the docstring.  On a model
    built by [__init__] without attention from arguments the constructors
    accept, with non-empty sentences of shape [(char_len, batch)],
    positions and words of shape [(seq_len, batch)] and [file_no] in range,
    [forward] returns a tensor of shape
    [(seq_len, batch, tagset_size, tagset_size)], provided every step
    accepts the contents it is given (the indices are in range), the
    highway block (when there is one) keeps the shape of its input and the
    CRF heads return one [tagset_size]-square matrix per row.  The head
    receives features of shape
    [(seq_len, batch, 2 * (word_hidden_dim // 2))]. *)
Theorem forward_returns_on_documented_shapes
  (tagset_size char_size char_dim char_hidden_dim char_rnn_layers embedding_dim
   word_hidden_dim word_rnn_layers vocab_size : Z) (dropout_ratio : ratio)
  (file_num len_max_seq n_layers n_head d_k d_v : Z) (large_CRF if_highway : bool)
  (in_doc_words highway_layers : Z)
  (forw_sentence forw_position back_sentence back_position word_seq word_pos : Tensor)
  (word_dict : Dict) (file_no : Z) (hidden : option (Tensor * Tensor))
  (forw_len back_len seq_len batch : Z) :
  let self :=
    __init__ tagset_size char_size char_dim char_hidden_dim char_rnn_layers
      embedding_dim word_hidden_dim word_rnn_layers vocab_size dropout_ratio
      file_num len_max_seq n_layers n_head d_k d_v large_CRF if_highway
      in_doc_words highway_layers false in
  let s := with_batch_size batch (with_word_seq_length seq_len self) in
  let features := [seq_len; batch; 2 * (word_hidden_dim / 2)] in
  well_sized tagset_size char_size char_dim char_hidden_dim char_rnn_layers embedding_dim
    word_hidden_dim word_rnn_layers vocab_size dropout_ratio file_num len_max_seq
    n_layers n_head d_k d_v in_doc_words highway_layers ->
  size forw_sentence = [forw_len; batch] ->
  size back_sentence = [back_len; batch] ->
  size forw_position = [seq_len; batch] ->
  size back_position = [seq_len; batch] ->
  size word_seq = [seq_len; batch] ->
  0 < forw_len -> 0 < back_len -> 0 < seq_len -> 0 < batch ->
  0 <= file_no < file_num ->
  (forall h, fb2char self = Some h ->
     hw_shape h [seq_len; batch; 2 * char_hidden_dim] =
     Some [seq_len; batch; 2 * char_hidden_dim]) ->
  (forall head, In head (crflist self) ->
     CRF_shape head features = Some [seq_len * batch; tagset_size; tagset_size]) ->
  accepted (encoder_terms s forw_sentence forw_position back_sentence back_position
              word_seq word_pos word_dict) = true ->
  (forall head, In head (crflist self) ->
     accepted (head_terms s forw_sentence forw_position back_sentence back_position
                 word_seq word_pos word_dict head) = true) ->
  let r :=
    forward forw_sentence forw_position back_sentence back_position word_seq word_pos
      word_dict file_no hidden self in
  exists out feats,
    result_of r = Ok out /\
    size out = [seq_len; batch; tagset_size; tagset_size] /\
    last (calls_of r) (made (Attr "none") []) =
      made (Item "crflist" (Z.to_nat file_no)) [feats] /\
    size feats = features.
Proof.
  intros self s features Hsized Hfs Hbs Hfp Hbp Hws Hflen Hblen Hslen Hblen' Hrange
    Hhw Hcrf Hacc Hhacc r.
  assert (0 <= seq_len) as Hseq by lia.
  assert (0 <= batch) as Hbatch by lia.
  assert (0 <= char_hidden_dim /\ 0 <= tagset_size) as [Hhid Htag]
    by (unfold well_sized in Hsized; lia).
  destruct (@char_level_on_documented_shapes tagset_size char_size char_dim char_hidden_dim
              char_rnn_layers embedding_dim word_hidden_dim word_rnn_layers vocab_size
              dropout_ratio file_num len_max_seq n_layers n_head d_k d_v large_CRF
              if_highway in_doc_words highway_layers false _ _ _ _ _ _ _ _
              Hfs Hbs Hfp Hbp Hflen Hblen Hseq Hbatch Hhid Hhw) as (Hchar & Hhigh & Hd).
  fold self in Hchar, Hhigh, Hd. fold s in Hchar, Hhigh, Hd.
  rename tagset_size into tags.
  assert (size (word_lstm_input s forw_sentence forw_position back_sentence back_position
                  word_seq) = [seq_len; batch; embedding_dim + 2 * char_hidden_dim])
    as Hin.
  { unfold word_lstm_input.
    assert (forall ts d, size (T_cat ts d) = or_scalar (cat_shape (map size ts) d)) as Hc
      by reflexivity.
    rewrite Hc. cbn [map]. rewrite Hd. unfold dropped, word_embedded.
    rewrite size_dropout. constructed s self. cbn [size]. rewrite Hws.
    cbn [embedding_shape or_scalar app]. rewrite cat_two. reflexivity. }
  assert (encoders_fit s forw_sentence forw_position back_sentence back_position word_seq
            word_pos word_dict = true) as Hfit.
  { unfold encoders_fit. rewrite Hchar, Hhigh. cbn [andb].
    unfold word_level_fits, recurrent_fits, embedding_fits. cbv zeta.
    rewrite Hin. cbn [map]. rewrite Hd. unfold dropped, word_embedded.
    rewrite size_dropout. constructed s self. cbn [size]. rewrite Hws.
    cbn [embedding_shape or_scalar app fits andb]. rewrite cat_two.
    rewrite lstm_fits by (cbn [input_size nn_LSTM]; lia). reflexivity. }
  assert (encoders_pass s forw_sentence forw_position back_sentence back_position word_seq
            word_pos word_dict = true) as Hpass.
  { unfold encoders_pass. rewrite Hfit, Hacc. reflexivity. }
  assert (0 <= file_no < Z.of_nat (length (crflist self))) as Hrange'.
  { unfold self. rewrite length_crflist. lia. }
  destruct (@getitem_in_range _ (crflist self) file_no Hrange') as (_ & head & Hnth & Hget).
  assert (size (word_level_of s forw_sentence forw_position back_sentence back_position
                  word_seq word_pos word_dict) = features) as Hfeats.
  { unfold word_level_of. change (word_level_attention s) with false. cbv iota.
    unfold dropped. rewrite size_dropout.
    assert (forall l x, size (LSTM_output l x) = or_scalar (lstm_shape l (size x))) as Hl
      by reflexivity.
    rewrite Hl, Hin. rewrite lstm_fits by (constructed s self; cbn [input_size nn_LSTM]; lia).
    constructed s self. cbn [or_scalar hidden_size num_directions bidirectional nn_LSTM].
    unfold features. rewrite (Z.mul_comm 2). reflexivity. }
  assert (view_shape [seq_len * batch; tags; tags]
            [batch_size s; word_seq_length s; tagset_size s; tagset_size s] =
          Some [batch; seq_len; tags; tags]) as Hview
    by (apply view_scores; assumption).
  assert (head_fits s forw_sentence forw_position back_sentence back_position word_seq
            word_pos word_dict head = true) as Hhead.
  { unfold head_fits. cbv zeta.
    rewrite size_CRF_output, Hfeats, (Hcrf head (nth_error_In _ _ Hnth)).
    cbn [or_scalar fits andb]. rewrite Hview. reflexivity. }
  assert (head_passes s forw_sentence forw_position back_sentence back_position word_seq
            word_pos word_dict head = true) as Hheadp.
  { unfold head_passes. rewrite Hhead, (Hhacc head (nth_error_In _ _ Hnth)). reflexivity. }
  assert (size forw_position = seq_len :: batch :: []) as Hfp' by exact Hfp.
  unfold r.
  rewrite (@forward_fit_run _ _ _ _ _ _ _ _ file_no hidden self _ _ _ Hfp' Hpass).
  rewrite Hget. fold s. rewrite Hheadp.
  eexists _, _. rewrite result_of_triple, calls_of_triple.
  split; [reflexivity|]. split; [|split].
  - unfold crf_scores_of.
    rewrite size_permute, size_view, size_CRF_output, Hfeats,
      (Hcrf head (nth_error_In _ _ Hnth)).
    cbn [or_scalar]. rewrite Hview. reflexivity.
  - unfold forward_calls_of. apply last_last.
  - exact Hfeats.
Qed.

End Documented.

Section Attention.

Context {absent : Absent}.

Lemma layers_keep_shape (layers : list EncoderLayer) (npm sam : Tensor) (shape : list Z) :
  (forall l, In l layers ->
     EncoderLayer_shape l shape (size npm) (size sam) = Some shape) ->
  forall x, size x = shape ->
    layers_fit layers x npm sam = true /\
    size (attention_stack layers x npm sam) = shape.
Proof.
  unfold attention_stack.
  induction layers as [|l layers IH]; intros Hkeep x Hx; [split; [reflexivity | exact Hx]|].
  cbn [layers_fit fold_left]. rewrite Hx, (Hkeep l (or_introl eq_refl)). cbn [fits andb].
  apply IH.
  - intros l' Hl'. apply Hkeep. right. exact Hl'.
  - cbn [size]. rewrite Hx, (Hkeep l (or_introl eq_refl)). reflexivity.
Qed.

Lemma linear_fits (l : Linear) (a b c : Z) :
  c = in_features l -> linear_shape l [a; b; c] = Some [a; b; out_features l].
Proof. intros ->. unfold linear_shape. cbn. rewrite Z.eqb_refl. reflexivity. Qed.

(** X11.  The attention branch on the shapes of the docstring: under the
    same assumptions (arguments the constructors accept, non-empty inputs
    of the documented shapes, every step accepting the contents it is
    given, a highway block that keeps the shape of its input, heads that
    return one matrix per row), a sinusoid table with one row of width
    [embedding_dim] per position, masks that exist for a [(batch, seq_len)]
    input and encoder layers that keep the shape
    [(batch, seq_len, d_model)], [forward] returns a tensor of shape
    [(seq_len, batch, tagset_size, tagset_size)].  Here the head receives
    features of shape [(batch, seq_len, word_hidden_dim)], batch first. *)
Theorem forward_attention_on_documented_shapes
  (tagset_size char_size char_dim char_hidden_dim char_rnn_layers embedding_dim
   word_hidden_dim word_rnn_layers vocab_size : Z) (dropout_ratio : ratio)
  (file_num len_max_seq n_layers n_head d_k d_v : Z) (large_CRF if_highway : bool)
  (in_doc_words highway_layers : Z)
  (forw_sentence forw_position back_sentence back_position word_seq word_pos : Tensor)
  (word_dict : Dict) (file_no : Z) (hidden : option (Tensor * Tensor))
  (forw_len back_len seq_len batch : Z) (slf_attn_shape non_pad_shape : list Z) :
  let self :=
    __init__ tagset_size char_size char_dim char_hidden_dim char_rnn_layers
      embedding_dim word_hidden_dim word_rnn_layers vocab_size dropout_ratio
      file_num len_max_seq n_layers n_head d_k d_v large_CRF if_highway
      in_doc_words highway_layers true in
  let s := with_batch_size batch (with_word_seq_length seq_len self) in
  let width := embedding_dim * 2 + char_hidden_dim * 2 in
  let features := [batch; seq_len; word_hidden_dim] in
  well_sized tagset_size char_size char_dim char_hidden_dim char_rnn_layers embedding_dim
    word_hidden_dim word_rnn_layers vocab_size dropout_ratio file_num len_max_seq
    n_layers n_head d_k d_v in_doc_words highway_layers ->
  size forw_sentence = [forw_len; batch] ->
  size back_sentence = [back_len; batch] ->
  size forw_position = [seq_len; batch] ->
  size back_position = [seq_len; batch] ->
  size word_seq = [seq_len; batch] ->
  size word_pos = [seq_len; batch] ->
  0 < forw_len -> 0 < back_len -> 0 < seq_len -> 0 < batch ->
  0 <= file_no < file_num ->
  sinusoid_size (len_max_seq + 1) embedding_dim 0 = [len_max_seq + 1; embedding_dim] ->
  attn_key_pad_mask_shape [batch; seq_len] [batch; seq_len] word_dict =
    Some slf_attn_shape ->
  non_pad_mask_shape [batch; seq_len] word_dict = Some non_pad_shape ->
  (forall h, fb2char self = Some h ->
     hw_shape h [seq_len; batch; 2 * char_hidden_dim] =
     Some [seq_len; batch; 2 * char_hidden_dim]) ->
  (forall l, In l (layer_stack self) ->
     EncoderLayer_shape l [batch; seq_len; width] non_pad_shape slf_attn_shape =
     Some [batch; seq_len; width]) ->
  (forall head, In head (crflist self) ->
     CRF_shape head features = Some [batch * seq_len; tagset_size; tagset_size]) ->
  accepted (encoder_terms s forw_sentence forw_position back_sentence back_position
              word_seq word_pos word_dict) = true ->
  (forall head, In head (crflist self) ->
     accepted (head_terms s forw_sentence forw_position back_sentence back_position
                 word_seq word_pos word_dict head) = true) ->
  let r :=
    forward forw_sentence forw_position back_sentence back_position word_seq word_pos
      word_dict file_no hidden self in
  exists out feats,
    result_of r = Ok out /\
    size out = [seq_len; batch; tagset_size; tagset_size] /\
    last (calls_of r) (made (Attr "none") []) =
      made (Item "crflist" (Z.to_nat file_no)) [feats] /\
    size feats = features.
Proof.
  intros self s width features Hsized Hfs Hbs Hfp Hbp Hws Hwp Hflen Hblen Hslen Hblen'
    Hrange Hsin Hsam Hnpm Hhw Hlayers Hcrf Hacc Hhacc r.
  assert (0 <= seq_len) as Hseq by lia.
  assert (0 <= batch) as Hbatch by lia.
  assert (0 <= char_hidden_dim /\ 0 <= tagset_size) as [Hhid Htag]
    by (unfold well_sized in Hsized; lia).
  destruct (@char_level_on_documented_shapes _ tagset_size char_size char_dim char_hidden_dim
              char_rnn_layers embedding_dim word_hidden_dim word_rnn_layers vocab_size
              dropout_ratio file_num len_max_seq n_layers n_head d_k d_v large_CRF
              if_highway in_doc_words highway_layers true _ _ _ _ _ _ _ _
              Hfs Hbs Hfp Hbp Hflen Hblen Hseq Hbatch Hhid Hhw) as (Hchar & Hhigh & Hd).
  fold self in Hchar, Hhigh, Hd. fold s in Hchar, Hhigh, Hd.
  rename tagset_size into tags.
  assert (forall ts d, size (T_cat ts d) = or_scalar (cat_shape (map size ts) d)) as Hcat
    by reflexivity.
  assert (size (T_permute word_seq [1; 0]) = [batch; seq_len]) as Hperm.
  { rewrite size_permute, Hws. reflexivity. }
  assert (size (non_pad_mask_of word_seq word_dict) = non_pad_shape) as Hn.
  { unfold non_pad_mask_of. cbn [size]. cbn [size] in Hperm. rewrite Hperm, Hnpm.
    reflexivity. }
  assert (size (slf_attn_mask_of word_seq word_dict) = slf_attn_shape) as Hs.
  { unfold slf_attn_mask_of. cbn [size]. cbn [size] in Hperm. rewrite Hperm, Hsam.
    reflexivity. }
  assert (map size [dropped s (word_embedded s word_seq);
                    d_char_out_of s forw_sentence forw_position back_sentence back_position;
                    position_encoded s word_pos] =
          [[seq_len; batch; embedding_dim]; [seq_len; batch; 2 * char_hidden_dim];
           [seq_len; batch; embedding_dim]]) as Hparts.
  { cbn [map]. rewrite Hd. unfold dropped, word_embedded, position_encoded.
    rewrite size_dropout. constructed s self. unfold get_sinusoid_encoding_table.
    cbn [size]. rewrite Hws, Hwp, Hsin. reflexivity. }
  assert (size (attention_input s forw_sentence forw_position back_sentence back_position
                  word_seq word_pos) = [batch; seq_len; width]) as Hin.
  { unfold attention_input. rewrite size_permute, Hcat, Hparts, cat_three.
    cbn [or_scalar]. unfold width.
    replace (embedding_dim + (2 * char_hidden_dim + embedding_dim))
      with (embedding_dim * 2 + char_hidden_dim * 2) by lia.
    reflexivity. }
  assert (forall l, In l (layer_stack s) ->
            EncoderLayer_shape l [batch; seq_len; width]
              (size (non_pad_mask_of word_seq word_dict))
              (size (slf_attn_mask_of word_seq word_dict)) =
            Some [batch; seq_len; width]) as Hkeep.
  { rewrite Hn, Hs. exact Hlayers. }
  destruct (layers_keep_shape _ _ _ Hkeep _ Hin) as [Hfit_layers Hout].
  assert (size (word_level_of s forw_sentence forw_position back_sentence back_position
                  word_seq word_pos word_dict) = features) as Hfeats.
  { unfold word_level_of. change (word_level_attention s) with true. cbv iota.
    assert (forall l x, size (F_linear l x) = or_scalar (linear_shape l (size x))) as Hl
      by reflexivity.
    unfold attention_output. rewrite Hl, Hout.
    rewrite linear_fits by reflexivity. reflexivity. }
  assert (encoders_fit s forw_sentence forw_position back_sentence back_position word_seq
            word_pos word_dict = true) as Hfit.
  { unfold encoders_fit. rewrite Hchar, Hhigh. cbn [andb].
    unfold word_level_fits, attention_fits, embedding_fits. cbv zeta.
    change (word_level_attention s) with true. cbv iota.
    rewrite Hparts, Hfit_layers. unfold attention_output. rewrite Hout.
    rewrite Hcat, Hparts, cat_three. cbn [or_scalar].
    rewrite Hperm, Hsam, Hnpm, Hws.
    rewrite linear_fits by reflexivity.
    constructed s self. unfold get_sinusoid_encoding_table.
    cbn [size]. rewrite Hwp, Hsin. reflexivity. }
  assert (encoders_pass s forw_sentence forw_position back_sentence back_position word_seq
            word_pos word_dict = true) as Hpass.
  { unfold encoders_pass. rewrite Hfit, Hacc. reflexivity. }
  assert (0 <= file_no < Z.of_nat (length (crflist self))) as Hrange'.
  { unfold self. rewrite length_crflist. lia. }
  destruct (@getitem_in_range _ (crflist self) file_no Hrange') as (_ & head & Hnth & Hget).
  assert (view_shape [batch * seq_len; tags; tags]
            [batch_size s; word_seq_length s; tagset_size s; tagset_size s] =
          Some [batch; seq_len; tags; tags]) as Hview.
  { rewrite (Z.mul_comm batch). apply view_scores; assumption. }
  assert (head_fits s forw_sentence forw_position back_sentence back_position word_seq
            word_pos word_dict head = true) as Hhead.
  { unfold head_fits. cbv zeta.
    rewrite size_CRF_output, Hfeats, (Hcrf head (nth_error_In _ _ Hnth)).
    cbn [or_scalar fits andb]. rewrite Hview. reflexivity. }
  assert (head_passes s forw_sentence forw_position back_sentence back_position word_seq
            word_pos word_dict head = true) as Hheadp.
  { unfold head_passes. rewrite Hhead, (Hhacc head (nth_error_In _ _ Hnth)). reflexivity. }
  assert (size forw_position = seq_len :: batch :: []) as Hfp' by exact Hfp.
  unfold r.
  rewrite (@forward_fit_run _ _ _ _ _ _ _ _ file_no hidden self _ _ _ Hfp' Hpass).
  rewrite Hget. fold s. rewrite Hheadp.
  eexists _, _. rewrite result_of_triple, calls_of_triple.
  split; [reflexivity|]. split; [|split].
  - unfold crf_scores_of.
    rewrite size_permute, size_view, size_CRF_output, Hfeats,
      (Hcrf head (nth_error_In _ _ Hnth)).
    cbn [or_scalar]. rewrite Hview. reflexivity.
  - unfold forward_calls_of. apply last_last.
  - exact Hfeats.
Qed.

End Attention.

(** ** What a returning call says about its inputs *)

Lemma embedding_shape_Some (idx w shape : list Z) :
  embedding_shape idx w = Some shape ->
  exists n d, w = [n; d] /\ shape = idx ++ [d].
Proof.
  unfold embedding_shape. destruct w as [|n [|d [|? ?]]]; try discriminate.
  intros [= <-]. eauto.
Qed.

Lemma lstm_shape_Some (l : LSTM) (s shape : list Z) :
  lstm_shape l s = Some shape ->
  length shape = length s /\ (length s = 2 \/ length s = 3)%nat /\
  last shape 0 = hidden_size l * num_directions l.
Proof.
  unfold lstm_shape. destruct s as [|len [|batch [|inp [|? ?]]]]; try discriminate.
  - destruct (_ && _); [|discriminate]. intros [= <-]. cbn. lia.
  - destruct (_ && _); [|discriminate]. intros [= <-]. cbn. lia.
Qed.








Section Contract.

Context {absent : Absent}.





End Contract.

Section Widths.

Context {absent : Absent}.

(** X13.  On a model built by [__init__] without attention, the features
    that a returning [forward] hands to the CRF head have width
    [2 * (word_hidden_dim // 2)], that is [word_hidden_dim] less its parity,
    while the head was constructed for width [word_hidden_dim]: the two
    agree exactly when [word_hidden_dim] is even. *)
Theorem word_lstm_feature_width
  (tagset_size char_size char_dim char_hidden_dim char_rnn_layers embedding_dim
   word_hidden_dim word_rnn_layers vocab_size : Z) (dropout_ratio : ratio)
  (file_num len_max_seq n_layers n_head d_k d_v : Z) (large_CRF if_highway : bool)
  (in_doc_words highway_layers : Z)
  (forw_sentence forw_position back_sentence back_position word_seq word_pos : Tensor)
  (word_dict : Dict) (file_no : Z) (hidden : option (Tensor * Tensor)) (out : Tensor) :
  let self :=
    __init__ tagset_size char_size char_dim char_hidden_dim char_rnn_layers
      embedding_dim word_hidden_dim word_rnn_layers vocab_size dropout_ratio
      file_num len_max_seq n_layers n_head d_k d_v large_CRF if_highway
      in_doc_words highway_layers false in
  let r :=
    forward forw_sentence forw_position back_sentence back_position word_seq word_pos
      word_dict file_no hidden self in
  result_of r = Ok out ->
  exists i head feats,
    last (calls_of r) (made (Attr "none") []) = made (Item "crflist" i) [feats] /\
    nth_error (crflist self) i = Some head /\
    CRF_hidden_dim head = word_hidden_dim /\
    last (size feats) 0 = word_hidden_dim - word_hidden_dim mod 2 /\
    (last (size feats) 0 = word_hidden_dim <-> word_hidden_dim mod 2 = 0).
Proof.
  intros self r Hok. unfold r in Hok.
  destruct (@forward_returns _ _ _ _ _ _ _ _ _ _ _ _ Hok)
    as (head & Hget & _ & Hcalls & _).
  destruct (@forward_returns_fit _ _ _ _ _ _ _ _ _ _ _ _ Hok) as (Hfit & _).
  apply encoders_pass_fit in Hfit. destruct Hfit as [Hfit _].
  fold r in Hget, Hcalls, Hfit. set (s := self_after r) in *.
  assert (crflist s = crflist self) as Hcrf by (apply (forward_keeps crflist); reflexivity).
  assert (word_lstm s = word_lstm self) as Hlstm
    by (apply (forward_keeps word_lstm); reflexivity).
  assert (word_level_attention s = false) as Hatt
    by (apply (forward_keeps word_level_attention); reflexivity).
  apply getitem_Ok in Hget. destruct Hget as [_ Hnth]. rewrite Hcrf in Hnth.
  exists (index_of (crflist self) file_no), head.
  exists (word_level_of s forw_sentence forw_position back_sentence back_position
            word_seq word_pos word_dict).
  split; [rewrite Hcalls, Hcrf; unfold forward_calls_of; apply last_last|].
  split; [exact Hnth|].
  assert (CRF_hidden_dim head = word_hidden_dim) as Hhid.
  { unfold self in Hnth. rewrite init_crflist, nth_error_map in Hnth.
    destruct (nth_error (range file_num) _); [|discriminate].
    cbn [option_map] in Hnth. injection Hnth as <-. destruct large_CRF; reflexivity. }
  split; [exact Hhid|].
  assert (last (size (word_level_of s forw_sentence forw_position back_sentence
                        back_position word_seq word_pos word_dict)) 0 =
          word_hidden_dim / 2 * 2) as Hlast.
  { unfold encoders_fit, word_level_fits in Hfit. rewrite Hatt in Hfit.
    apply andb_prop in Hfit. destruct Hfit as [_ Hfit].
    apply andb_prop in Hfit. destruct Hfit as [_ Hfit].
    unfold recurrent_fits in Hfit. cbv zeta in Hfit.
    apply andb_prop in Hfit. destruct Hfit as [_ Hfit].
    apply fits_Some in Hfit. destruct Hfit as [shape Hfit].
    unfold word_level_of. rewrite Hatt. unfold dropped. rewrite size_dropout.
    assert (forall l x, size (LSTM_output l x) = or_scalar (lstm_shape l (size x))) as Hl
      by reflexivity.
    rewrite Hl, Hfit. cbn [or_scalar].
    apply lstm_shape_Some in Hfit. destruct Hfit as (_ & _ & ->).
    rewrite Hlstm. reflexivity. }
  rewrite Hlast.
  pose proof (Z.div_mod word_hidden_dim 2 ltac:(lia)) as Hdiv.
  split; [lia|]. split; lia.
Qed.

(** X14.  After a successful [load_pretrained_word_embedding], a call of
    [forward] that returns has looked the words up in the loaded tensor,
    which then is a matrix with [word_dim] columns, and the loaded parameter
    is still in place afterwards. *)
Theorem load_pretrained_then_forward
  (pre_word_embeddings : Tensor)
  (forw_sentence forw_position back_sentence back_position word_seq word_pos : Tensor)
  (word_dict : Dict) (file_no : Z) (hidden : option (Tensor * Tensor))
  (self : LM_LSTM_CRF) (out : Tensor) :
  let loading := load_pretrained_word_embedding pre_word_embeddings self in
  let r :=
    forward forw_sentence forw_position back_sentence back_position word_seq word_pos
      word_dict file_no hidden (self_after loading) in
  result_of loading = Ok tt ->
  result_of r = Ok out ->
  size pre_word_embeddings = [nth 0 (size pre_word_embeddings) 0; word_dim self] /\
  In (made (Attr "word_embeds") [word_seq]) (calls_of r) /\
  In (made (Attr "dropout") [F_embedding word_seq pre_word_embeddings]) (calls_of r) /\
  size (F_embedding word_seq pre_word_embeddings) = size word_seq ++ [word_dim self] /\
  word_embeds (self_after r) =
    {| weight := {| data := pre_word_embeddings; requires_grad := true |} |}.
Proof.
  intros loading r Hload Hok. unfold r in Hok.
  assert (exists d0 rest,
            size pre_word_embeddings = d0 :: word_dim self :: rest /\
            self_after loading =
              with_word_embeds
                {| weight := {| data := pre_word_embeddings; requires_grad := true |} |}
                self) as (d0 & rest & Hpre & Hself).
  { unfold loading in *. rewrite load_pretrained_run in *.
    destruct (size pre_word_embeddings) as [|d0 [|d1 rest]]; try discriminate Hload.
    cbn [nth_error] in *. destruct (Z.eqb_spec d1 (word_dim self)); [|discriminate Hload].
    destruct (can_require_grad pre_word_embeddings); [|discriminate Hload].
    subst d1. eauto. }
  destruct (@forward_returns _ _ _ _ _ _ _ _ _ _ _ _ Hok) as (head & _ & _ & Hcalls & _).
  destruct (@forward_returns_fit _ _ _ _ _ _ _ _ _ _ _ _ Hok) as (Hfit & _).
  apply encoders_pass_fit in Hfit. destruct Hfit as [Hfit _].
  fold r in Hcalls, Hfit. set (s := self_after r) in *.
  assert (word_embeds s =
          {| weight := {| data := pre_word_embeddings; requires_grad := true |} |}) as Hw.
  { unfold s, r. rewrite (forward_keeps word_embeds) by reflexivity.
    rewrite Hself. reflexivity. }
  unfold encoders_fit, word_level_fits, embedding_fits in Hfit.
  apply andb_prop in Hfit. destruct Hfit as [_ Hfit].
  apply andb_prop in Hfit. destruct Hfit as [Hfit _].
  rewrite Hw in Hfit. cbn [weight data] in Hfit.
  apply fits_Some in Hfit. destruct Hfit as [shape Hfit].
  assert (rest = []) as ->.
  { apply embedding_shape_Some in Hfit. destruct Hfit as (n & d & Hnd & _).
    rewrite Hpre in Hnd. injection Hnd as _ _ ->. reflexivity. }
  split; [rewrite Hpre; reflexivity|].
  assert (forall c, In c (word_level_calls s forw_sentence forw_position back_sentence
                            back_position word_seq word_pos word_dict) ->
                    In c (calls_of r)) as Hin.
  { intros c Hc. rewrite Hcalls. unfold forward_calls_of, encoder_calls.
    apply in_or_app. left. apply in_or_app. right. apply in_or_app. right. exact Hc. }
  split; [apply Hin; unfold word_level_calls; left; reflexivity|].
  split; [apply Hin; unfold word_level_calls, word_embedded; rewrite Hw; right; left;
          reflexivity|].
  split; [|exact Hw].
  cbn [size]. rewrite Hpre. reflexivity.
Qed.

End Widths.

(** ** The scorers on the shapes of the docstring *)

Lemma view_rows (S B H : Z) :
  0 < H -> view_shape [S; B; H] [-1; H] = Some [S * B; H].
Proof.
  intros HH. unfold view_shape.
  assert ((H =? -1) = false) as Hne by (apply Z.eqb_neq; lia).
  assert (forallb (fun d => -1 <=? d) [-1; H] = true) as ->.
  { cbn [forallb]. rewrite (proj2 (Z.leb_le (-1) H)) by lia. reflexivity. }
  assert (count_occ Z.eq_dec [-1; H] (-1) = 1%nat) as ->.
  { cbn [count_occ]. destruct (Z.eq_dec (-1) (-1)); [|contradiction].
    destruct (Z.eq_dec H (-1)); [lia | reflexivity]. }
  assert (filter (fun d => negb (d =? -1)) [-1; H] = [H]) as ->.
  { cbn [filter]. rewrite Hne. reflexivity. }
  cbn [numel fold_right map]. rewrite Hne.
  replace (S * (B * (H * 1))) with (S * B * (H * 1)) by ring.
  rewrite Z.mod_mul, Z.div_mul by lia.
  rewrite (proj2 (Z.ltb_lt 0 (H * 1))) by lia. reflexivity.
Qed.

Lemma linear_rows (l : Linear) (a c : Z) :
  c = in_features l -> linear_shape l [a; c] = Some [a; out_features l].
Proof. intros ->. unfold linear_shape. cbn. rewrite Z.eqb_refl. reflexivity. Qed.

Lemma lstm_state_fits (l : LSTM) (len batch inp : Z) :
  inp = input_size l -> 0 < len ->
  lstm_state_shape l [len; batch; inp] =
  Some [num_layers l * num_directions l; batch; hidden_size l].
Proof.
  intros -> Hlen. unfold lstm_state_shape. rewrite Z.eqb_refl.
  destruct (Z.ltb_spec 0 len); [reflexivity | lia].
Qed.

Section ScorerShapes.

Context {absent : Absent}.

Lemma lm_on_documented_shapes
  (tagset_size char_size char_dim char_hidden_dim char_rnn_layers embedding_dim
   word_hidden_dim word_rnn_layers vocab_size : Z) (dropout_ratio : ratio)
  (file_num len_max_seq n_layers n_head d_k d_v : Z) (large_CRF if_highway : bool)
  (in_doc_words highway_layers : Z) (word_level_attention : bool)
  (owner : attr) (h : option hw) (sentence position : Tensor)
  (char_len seq_len batch : Z) :
  let self :=
    __init__ tagset_size char_size char_dim char_hidden_dim char_rnn_layers
      embedding_dim word_hidden_dim word_rnn_layers vocab_size dropout_ratio
      file_num len_max_seq n_layers n_head d_k d_v large_CRF if_highway
      in_doc_words highway_layers word_level_attention in
  let l := nn_LSTM owner char_dim char_hidden_dim char_rnn_layers false dropout_ratio in
  size sentence = [char_len; batch] ->
  size position = [seq_len; batch] ->
  0 < char_len -> 0 <= seq_len -> 0 <= batch -> 0 < char_hidden_dim ->
  (if_highway = true ->
   exists block, h = Some block /\
     hw_shape block [seq_len * batch; char_hidden_dim] =
     Some [seq_len * batch; char_hidden_dim]) ->
  lm_fits self l h sentence position seq_len batch = true /\
  size (lm_score self l h sentence position seq_len batch) =
    [seq_len * batch; in_doc_words] /\
  size (fst (lm_hidden self l sentence)) = [char_rnn_layers; batch; char_hidden_dim] /\
  size (snd (lm_hidden self l sentence)) = [char_rnn_layers; batch; char_hidden_dim].
Proof.
  intros self l Hs Hp Hclen Hseq Hbatch Hhid Hhw.
  rename char_hidden_dim into hid. rename if_highway into highway.
  assert (size (dropped self (char_embedded self sentence)) = [char_len; batch; char_dim])
    as Hemb.
  { unfold dropped, char_embedded. rewrite size_dropout. unfold self.
    cbn [__init__ char_embeds nn_Embedding weight data size]. rewrite Hs. reflexivity. }
  assert (size (lm_d_lstm_out self l sentence position seq_len batch) =
          [seq_len * batch; hid]) as Hrows.
  { unfold lm_d_lstm_out, lm_states. rewrite size_view. unfold dropped at 1.
    rewrite size_dropout. cbn [size]. fold (size (dropped self (char_embedded self sentence))).
    rewrite Hemb, Hp.
    change (char_hidden_dim self) with hid.
    rewrite lstm_fits by first [reflexivity | assumption].
    change (unsqueeze_shape [seq_len; batch] 2) with (Some [seq_len; batch; 1]).
    cbn [or_scalar hidden_size l nn_LSTM num_directions bidirectional].
    rewrite Z.mul_1_r, expand_position by lia. cbn [or_scalar].
    rewrite gather_positions. cbn [or_scalar]. rewrite view_rows by assumption.
    reflexivity. }
  assert (size (lm_d_char_out self l h sentence position seq_len batch) =
          [seq_len * batch; hid] /\
          lm_highway_fits self l h sentence position seq_len batch = true) as [Hout Hhigh].
  { unfold lm_d_char_out, lm_highway_fits.
    change (if_highway self) with highway.
    destruct highway; [|split; [exact Hrows | reflexivity]].
    destruct (Hhw eq_refl) as (block & -> & Hblock).
    unfold dropped. rewrite size_dropout, size_hw_output, Hrows, Hblock.
    split; reflexivity. }
  split; [|split; [|split]].
  - unfold lm_fits. rewrite Hhigh, Hout. unfold embedding_fits.
    unfold lm_states. unfold dropped at 3. rewrite size_dropout.
    cbn [size]. fold (size (dropped self (char_embedded self sentence))).
    rewrite Hemb, Hp, Hs.
    change (char_hidden_dim self) with hid.
    rewrite lstm_fits by first [reflexivity | assumption].
    change (unsqueeze_shape [seq_len; batch] 2) with (Some [seq_len; batch; 1]).
    cbn [or_scalar hidden_size l nn_LSTM num_directions bidirectional fits andb].
    rewrite Z.mul_1_r, expand_position by lia. cbn [or_scalar fits andb].
    rewrite gather_positions. cbn [or_scalar fits andb]. rewrite view_rows by assumption.
    rewrite linear_rows by reflexivity. reflexivity.
  - unfold lm_score.
    assert (forall k x, size (F_linear k x) = or_scalar (linear_shape k (size x))) as Hl
      by reflexivity.
    rewrite Hl, Hout, linear_rows by reflexivity. reflexivity.
  - unfold lm_hidden. cbn [fst size].
    fold (size (dropped self (char_embedded self sentence))).
    rewrite Hemb, lstm_state_fits by first [reflexivity | assumption].
    cbn [or_scalar l nn_LSTM num_layers num_directions bidirectional hidden_size].
    rewrite Z.mul_1_r. reflexivity.
  - unfold lm_hidden. cbn [snd size].
    fold (size (dropped self (char_embedded self sentence))).
    rewrite Hemb, lstm_state_fits by first [reflexivity | assumption].
    cbn [or_scalar l nn_LSTM num_layers num_directions bidirectional hidden_size].
    rewrite Z.mul_1_r. reflexivity.
Qed.

End ScorerShapes.

Lemma same_outcome_bind {A B : Type} (m : M A) (f : A -> M B) (s1 s2 : LM_LSTM_CRF) :
  result_of (m s1) = result_of (m s2) /\ calls_of (m s1) = calls_of (m s2) ->
  (forall a s1' s2',
     result_of (f a s1') = result_of (f a s2') /\ calls_of (f a s1') = calls_of (f a s2')) ->
  result_of (bind m f s1) = result_of (bind m f s2) /\
  calls_of (bind m f s1) = calls_of (bind m f s2).
Proof.
  intros [Hr Hc] Hf. rewrite !bind_run, <- Hr, <- Hc.
  destruct (result_of (m s1)) as [a|e]; [|split; reflexivity].
  rewrite !result_of_after, !calls_of_after.
  destruct (Hf a (self_after (m s1)) (self_after (m s2))) as [-> ->]. split; reflexivity.
Qed.

(** Two runs of a computation that does not read the object differ in the
    object they thread only. *)
Ltac same_outcome :=
  repeat match goal with
         | |- result_of (bind _ _ _) = _ /\ _ =>
             apply same_outcome_bind; [|intros; cbv beta]
         | |- result_of ((if ?x then _ else _) _) = _ /\ _ => destruct x
         | |- result_of ((match ?x with _ => _ end) _) = _ /\ _ => destruct x
         | |- _ => split; reflexivity
         end.

Ltac scorer_fields :=
  cbn [char_embeds dropout forw_char_lstm back_char_lstm char_hidden_dim if_highway
       forw2word back2word word_pre_train_out].

Section ScorerTheorems.

Context {absent : Absent}.

Lemma scorer_forward_ignores_sizes sentence position hidden self self' :
  same_but_sizes self' self ->
  result_of (word_pre_train_forward sentence position hidden self') =
    result_of (word_pre_train_forward sentence position hidden self) /\
  calls_of (word_pre_train_forward sentence position hidden self') =
    calls_of (word_pre_train_forward sentence position hidden self).
Proof.
  intros Hsame. unfold same_but_sizes in Hsame.
  destruct self', self. cbn in Hsame.
  repeat match type of Hsame with
         | _ /\ _ => let E := fresh "E" in destruct Hsame as [E Hsame]; try subst
         end.
  subst. unfold word_pre_train_forward. rewrite !bind_get.
  scorer_fields.
  same_outcome.
Qed.

Lemma scorer_backward_ignores_sizes sentence position hidden self self' :
  same_but_sizes self' self ->
  result_of (word_pre_train_backward sentence position hidden self') =
    result_of (word_pre_train_backward sentence position hidden self) /\
  calls_of (word_pre_train_backward sentence position hidden self') =
    calls_of (word_pre_train_backward sentence position hidden self).
Proof.
  intros Hsame. unfold same_but_sizes in Hsame.
  destruct self', self. cbn in Hsame.
  repeat match type of Hsame with
         | _ /\ _ => let E := fresh "E" in destruct Hsame as [E Hsame]; try subst
         end.
  subst. unfold word_pre_train_backward. rewrite !bind_get.
  scorer_fields.
  same_outcome.
Qed.

(** X15.  The two language-model scorers leave [self] as it was, whether
    they return or raise, ignore their [hidden] argument, and neither read
    nor write the bookkeeping attributes: on two objects that differ in
    [batch_size] and [word_seq_length] only, and so before and after any
    call of [forward], they give the same result and make the same calls. *)
Theorem scorers_do_not_interfere
  (sentence position : Tensor) (hidden : option (Tensor * Tensor)) (self : LM_LSTM_CRF) :
  let scorers (s : LM_LSTM_CRF) :=
    (word_pre_train_forward sentence position hidden s,
     word_pre_train_backward sentence position hidden s) in
  self_after (fst (scorers self)) = self /\
  self_after (snd (scorers self)) = self /\
  (forall hidden',
     word_pre_train_forward sentence position hidden' self = fst (scorers self) /\
     word_pre_train_backward sentence position hidden' self = snd (scorers self)) /\
  (forall self',
     same_but_sizes self' self ->
     result_of (fst (scorers self')) = result_of (fst (scorers self)) /\
     calls_of (fst (scorers self')) = calls_of (fst (scorers self)) /\
     result_of (snd (scorers self')) = result_of (snd (scorers self)) /\
     calls_of (snd (scorers self')) = calls_of (snd (scorers self))) /\
  (forall forw_sentence forw_position back_sentence back_position word_seq word_pos
          word_dict file_no hidden',
     let after_forward :=
       self_after (forward forw_sentence forw_position back_sentence back_position
                     word_seq word_pos word_dict file_no hidden' self) in
     result_of (fst (scorers after_forward)) = result_of (fst (scorers self)) /\
     result_of (snd (scorers after_forward)) = result_of (snd (scorers self))).
Proof.
  intros scorers. subst scorers. cbn [fst snd].
  split; [exact (proj1 (word_pre_train_forward_prefix sentence position hidden self))|].
  split; [exact (proj1 (word_pre_train_backward_prefix sentence position hidden self))|].
  split; [intros hidden'; split; reflexivity|].
  split.
  - intros self' Hsame.
    destruct (scorer_forward_ignores_sizes sentence position hidden Hsame) as [-> ->].
    destruct (scorer_backward_ignores_sizes sentence position hidden Hsame) as [-> ->].
    repeat split.
  - intros fs fp bs bp ws wp dict file_no hidden'.
    pose proof (forward_frame fs fp bs bp ws wp dict file_no hidden' self) as Hsame.
    destruct (scorer_forward_ignores_sizes sentence position hidden Hsame) as [-> _].
    destruct (scorer_backward_ignores_sizes sentence position hidden Hsame) as [-> _].
    split; reflexivity.
Qed.


(** X17.  The scorers on the shapes of the docstring.  On a model built by
    [__init__] from arguments the constructors accept, with a non-empty
    [sentence] of shape [(char_len, batch)] and [position] of shape
    [(seq_len, batch)], both scorers return, provided every step accepts
    the contents it is given (the indices are in range) and the highway
    blocks (when there are any) keep the shape of their input: the score
    has one row per position and batch element, shape
    [(seq_len * batch, in_doc_words)], and the two components of the state
    have shape [(char_rnn_layers, batch, char_hidden_dim)]. *)
Theorem scorers_return_on_documented_shapes
  (tagset_size char_size char_dim char_hidden_dim char_rnn_layers embedding_dim
   word_hidden_dim word_rnn_layers vocab_size : Z) (dropout_ratio : ratio)
  (file_num len_max_seq n_layers n_head d_k d_v : Z) (large_CRF if_highway : bool)
  (in_doc_words highway_layers : Z) (word_level_attention : bool)
  (sentence position : Tensor) (hidden : option (Tensor * Tensor))
  (char_len seq_len batch : Z) :
  let self :=
    __init__ tagset_size char_size char_dim char_hidden_dim char_rnn_layers
      embedding_dim word_hidden_dim word_rnn_layers vocab_size dropout_ratio
      file_num len_max_seq n_layers n_head d_k d_v large_CRF if_highway
      in_doc_words highway_layers word_level_attention in
  let returns (r : run (Tensor * (Tensor * Tensor))) :=
    exists score h_n c_n,
      result_of r = Ok (score, (h_n, c_n)) /\
      size score = [seq_len * batch; in_doc_words] /\
      size h_n = [char_rnn_layers; batch; char_hidden_dim] /\
      size c_n = [char_rnn_layers; batch; char_hidden_dim] in
  well_sized tagset_size char_size char_dim char_hidden_dim char_rnn_layers embedding_dim
    word_hidden_dim word_rnn_layers vocab_size dropout_ratio file_num len_max_seq
    n_layers n_head d_k d_v in_doc_words highway_layers ->
  size sentence = [char_len; batch] ->
  size position = [seq_len; batch] ->
  0 < char_len -> 0 < seq_len -> 0 < batch ->
  (forall block, forw2word self = Some block \/ back2word self = Some block ->
     hw_shape block [seq_len * batch; char_hidden_dim] =
     Some [seq_len * batch; char_hidden_dim]) ->
  accepted (lm_terms self (forw_char_lstm self) (forw2word self) sentence position
              seq_len batch) = true ->
  accepted (lm_terms self (back_char_lstm self) (back2word self) sentence position
              seq_len batch) = true ->
  returns (word_pre_train_forward sentence position hidden self) /\
  returns (word_pre_train_backward sentence position hidden self).
Proof.
  intros self returns Hsized Hs Hp Hclen Hslen Hblen Hhw Haccf Haccb.
  assert (0 <= seq_len) as Hseq by lia.
  assert (0 <= batch) as Hbatch by lia.
  assert (0 < char_hidden_dim) as Hhid by (unfold well_sized in Hsized; lia).
  assert (size position = seq_len :: batch :: []) as Hp' by exact Hp.
  split.
  - assert (if_highway = true ->
            exists block, forw2word self = Some block /\
              hw_shape block [seq_len * batch; char_hidden_dim] =
              Some [seq_len * batch; char_hidden_dim]) as Hblock.
    { intros ->. eexists. split; [reflexivity|]. apply Hhw. left. reflexivity. }
    destruct (@lm_on_documented_shapes _ tagset_size char_size char_dim char_hidden_dim
                char_rnn_layers embedding_dim word_hidden_dim word_rnn_layers vocab_size
                dropout_ratio file_num len_max_seq n_layers n_head d_k d_v large_CRF
                if_highway in_doc_words highway_layers word_level_attention
                (Attr "forw_char_lstm") (forw2word self) sentence position
                char_len seq_len batch Hs Hp Hclen Hseq Hbatch Hhid Hblock)
      as (Hfit & Hscore & Hh & Hc).
    fold self in Hfit, Hscore, Hh, Hc.
    change (nn_LSTM (Attr "forw_char_lstm") char_dim char_hidden_dim char_rnn_layers false
              dropout_ratio) with (forw_char_lstm self) in Hfit, Hscore, Hh, Hc.
    unfold returns.
    assert (lm_passes self (forw_char_lstm self) (forw2word self) sentence position
              seq_len batch = true) as Hpass
      by (unfold lm_passes; rewrite Hfit, Haccf; reflexivity).
    rewrite (@word_pre_train_forward_fit_run _ sentence position hidden self _ _ _ Hp' Hpass).
    eexists _, _, _. split; [reflexivity|]. repeat split; assumption.
  - assert (if_highway = true ->
            exists block, back2word self = Some block /\
              hw_shape block [seq_len * batch; char_hidden_dim] =
              Some [seq_len * batch; char_hidden_dim]) as Hblock.
    { intros ->. eexists. split; [reflexivity|]. apply Hhw. right. reflexivity. }
    destruct (@lm_on_documented_shapes _ tagset_size char_size char_dim char_hidden_dim
                char_rnn_layers embedding_dim word_hidden_dim word_rnn_layers vocab_size
                dropout_ratio file_num len_max_seq n_layers n_head d_k d_v large_CRF
                if_highway in_doc_words highway_layers word_level_attention
                (Attr "back_char_lstm") (back2word self) sentence position
                char_len seq_len batch Hs Hp Hclen Hseq Hbatch Hhid Hblock)
      as (Hfit & Hscore & Hh & Hc).
    fold self in Hfit, Hscore, Hh, Hc.
    change (nn_LSTM (Attr "back_char_lstm") char_dim char_hidden_dim char_rnn_layers false
              dropout_ratio) with (back_char_lstm self) in Hfit, Hscore, Hh, Hc.
    unfold returns.
    assert (lm_passes self (back_char_lstm self) (back2word self) sentence position
              seq_len batch = true) as Hpass
      by (unfold lm_passes; rewrite Hfit, Haccb; reflexivity).
    rewrite (@word_pre_train_backward_fit_run _ sentence position hidden self _ _ _ Hp' Hpass).
    eexists _, _, _. split; [reflexivity|]. repeat split; assumption.
Qed.

End ScorerTheorems.

(** ** Missing highway attributes *)

Section AttributeErrors.

Context {absent : Absent}.

Lemma layers_run_raise (layers : list EncoderLayer) (npm sam : Tensor) :
  forall (k : nat) (x : Tensor) self e,
    result_of
      (for_each (combine (seq k (length layers)) layers)
         (fun i enc_layer enc_output =>
            call_EncoderLayer (Item "layer_stack" i) enc_layer enc_output npm sam)
         x self) = Raise e ->
    e = TorchError.
Proof.
  induction layers as [|l layers IH]; intros k x self e; [discriminate|].
  cbn [length seq combine for_each]. unfold call_EncoderLayer at 1.
  rewrite bind_call. unfold EncoderLayer_forward, checked.
  destruct (EncoderLayer_shape l (size x) (size npm) (size sam));
    [destruct (accepts (EncoderLayer_output l x npm sam))|].
  - rewrite result_of_after. apply IH.
  - intros [= <-]. reflexivity.
  - intros [= <-]. reflexivity.
Qed.

Lemma forward_attribute_error fs fp bs bp ws wp dict file_no hid self :
  result_of (forward fs fp bs bp ws wp dict file_no hid self) = Raise AttributeError ->
  if_highway self = true /\ fb2char self = None.
Proof.
  remember (forward fs fp bs bp ws wp dict file_no hid self) as r eqn:Hr. intros Hok.
  unfold forward in Hr. rewrite bind_run, set_batch_seq_size_run in Hr.
  destruct (item (size fp) 0) as [d0|e0] eqn:E0.
  2:{ subst r. cbv beta iota in Hok. rewrite ?result_of_triple in Hok.
      apply item_raises in E0. congruence. }
  destruct (item (size fp) 1) as [d1|e1] eqn:E1.
  2:{ subst r. cbv beta iota in Hok. rewrite ?result_of_triple in Hok.
      apply item_raises in E1. congruence. }
  rewrite result_of_triple, self_after_triple, calls_of_triple in Hr.
  change (if_highway self) with
    (if_highway (with_batch_size d1 (with_word_seq_length d0 self))).
  change (fb2char self) with (fb2char (with_batch_size d1 (with_word_seq_length d0 self))).
  remember (with_batch_size d1 (with_word_seq_length d0 self)) as s eqn:Hs. clear Hs.
  exec_unfold Hr. exec Hr.
  all: try (exec_loop Hr; exec Hr).
  all: unfold ret in Hr; rewrite Hr in Hok;
    rewrite ?result_of_after, ?result_of_triple in Hok.
  all: try discriminate Hok.
  all: try (split; first [assumption | reflexivity]).
  all: try match goal with
           | E : getitem _ _ = Raise ?e |- _ =>
               apply getitem_raises in E; destruct E as [-> _]; discriminate Hok
           end.
  all: try match goal with
           | Heqloop : (Raise ?e, _, _) = for_each _ _ _ _ |- _ =>
               symmetry in Heqloop; apply (f_equal (@result_of Tensor)) in Heqloop;
               rewrite result_of_triple in Heqloop;
               apply layers_run_raise in Heqloop; subst e; discriminate Hok
           end.
Qed.

Lemma scorer_forward_attribute_error sentence position hidden self :
  result_of (word_pre_train_forward sentence position hidden self) = Raise AttributeError ->
  if_highway self = true /\ forw2word self = None.
Proof.
  remember (word_pre_train_forward sentence position hidden self) as r eqn:Hr. intros Hok.
  unfold word_pre_train_forward in Hr. exec_unfold Hr. exec Hr.
  all: unfold ret in Hr; rewrite Hr in Hok;
    rewrite ?result_of_after, ?result_of_triple in Hok.
  all: try discriminate Hok.
  all: try (split; first [assumption | reflexivity]).
  all: match goal with
       | E : item _ _ = Raise ?e |- _ => apply item_raises in E; subst e; discriminate Hok
       end.
Qed.

Lemma scorer_backward_attribute_error sentence position hidden self :
  result_of (word_pre_train_backward sentence position hidden self) = Raise AttributeError ->
  if_highway self = true /\ back2word self = None.
Proof.
  remember (word_pre_train_backward sentence position hidden self) as r eqn:Hr. intros Hok.
  unfold word_pre_train_backward in Hr. exec_unfold Hr. exec Hr.
  all: unfold ret in Hr; rewrite Hr in Hok;
    rewrite ?result_of_after, ?result_of_triple in Hok.
  all: try discriminate Hok.
  all: try (split; first [assumption | reflexivity]).
  all: match goal with
       | E : item _ _ = Raise ?e |- _ => apply item_raises in E; subst e; discriminate Hok
       end.
Qed.

End AttributeErrors.

Lemma highway_attrs_same (a b : LM_LSTM_CRF) :
  if_highway a = if_highway b -> forw2char a = forw2char b ->
  back2char a = back2char b -> forw2word a = forw2word b ->
  back2word a = back2word b -> fb2char a = fb2char b ->
  highway_attrs_present b -> highway_attrs_present a.
Proof.
  unfold highway_attrs_present. intros -> -> -> -> -> ->. exact (fun H => H).
Qed.

Section Invariant.

Context {absent : Absent}.

Lemma rand_init_present (init_char_embedding init_word_embedding : bool) self :
  highway_attrs_present self ->
  result_of (rand_init init_char_embedding init_word_embedding self) = Ok tt /\
  highway_attrs_present
    (self_after (rand_init init_char_embedding init_word_embedding self)).
Proof.
  unfold highway_attrs_present. open_self self. intros Hp.
  destruct hwy.
  - destruct (Hp eq_refl) as (H1 & H2 & H3 & H4 & H5).
    destruct f2c, b2c, f2w, b2w, fb2c; try congruence.
    destruct init_char_embedding, init_word_embedding;
      (split; [reflexivity|]); intros _; cbn; repeat split; discriminate.
  - destruct init_char_embedding, init_word_embedding;
      (split; [reflexivity|]); cbn; intros E; discriminate E.
Qed.

(** X6.  The highway attributes exist whenever [if_highway] is set on every
    object built by [__init__], and every method keeps it so.  On such an
    object [rand_init] returns, and neither [forward] nor the scorers fail
    on reading a highway attribute. *)
Theorem highway_attributes_invariant :
  (forall tagset_size char_size char_dim char_hidden_dim char_rnn_layers embedding_dim
          word_hidden_dim word_rnn_layers vocab_size dropout_ratio file_num len_max_seq
          n_layers n_head d_k d_v large_CRF if_highway in_doc_words highway_layers
          word_level_attention,
     highway_attrs_present
       (__init__ tagset_size char_size char_dim char_hidden_dim char_rnn_layers
          embedding_dim word_hidden_dim word_rnn_layers vocab_size dropout_ratio
          file_num len_max_seq n_layers n_head d_k d_v large_CRF if_highway
          in_doc_words highway_layers word_level_attention)) /\
  (forall self,
     highway_attrs_present self ->
     (forall bsize, highway_attrs_present (self_after (set_batch_size bsize self))) /\
     (forall sentence,
        highway_attrs_present (self_after (set_batch_seq_size sentence self))) /\
     highway_attrs_present (self_after (rand_init_embedding self)) /\
     (forall pre_word_embeddings,
        highway_attrs_present
          (self_after (load_pretrained_word_embedding pre_word_embeddings self))) /\
     (forall init_char_embedding init_word_embedding,
        let r := rand_init init_char_embedding init_word_embedding self in
        result_of r = Ok tt /\ highway_attrs_present (self_after r)) /\
     (forall forw_sentence forw_position back_sentence back_position word_seq word_pos
             word_dict file_no hidden,
        let r :=
          forward forw_sentence forw_position back_sentence back_position word_seq
            word_pos word_dict file_no hidden self in
        result_of r <> Raise AttributeError /\ highway_attrs_present (self_after r)) /\
     (forall sentence position hidden,
        let rf := word_pre_train_forward sentence position hidden self in
        let rb := word_pre_train_backward sentence position hidden self in
        result_of rf <> Raise AttributeError /\ self_after rf = self /\
        result_of rb <> Raise AttributeError /\ self_after rb = self)).
Proof.
  split.
  - intros. unfold highway_attrs_present, __init__. cbn.
    intros ->. repeat split; discriminate.
  - intros self Hp.
    split; [intros bsize; exact Hp|].
    split.
    { intros sentence. refine (highway_attrs_same _ _ _ _ _ _ _ Hp);
        match goal with
        | |- ?f (self_after _) = _ => apply (set_batch_seq_size_keeps f); reflexivity
        end. }
    split; [exact Hp|].
    split.
    { intros pre. rewrite load_pretrained_run.
      destruct (nth_error (size pre) 1) as [d|]; [|exact Hp].
      destruct (d =? word_dim self); [|exact Hp].
      destruct (can_require_grad pre); exact Hp. }
    split; [intros a b r; apply rand_init_present; exact Hp|].
    split.
    { intros fs fp bs bp ws wp dict file_no hidden r. split.
      - intros Herr. apply forward_attribute_error in Herr. destruct Herr as [Hflag Hnone].
        destruct (Hp Hflag) as (_ & _ & _ & _ & H5). congruence.
      - refine (highway_attrs_same _ _ _ _ _ _ _ Hp);
          match goal with
          | |- ?f (self_after _) = _ => apply (forward_keeps f); reflexivity
          end. }
    intros sentence position hidden rf rb.
    split; [|split; [|split]].
    + intros Herr. apply scorer_forward_attribute_error in Herr.
      destruct Herr as [Hflag Hnone]. destruct (Hp Hflag) as (_ & _ & H3 & _). congruence.
    + exact (proj1 (word_pre_train_forward_prefix sentence position hidden self)).
    + intros Herr. apply scorer_backward_attribute_error in Herr.
      destruct Herr as [Hflag Hnone]. destruct (Hp Hflag) as (_ & _ & _ & H4 & _). congruence.
    + exact (proj1 (word_pre_train_backward_prefix sentence position hidden self)).
Qed.

End Invariant.

(** ** The model run on examples *)

(** The example model returns on the example inputs in all four
    configurations, and the last call names the head asked for. *)
Example forward_runs_on_examples :
  forall if_highway word_level_attention : bool,
    exists out,
      result_of (example_forward if_highway word_level_attention 1) = Ok out /\
      size out = [4; 2; 3; 3] /\
      last (map callee (calls_of (example_forward if_highway word_level_attention 1)))
        (Attr "none") = Item "crflist" 1.
Proof.
  intros [|] [|]; eexists; (split; [vm_compute; reflexivity|]);
    split; vm_compute; reflexivity.
Qed.

(** The two heads of the example model give different results. *)
Example heads_differ :
  result_of (example_forward false false 0) <> result_of (example_forward false false 1).
Proof. vm_compute. intros [=]. Qed.

(** A corpus index out of range is an [IndexError], raised after the
    encoders have run. *)
Example corpus_out_of_range :
  result_of (example_forward false false 2) = Raise IndexError /\
  map callee (calls_of (example_forward false false 2)) =
  [Attr "char_embeds"; Attr "char_embeds"; Attr "dropout"; Attr "dropout";
   Attr "forw_char_lstm"; Attr "back_char_lstm"; Attr "dropout";
   Attr "word_embeds"; Attr "dropout"; Attr "word_lstm"; Attr "dropout"].
Proof. split; vm_compute; reflexivity. Qed.

(** A negative corpus index counts from the end, as for any Python list. *)
Example corpus_from_the_end :
  result_of (example_forward false false (-1)) = result_of (example_forward false false 1).
Proof. vm_compute. reflexivity. Qed.

(** On a one-dimensional [forw_position], [forward] raises [IndexError]
    having overwritten [word_seq_length] and not [batch_size]. *)
Example forward_on_a_vector :
  let r :=
    forward forw_sentence0 (Input "forw_position" [4]) back_sentence0 back_position0
      word_seq0 word_pos0 [] 0 None (example_model false false) in
  result_of r = Raise IndexError /\
  word_seq_length (self_after r) = 4 /\ batch_size (self_after r) = 1.
Proof. repeat split; vm_compute; reflexivity. Qed.

(** The scorers return on the example model: seven words in the document
    vocabulary, eight positions. *)
Example scorers_run_on_examples :
  forall if_highway : bool,
    (exists score hid,
       result_of (word_pre_train_forward forw_sentence0 forw_position0 None
                    (example_model if_highway false)) = Ok (score, hid) /\
       size score = [8; 7]) /\
    (exists score hid,
       result_of (word_pre_train_backward back_sentence0 back_position0 None
                    (example_model if_highway false)) = Ok (score, hid) /\
       size score = [8; 7]).
Proof.
  intros [|]; split; eexists; eexists; (split; [vm_compute; reflexivity|]);
    vm_compute; reflexivity.
Qed.

(** A table with more rows than the vocabulary is accepted; one with the
    wrong width is not, nor is a vector, nor is a tensor of the right
    shape that [nn.Parameter] refuses. *)
Example load_pretrained_examples :
  let self := example_model false false in
  result_of (load_pretrained_word_embedding (Input "glove" [100; 6]) self) = Ok tt /\
  result_of (load_pretrained_word_embedding (Input "glove" [30; 5]) self) =
    Raise AssertionError /\
  result_of (load_pretrained_word_embedding (Input "glove" [6]) self) = Raise IndexError /\
  result_of (load_pretrained_word_embedding (Input "word_ids" [30; 6]) self) =
    Raise TorchError.
Proof. repeat split; vm_compute; reflexivity. Qed.

(** An empty sentence is refused by the character LSTM, after the
    embedding and the dropout before it. *)
Example forward_on_an_empty_sentence :
  let r :=
    forward (Input "forw_sentence" [0; 2]) forw_position0 back_sentence0 back_position0
      word_seq0 word_pos0 [] 0 None (example_model false false) in
  result_of r = Raise TorchError /\
  last (map callee (calls_of r)) (Attr "none") = Attr "forw_char_lstm".
Proof. split; vm_compute; reflexivity. Qed.

(** The arguments of the example model are ones the constructors of torch
    accept. *)
Lemma example_well_sized : well_sized 3 20 4 5 1 6 8 1 30 (1 # 2) 2 10 2 2 4 4 7 1.
Proof.
  unfold well_sized.
  repeat match goal with |- _ /\ _ => split end;
    first [lia | vm_compute; discriminate | vm_compute; reflexivity].
Qed.

(** C1 at the example model: with [file_no = 1] the second of its two
    heads is applied to the encoder output, and the call returns. *)
Lemma crf_head_per_corpus_witness :
  let r := example_forward false false 1 in
  let s := with_batch_size 2 (with_word_seq_length 4 (example_model false false)) in
  exists head,
    nth_error (crflist (example_model false false)) 1 = Some head /\
    calls_of r =
      encoder_calls s forw_sentence0 forw_position0 back_sentence0 back_position0
        word_seq0 word_pos0 [] ++
      [made (Item "crflist" 1)
         [word_level_of s forw_sentence0 forw_position0 back_sentence0 back_position0
            word_seq0 word_pos0 []]] /\
    result_of r =
      Ok (crf_scores_of s forw_sentence0 forw_position0 back_sentence0 back_position0
            word_seq0 word_pos0 [] head).
Proof.
  destruct (proj2 (proj2 (@crf_head_per_corpus example_shapes)) forw_sentence0
              forw_position0 back_sentence0 back_position0 word_seq0 word_pos0 [] None
              (example_model false false) 1 4 2 [] eq_refl
              ltac:(vm_compute; split; [discriminate | reflexivity])
              ltac:(vm_compute; reflexivity))
    as (head & Hnth & Hcalls & Hres).
  exists head. split; [exact Hnth|]. split; [exact Hcalls|].
  refine (eq_trans Hres _). vm_compute in Hnth. injection Hnth as <-.
  vm_compute. reflexivity.
Defined.

(** C3 at the example model with attention: the call returns, having run
    the position encoding and [fc] and not the word LSTM. *)
Lemma word_level_branches_witness :
  let r := example_forward true true 1 in
  (exists out, result_of r = Ok out) /\
  called "word_lstm" (calls_of r) = false /\
  called "position_enc" (calls_of r) = true /\
  called "fc" (calls_of r) = true.
Proof.
  destruct (proj1 (@word_level_branches example_shapes) forw_sentence0 forw_position0
              back_sentence0 back_position0 word_seq0 word_pos0 [] 1 None
              (example_model true true)) as (_ & _ & H).
  destruct (H 4 2 [] 1%nat (CRF_L 8 3 (Fresh (Item "crflist" 1))) eq_refl
              ltac:(vm_compute; reflexivity) ltac:(vm_compute; reflexivity)
              ltac:(vm_compute; reflexivity))
    as (Hres & _ & H1 & H2 & H3).
  split; [eexists; exact Hres|]. split; [exact H1|]. split; [exact H2 | exact H3].
Defined.

(** [rand_init] returns on the example model with highway blocks, and
    raises when the flag is set on an object that has none. *)
Example rand_init_examples :
  result_of (rand_init true false (example_model true false)) = Ok tt /\
  highway_attrs_present (example_model true false) /\
  result_of (rand_init true false
               (with_fb2char None (example_model true false))) = Raise AttributeError.
Proof.
  split; [vm_compute; reflexivity|]. split; [|vm_compute; reflexivity].
  intros _. repeat split; discriminate.
Qed.

(** C5 at the example model with attention: both layers are called, one
    after the other, with the two masks. *)
Lemma masks_shared_by_layers_witness :
  let r := example_forward true true 1 in
  let non_pad := non_pad_mask (T_permute word_seq0 [1; 0]) [] in
  let slf_attn :=
    attn_key_pad_mask (T_permute word_seq0 [1; 0]) (T_permute word_seq0 [1; 0]) [] in
  exists enc_input,
    filter (fun c => is_item "layer_stack" (callee c)) (calls_of r) =
    layer_calls 0 (layer_stack (example_model true true)) enc_input non_pad slf_attn /\
    length (layer_stack (example_model true true)) = 2%nat.
Proof.
  destruct (@masks_shared_by_layers example_shapes forw_sentence0 forw_position0
              back_sentence0 back_position0 word_seq0 word_pos0 [] 1 None
              (example_model true true) eq_refl) as (_ & _ & H).
  destruct (H 4 2 [] eq_refl ltac:(vm_compute; reflexivity))
    as (_ & _ & enc_input & Hcalls).
  exists enc_input. split; [exact Hcalls | reflexivity].
Defined.

(** C6 at the example model: [forward] calls [fb2char] with the flag and
    not without it, and the scorers call their blocks with it. *)
Lemma highway_iff_if_highway_witness :
  called "fb2char" (calls_of (example_forward true false 1)) = true /\
  called "fb2char" (calls_of (example_forward false false 1)) = false /\
  called "forw2word"
    (calls_of (word_pre_train_forward forw_sentence0 forw_position0 None
                 (example_model true false))) = true /\
  called "back2word"
    (calls_of (word_pre_train_backward back_sentence0 back_position0 None
                 (example_model true false))) = true.
Proof.
  destruct (@highway_iff_if_highway example_shapes) as (_ & _ & _ & _ & Hf & Hs & Hb).
  split; [|split; [|split]].
  - exact (proj1 (Hf forw_sentence0 forw_position0 back_sentence0 back_position0
                    word_seq0 word_pos0 [] 1 None (example_model true false) 4 2 []
                    eq_refl ltac:(vm_compute; reflexivity))).
  - exact (proj1 (Hf forw_sentence0 forw_position0 back_sentence0 back_position0
                    word_seq0 word_pos0 [] 1 None (example_model false false) 4 2 []
                    eq_refl ltac:(vm_compute; reflexivity))).
  - exact (proj1 (Hs forw_sentence0 forw_position0 None (example_model true false) 4 2 []
                    eq_refl ltac:(vm_compute; reflexivity))).
  - exact (proj1 (Hb back_sentence0 back_position0 None (example_model true false) 4 2 []
                    eq_refl ltac:(vm_compute; reflexivity))).
Defined.

(** C7 at the example model: both scorers return a score of width
    [in_doc_words = 7]. *)
Lemma language_model_scorers_witness :
  (exists score hid,
     result_of (word_pre_train_forward forw_sentence0 forw_position0 None
                  (example_model false false)) = Ok (score, hid) /\
     last (size score) 0 = 7) /\
  (exists score hid,
     result_of (word_pre_train_backward back_sentence0 back_position0 None
                  (example_model false false)) = Ok (score, hid) /\
     last (size score) 0 = 7).
Proof.
  destruct (@language_model_scorers example_shapes) as (_ & _ & _ & Hf & Hb).
  split.
  - destruct (Hf forw_sentence0 forw_position0 None (example_model false false) 4 2 []
                eq_refl ltac:(vm_compute; reflexivity)) as (Hres & Hlast & _).
    eexists _, _. split; [exact Hres | exact Hlast].
  - destruct (Hb back_sentence0 back_position0 None (example_model false false) 4 2 []
                eq_refl ltac:(vm_compute; reflexivity)) as (Hres & Hlast & _).
    eexists _, _. split; [exact Hres | exact Hlast].
Defined.

(** C9 at the example model, whose bookkeeping attributes start at one. *)
Lemma forward_overwrites_batch_seq_size_witness :
  let self := example_model false false in
  (word_seq_length self = 1 /\ batch_size self = 1) /\
  word_seq_length (self_after (example_forward false false 0)) = 4 /\
  batch_size (self_after (example_forward false false 0)) = 2.
Proof.
  split; [split; reflexivity|].
  exact (proj1 (@forward_overwrites_batch_seq_size example_shapes forw_sentence0
                  forw_position0 back_sentence0 back_position0 word_seq0 word_pos0 []
                  0 None (example_model false false) 4 2 [] eq_refl)).
Defined.

(** X2 at the example model, after [set_batch_size(7)]. *)
Lemma forward_ignores_bookkeeping_witness :
  forward forw_sentence0 forw_position0 back_sentence0 back_position0 word_seq0 word_pos0
    [] 0 None (self_after (set_batch_size 7 (example_model false false))) =
  example_forward false false 0.
Proof.
  refine (proj2 (proj2 (@forward_ignores_bookkeeping example_shapes forw_sentence0
                          forw_position0 back_sentence0 back_position0 word_seq0 word_pos0
                          [] 0 None (example_model false false)
                          (self_after (set_batch_size 7 (example_model false false))) _)) _).
  - unfold same_but_sizes. repeat split; reflexivity.
  - vm_compute. lia.
Defined.

(** X8 at the example model, which has two heads, with [file_no = 2]. *)
Lemma forward_file_no_out_of_range_witness :
  result_of (example_forward false false 2) = Raise IndexError.
Proof.
  refine (proj1 (proj2 (proj2 (@forward_file_no_out_of_range example_shapes forw_sentence0
                                 forw_position0 back_sentence0 back_position0 word_seq0
                                 word_pos0 [] 2 None (example_model false false) _))
                   4 2 [] eq_refl _)).
  - right. vm_compute. discriminate.
  - vm_compute. reflexivity.
Defined.

(** X9 at the example model: [file_no = -1] is the last head. *)
Lemma forward_file_no_from_the_end_witness :
  example_forward true false (-1) = example_forward true false 1.
Proof.
  refine (@forward_file_no_from_the_end example_shapes forw_sentence0 forw_position0
            back_sentence0 back_position0 word_seq0 word_pos0 [] (-1) None
            (example_model true false) _).
  vm_compute. split; [discriminate | reflexivity].
Defined.

(** X10 at the example model with highway blocks. *)
Lemma forward_returns_on_documented_shapes_witness :
  exists out feats,
    result_of (example_forward true false 1) = Ok out /\
    size out = [4; 2; 3; 3] /\
    last (calls_of (example_forward true false 1)) (made (Attr "none") []) =
      made (Item "crflist" 1) [feats] /\
    size feats = [4; 2; 8].
Proof.
  refine (@forward_returns_on_documented_shapes example_shapes 3 20 4 5 1 6 8 1 30 (1 # 2)
            2 10 2 2 4 4 true true 7 1 forw_sentence0 forw_position0 back_sentence0
            back_position0 word_seq0 word_pos0 [] 1 None 9 9 4 2
            example_well_sized eq_refl eq_refl eq_refl eq_refl eq_refl
            _ _ _ _ _ _ _ _ _); try lia.
  - intros h H. vm_compute in H. injection H as <-. reflexivity.
  - intros head H. vm_compute in H. destruct H as [<-|[<-|[]]]; reflexivity.
  - vm_compute. reflexivity.
  - intros head H. vm_compute in H. destruct H as [<-|[<-|[]]]; vm_compute; reflexivity.
Defined.

(** X11 at the example model with highway blocks and attention. *)
Lemma forward_attention_on_documented_shapes_witness :
  exists out feats,
    result_of (example_forward true true 0) = Ok out /\
    size out = [4; 2; 3; 3] /\
    last (calls_of (example_forward true true 0)) (made (Attr "none") []) =
      made (Item "crflist" 0) [feats] /\
    size feats = [2; 4; 8].
Proof.
  refine (@forward_attention_on_documented_shapes example_shapes 3 20 4 5 1 6 8 1 30
            (1 # 2) 2 10 2 2 4 4 true true 7 1 forw_sentence0 forw_position0
            back_sentence0 back_position0 word_seq0 word_pos0 [] 0 None 9 9 4 2
            [2; 4; 4] [2; 4; 1]
            example_well_sized eq_refl eq_refl eq_refl eq_refl eq_refl eq_refl
            _ _ _ _ _ eq_refl eq_refl eq_refl _ _ _ _ _); try lia.
  - intros h H. vm_compute in H. injection H as <-. reflexivity.
  - intros l H. vm_compute in H. destruct H as [<-|[<-|[]]]; reflexivity.
  - intros head H. vm_compute in H. destruct H as [<-|[<-|[]]]; reflexivity.
  - vm_compute. reflexivity.
  - intros head H. vm_compute in H. destruct H as [<-|[<-|[]]]; vm_compute; reflexivity.
Defined.


(** X13 at the example model, whose [word_hidden_dim] is even. *)
Lemma word_lstm_feature_width_witness :
  exists i head feats,
    last (calls_of (example_forward false false 0)) (made (Attr "none") []) =
      made (Item "crflist" i) [feats] /\
    nth_error (crflist (example_model false false)) i = Some head /\
    CRF_hidden_dim head = 8 /\
    last (size feats) 0 = 8 - 8 mod 2 /\
    (last (size feats) 0 = 8 <-> 8 mod 2 = 0).
Proof.
  refine (@word_lstm_feature_width example_shapes 3 20 4 5 1 6 8 1 30 (1 # 2)
            2 10 2 2 4 4 true false 7 1 forw_sentence0 forw_position0 back_sentence0
            back_position0 word_seq0 word_pos0 [] 0 None
            (crf_scores_of
               (self_after (example_forward false false 0))
               forw_sentence0 forw_position0 back_sentence0 back_position0 word_seq0
               word_pos0 []
               (CRF_L 8 3 (Fresh (Item "crflist" 0)))) _).
  vm_compute. reflexivity.
Defined.

(** X14 at the example model, loading a table of its own size. *)
Lemma load_pretrained_then_forward_witness :
  let loaded :=
    self_after (load_pretrained_word_embedding pre_word_embeddings0
                  (example_model false false)) in
  let r :=
    forward forw_sentence0 forw_position0 back_sentence0 back_position0 word_seq0
      word_pos0 [] 0 None loaded in
  size pre_word_embeddings0 = [30; 6] /\
  In (made (Attr "word_embeds") [word_seq0]) (calls_of r) /\
  In (made (Attr "dropout") [F_embedding word_seq0 pre_word_embeddings0]) (calls_of r) /\
  size (F_embedding word_seq0 pre_word_embeddings0) = [4; 2; 6] /\
  word_embeds (self_after r) =
    {| weight := {| data := pre_word_embeddings0; requires_grad := true |} |}.
Proof.
  refine (@load_pretrained_then_forward example_shapes pre_word_embeddings0 forw_sentence0
            forw_position0 back_sentence0 back_position0 word_seq0 word_pos0 [] 0 None
            (example_model false false)
            (crf_scores_of
               (self_after
                  (forward forw_sentence0 forw_position0 back_sentence0 back_position0
                     word_seq0 word_pos0 [] 0 None
                     (self_after (load_pretrained_word_embedding pre_word_embeddings0
                                    (example_model false false)))))
               forw_sentence0 forw_position0 back_sentence0 back_position0 word_seq0
               word_pos0 []
               (CRF_L 8 3 (Fresh (Item "crflist" 0)))) eq_refl _).
  vm_compute. reflexivity.
Defined.

(** X17 at the example model with highway blocks. *)
Lemma scorers_return_on_documented_shapes_witness :
  (exists score h_n c_n,
     result_of (word_pre_train_forward forw_sentence0 forw_position0 None
                  (example_model true false)) = Ok (score, (h_n, c_n)) /\
     size score = [8; 7] /\ size h_n = [1; 2; 5] /\ size c_n = [1; 2; 5]) /\
  (exists score h_n c_n,
     result_of (word_pre_train_backward forw_sentence0 forw_position0 None
                  (example_model true false)) = Ok (score, (h_n, c_n)) /\
     size score = [8; 7] /\ size h_n = [1; 2; 5] /\ size c_n = [1; 2; 5]).
Proof.
  refine (@scorers_return_on_documented_shapes example_shapes 3 20 4 5 1 6 8 1 30 (1 # 2)
            2 10 2 2 4 4 true true 7 1 false forw_sentence0 forw_position0 None 9 4 2
            example_well_sized eq_refl eq_refl _ _ _ _ _ _); try lia.
  - intros block [H|H]; vm_compute in H; injection H as <-; reflexivity.
  - vm_compute. reflexivity.
  - vm_compute. reflexivity.
Defined.
